(** * The virtual sensor of [sensor.py]

    A shallow embedding of the [VirtualSensor] class: the attribute store
    ([_update_attributes]), the transport callbacks ([_on_connect],
    [_on_disconnect], [_on_message]), the reconnect cycle
    ([_reconnect_with_backoff]), the publish routine ([_publish_telemetry]),
    the telemetry loop ([_telemetry_loop]) and the methods of the main
    thread ([start], [stop], [main]).

    Python integers are [Z]; a [str] is the [string] of its code points
    (those below 256); a decoded JSON payload is a [json] value.  Methods of
    the class are computations over the fields of [self] that also produce
    the list of the effects they perform (log records, transport calls,
    waits on the stop event). *)

From Stdlib Require Import ZArith List String Ascii Bool Lia SpecFloat DecimalString
  DecimalPos.
Import ListNotations.

Local Open Scope Z_scope.
Set Warnings "-register-all".

(** ** Values that [json.loads] produces

    Numbers without fraction or exponent are [JInt], the others and the
    literals [NaN] and [Infinity] are [JFloat]; a [JDict] lists the entries
    of a [dict] in insertion order, each key once. *)

Inductive json : Type :=
| JNull
| JBool (b : bool)
| JInt (z : Z)
| JFloat (f : spec_float)
| JStr (s : string)
| JList (xs : list json)
| JDict (kvs : list (string * json)).

(** Exceptions raised by the built-ins and by the transport. *)
Inductive exn : Type :=
| ValueError
| TypeError
| OverflowError
| KeyError
| UnicodeDecodeError
| JSONDecodeError
| TransportError.

Inductive outcome (A : Type) : Type :=
| Ok (a : A)
| Raise (e : exn)
| Blocked.

Arguments Ok {A} a.
Arguments Raise {A} e.
Arguments Blocked {A}.

(** ** Python built-ins used by the sensor *)

Module Py.

(** Characters that [int] strips from both ends of a [str]
    (tab to carriage return, space, NEL and the no-break space). *)
Definition is_space (c : ascii) : bool :=
  let n := N_of_ascii c in
  ((9 <=? n) && (n <=? 13) || (n =? 32) || (n =? 133) || (n =? 160))%N.

Definition is_digit (c : ascii) : bool :=
  let n := N_of_ascii c in ((48 <=? n) && (n <=? 57))%N.

Definition digit_value (c : ascii) : Z := Z.of_N (N_of_ascii c) - 48.

Fixpoint lstrip (cs : list ascii) : list ascii :=
  match cs with
  | c :: cs' => if is_space c then lstrip cs' else cs
  | [] => []
  end.

Definition strip (cs : list ascii) : list ascii :=
  rev (lstrip (rev (lstrip cs))).

(** Decimal digits, single underscores allowed between two digits.
    [prev] tells whether the character just read was a digit. *)
Fixpoint digits (acc : Z) (prev : bool) (cs : list ascii) : option Z :=
  match cs with
  | [] => if prev then Some acc else None
  | c :: cs' =>
      if is_digit c then digits (10 * acc + digit_value c) true cs'
      else if (Ascii.eqb c "_"%char && prev)%bool then digits acc false cs'
      else None
  end.

(** The literal is too long for [int] when it has more digits than
    [limit] ([sys.get_int_max_str_digits()]; 0 is no limit). *)
Definition too_many_digits (limit : N) (cs : list ascii) : bool :=
  (negb (limit =? 0) && (limit <? N.of_nat (List.length (filter is_digit cs))))%N.

(** [int(s)] for a [str] in base 10: [None] is [ValueError]. *)
Definition int_of_str (limit : N) (s : string) : option Z :=
  let cs := strip (list_ascii_of_string s) in
  if too_many_digits limit cs then None
  else
    match cs with
    | c :: cs' =>
        if Ascii.eqb c "-"%char then option_map Z.opp (digits 0 false cs')
        else if Ascii.eqb c "+"%char then digits 0 false cs'
        else digits 0 false cs
    | [] => None
    end.

(** [int(f)] for a [float]: truncation toward zero. *)
Definition int_of_float (f : spec_float) : outcome Z :=
  match f with
  | S754_zero _ => Ok 0
  | S754_infinity _ => Raise OverflowError
  | S754_nan => Raise ValueError
  | S754_finite sign m e =>
      let magnitude :=
        if 0 <=? e then Z.pos m * 2 ^ e else Z.pos m / 2 ^ (- e) in
      Ok (if sign then - magnitude else magnitude)
  end.

(** [int(v)] *)
Definition int (limit : N) (v : json) : outcome Z :=
  match v with
  | JNull => Raise TypeError
  | JBool b => Ok (if b then 1 else 0)
  | JInt z => Ok z
  | JFloat f => int_of_float f
  | JStr s =>
      match int_of_str limit s with Some z => Ok z | None => Raise ValueError end
  | JList _ => Raise TypeError
  | JDict _ => Raise TypeError
  end.

(** [bool(v)]: the truth value of [v]; it never raises. *)
Definition bool (v : json) : Datatypes.bool :=
  match v with
  | JNull => false
  | JBool b => b
  | JInt z => negb (z =? 0)
  | JFloat (S754_zero _) => false
  | JFloat _ => true
  | JStr s => negb (String.eqb s EmptyString)
  | JList xs => match xs with [] => false | _ :: _ => true end
  | JDict kvs => match kvs with [] => false | _ :: _ => true end
  end.

Definition str_of_int (z : Z) : string := NilZero.string_of_int (Z.to_int z).

Fixpoint join (sep : string) (parts : list string) : string :=
  match parts with
  | [] => EmptyString
  | [p] => p
  | p :: ps => (p ++ sep ++ join sep ps)%string
  end.

Section Repr.
(** The text of a float ([repr] gives the shortest decimal that reads
    back) and the quoted form of a string are left to the interpreter. *)
Variable float_repr : spec_float -> string.
Variable str_repr : string -> string.

Fixpoint repr (v : json) : string :=
  match v with
  | JNull => "None"
  | JBool true => "True"
  | JBool false => "False"
  | JInt z => str_of_int z
  | JFloat f => float_repr f
  | JStr s => str_repr s
  | JList xs => ("[" ++ join ", " (map repr xs) ++ "]")%string
  | JDict kvs =>
      ("{" ++ join ", "
         (map (fun kv => (str_repr (fst kv) ++ ": " ++ repr (snd kv))%string) kvs)
       ++ "}")%string
  end.

(** [str(v)]: a string is itself, any other value is its [repr]. *)
Definition str (v : json) : string :=
  match v with
  | JStr s => s
  | _ => repr v
  end.
End Repr.

(** [needle in hay] for two strings. *)
Fixpoint is_substring (needle hay : string) : Datatypes.bool :=
  if prefix needle hay then true
  else match hay with
       | EmptyString => false
       | String _ hay' => is_substring needle hay'
       end.

Fixpoint lookup (key : string) (kvs : list (string * json)) : option json :=
  match kvs with
  | [] => None
  | (k, v) :: kvs' => if String.eqb k key then Some v else lookup key kvs'
  end.

(** [key in container] *)
Definition contains (key : string) (container : json) : outcome Datatypes.bool :=
  match container with
  | JDict kvs => Ok (match lookup key kvs with Some _ => true | None => false end)
  | JList xs =>
      Ok (existsb (fun x => match x with JStr s => String.eqb s key | _ => false end) xs)
  | JStr s => Ok (is_substring key s)
  | JNull | JBool _ | JInt _ | JFloat _ => Raise TypeError
  end.

(** [container[key]] for a string [key] *)
Definition getitem (container : json) (key : string) : outcome json :=
  match container with
  | JDict kvs => match lookup key kvs with Some v => Ok v | None => Raise KeyError end
  | _ => Raise TypeError
  end.

End Py.

(** ** Effects *)

Inductive level : Type := DEBUG | INFO | WARNING | ERROR.

(** The telemetry record that [_generate_sensor_data] returns. *)
Record telemetry : Type := { temperature : spec_float; humidity : spec_float }.

(** The log records of the module, one constructor per call of [logger]. *)
Inductive message : Type :=
| ConnectedSuccessfully
| SubscribedTo (topic : string)
| FailedToConnect (rc : Z)
| UnexpectedDisconnection (rc : Z)
| DisconnectedCleanly
| ReceivedMessage (topic : string) (payload : json)
| FailedToDecodeMessage (e : exn)
| ErrorProcessingMessage (e : exn)
| RequestedSharedAttributes
| FailedToRequestAttributes (e : exn)
| UpdatedInterval (old new : Z)
| UpdatedEnabled (old new : bool)
| UpdatedFirmwareVersion (old new : string)
| InvalidAttributeValue (e : exn)
| SimulatingOta (version : string)
| OtaSimulationCompleted
| NotConnectedSkipping
| SensorDisabledSkipping
| PublishedTelemetry (data : telemetry)
| FailedToPublish (rc : Z) (data : telemetry)
| ErrorPublishingTelemetry (e : exn)
| ReconnectAttempt (attempt limit wait_time : Z)
| ReconnectionSuccessful
| ReconnectionFailed (e : exn)
| MaxAttemptsReached
| StartingTelemetryLoop
| TelemetryLoopStopped
| StoppingSensor.

(** What a method does to the outside: a log record, a call of the
    transport client, or a wait on the stop event (with what it returned). *)
Inductive event : Type :=
| Log (lvl : level) (msg : message)
| Subscribe (topic : string)
| Publish (topic : string) (payload : json) (qos : Z)
| Reconnect
| Wait (timeout : Z) (fired : bool).

Definition trace : Type := list event.

(** ** A state, trace and exception monad *)

Definition M (S A : Type) : Type := S -> outcome A * S * trace.

Definition ret {S A} (a : A) : M S A := fun s => (Ok a, s, []).

Definition bind {S A B} (m : M S A) (k : A -> M S B) : M S B :=
  fun s =>
    match m s with
    | (Ok a, s1, t1) => let '(r, s2, t2) := k a s1 in (r, s2, t1 ++ t2)
    | (Raise e, s1, t1) => (Raise e, s1, t1)
    | (Blocked, s1, t1) => (Blocked, s1, t1)
    end.

Definition gets {S A} (f : S -> A) : M S A := fun s => (Ok (f s), s, []).
Definition modify {S} (f : S -> S) : M S unit := fun s => (Ok tt, f s, []).
Definition emit {S} (e : event) : M S unit := fun s => (Ok tt, s, [e]).
Definition log {S} (lvl : level) (msg : message) : M S unit := emit (Log lvl msg).
Definition raise {S A} (e : exn) : M S A := fun s => (Raise e, s, []).
Definition blocked {S A} : M S A := fun s => (Blocked, s, []).

(** A built-in's result, brought into the monad. *)
Definition call {S A} (r : outcome A) : M S A := fun s => (r, s, []).

(** [try: body / except <caught>: handler] *)
Definition try_except {S A} (body : M S A) (caught : exn -> bool)
    (handler : exn -> M S A) : M S A :=
  fun s =>
    match body s with
    | (Raise e, s1, t1) =>
        if caught e
        then let '(r, s2, t2) := handler e s1 in (r, s2, t1 ++ t2)
        else (Raise e, s1, t1)
    | other => other
    end.

Definition when {S} (b : bool) (m : M S unit) : M S unit :=
  if b then m else ret tt.

Declare Scope monad_scope.
Delimit Scope monad_scope with monad.
Notation "x <- m ;; k" := (bind m (fun x => k))
  (at level 61, m at next level, right associativity) : monad_scope.
Notation "m ;; k" := (bind m (fun _ => k))
  (at level 61, right associativity) : monad_scope.

(** [except (ValueError, TypeError)], subclasses included. *)
Definition is_value_or_type_error (e : exn) : bool :=
  match e with
  | ValueError | TypeError | UnicodeDecodeError | JSONDecodeError => true
  | OverflowError | KeyError | TransportError => false
  end.

(** [except Exception] *)
Definition is_exception (e : exn) : bool := true.

(** ** The sensor object *)

Definition THINGSBOARD_HOST : string := "eu.thingsboard.cloud".
Definition THINGSBOARD_PORT : Z := 1883.
Definition DEVICE_NAME : string := "VirtualSensor01".
Definition TELEMETRY_TOPIC : string := "v1/devices/me/telemetry".
Definition ATTRIBUTES_SUBSCRIBE_TOPIC : string := "v1/devices/me/attributes".
Definition ATTRIBUTES_REQUEST_TOPIC : string := "v1/devices/me/attributes/request/1".
Definition ATTRIBUTES_RESPONSE_TOPIC : string := "v1/devices/me/attributes/response/1".
Definition MQTT_ERR_SUCCESS : Z := 0.

(** The fields of [self]; [stop_event] is the flag of the [Event]. *)
Record sensor : Type := {
  interval : Z;
  enabled : bool;
  firmware_version : string;
  stop_event : bool;
  connected : bool;
  reconnect_delay : Z;
  max_reconnect_attempts : Z;
  reconnect_attempts : Z
}.

(** [__init__] *)
Definition init : sensor := {|
  interval := 5;
  enabled := true;
  firmware_version := "1.0";
  stop_event := false;
  connected := false;
  reconnect_delay := 5;
  max_reconnect_attempts := 5;
  reconnect_attempts := 0
|}.

Definition set_interval (v : Z) (s : sensor) : sensor :=
  {| interval := v; enabled := enabled s; firmware_version := firmware_version s;
     stop_event := stop_event s; connected := connected s;
     reconnect_delay := reconnect_delay s;
     max_reconnect_attempts := max_reconnect_attempts s;
     reconnect_attempts := reconnect_attempts s |}.

Definition set_enabled (v : bool) (s : sensor) : sensor :=
  {| interval := interval s; enabled := v; firmware_version := firmware_version s;
     stop_event := stop_event s; connected := connected s;
     reconnect_delay := reconnect_delay s;
     max_reconnect_attempts := max_reconnect_attempts s;
     reconnect_attempts := reconnect_attempts s |}.

Definition set_firmware_version (v : string) (s : sensor) : sensor :=
  {| interval := interval s; enabled := enabled s; firmware_version := v;
     stop_event := stop_event s; connected := connected s;
     reconnect_delay := reconnect_delay s;
     max_reconnect_attempts := max_reconnect_attempts s;
     reconnect_attempts := reconnect_attempts s |}.

Definition set_stop_event (v : bool) (s : sensor) : sensor :=
  {| interval := interval s; enabled := enabled s; firmware_version := firmware_version s;
     stop_event := v; connected := connected s;
     reconnect_delay := reconnect_delay s;
     max_reconnect_attempts := max_reconnect_attempts s;
     reconnect_attempts := reconnect_attempts s |}.

Definition set_connected (v : bool) (s : sensor) : sensor :=
  {| interval := interval s; enabled := enabled s; firmware_version := firmware_version s;
     stop_event := stop_event s; connected := v;
     reconnect_delay := reconnect_delay s;
     max_reconnect_attempts := max_reconnect_attempts s;
     reconnect_attempts := reconnect_attempts s |}.

Definition set_reconnect_attempts (v : Z) (s : sensor) : sensor :=
  {| interval := interval s; enabled := enabled s; firmware_version := firmware_version s;
     stop_event := stop_event s; connected := connected s;
     reconnect_delay := reconnect_delay s;
     max_reconnect_attempts := max_reconnect_attempts s;
     reconnect_attempts := v |}.

(** What the transport answers to [client.publish]: a result whose [rc]
    is read, or an exception. *)
Inductive publish_result : Type :=
| PublishRc (rc : Z)
| PublishRaises (e : exn).

(** [msg.payload] as [json.loads(msg.payload.decode())] sees it. *)
Inductive inbound : Type :=
| NotUtf8
| NotJson
| Parsed (payload : json).

Definition loads (p : inbound) : outcome json :=
  match p with
  | NotUtf8 => Raise UnicodeDecodeError
  | NotJson => Raise JSONDecodeError
  | Parsed payload => Ok payload
  end.

Definition is_json_decode_error (e : exn) : bool :=
  match e with JSONDecodeError => true | _ => false end.

(** [client.publish(topic, payload, qos)] *)
Definition client_publish {S} (topic : string) (payload : json) (qos : Z)
    (answer : publish_result) : M S Z :=
  fun s =>
    match answer with
    | PublishRc rc => (Ok rc, s, [Publish topic payload qos])
    | PublishRaises e => (Raise e, s, [Publish topic payload qos])
    end.

(** What the sensor takes from the interpreter and the platform without
    the model spelling it out: the text [repr] gives for a float, the
    quoted form it gives for a string, the number of digits [int] reads
    from a string ([sys.get_int_max_str_digits()], 0 for no limit) and the
    longest timeout a wait accepts ([threading.TIMEOUT_MAX]). *)
Record interpreter : Type := {
  float_repr : spec_float -> string;
  str_repr : string -> string;
  int_max_str_digits : N;
  TIMEOUT_MAX : Z
}.

Section Sensor.
Variable py : interpreter.

Local Open Scope monad_scope.

(** [_request_attributes]; [answer] is what the transport does with the
    request. *)
Definition _request_attributes (answer : publish_result) : M sensor unit :=
  try_except
    (client_publish ATTRIBUTES_REQUEST_TOPIC
       (JDict [("clientKeys"%string, JStr "interval,enabled,firmware_version")]) 1
       answer ;;
     log INFO RequestedSharedAttributes)
    is_exception
    (fun e => log ERROR (FailedToRequestAttributes e)).

(** [_on_connect] *)
Definition _on_connect (rc : Z) (answer : publish_result) : M sensor unit :=
  if rc =? 0 then
    log INFO ConnectedSuccessfully ;;
    modify (set_connected true) ;;
    modify (set_reconnect_attempts 0) ;;
    emit (Subscribe ATTRIBUTES_SUBSCRIBE_TOPIC) ;;
    log INFO (SubscribedTo ATTRIBUTES_SUBSCRIBE_TOPIC) ;;
    _request_attributes answer
  else
    log ERROR (FailedToConnect rc) ;;
    modify (set_connected false).

(** [_on_disconnect] *)
Definition _on_disconnect (rc : Z) : M sensor unit :=
  (if negb (rc =? 0) then log WARNING (UnexpectedDisconnection rc)
   else log INFO DisconnectedCleanly) ;;
  modify (set_connected false).

(** [_simulate_ota] *)
Definition _simulate_ota : M sensor unit :=
  version <- gets firmware_version ;;
  log INFO (SimulatingOta version) ;;
  log INFO OtaSimulationCompleted.

(** [_update_attributes]: the three keys are read inside one [try]. *)
Definition _update_attributes (attributes : json) : M sensor unit :=
  try_except
    (has_interval <- call (Py.contains "interval" attributes) ;;
     when has_interval
       (old_interval <- gets interval ;;
        raw <- call (Py.getitem attributes "interval") ;;
        n <- call (Py.int (int_max_str_digits py) raw) ;;
        modify (set_interval (Z.max 1 n)) ;;
        new_interval <- gets interval ;;
        when (negb (old_interval =? new_interval))
          (log INFO (UpdatedInterval old_interval new_interval))) ;;
     has_enabled <- call (Py.contains "enabled" attributes) ;;
     when has_enabled
       (old_enabled <- gets enabled ;;
        raw <- call (Py.getitem attributes "enabled") ;;
        modify (set_enabled (Py.bool raw)) ;;
        new_enabled <- gets enabled ;;
        when (negb (Bool.eqb old_enabled new_enabled))
          (log INFO (UpdatedEnabled old_enabled new_enabled))) ;;
     has_version <- call (Py.contains "firmware_version" attributes) ;;
     when has_version
       (old_version <- gets firmware_version ;;
        raw <- call (Py.getitem attributes "firmware_version") ;;
        modify (set_firmware_version (Py.str (float_repr py) (str_repr py) raw)) ;;
        new_version <- gets firmware_version ;;
        when (negb (String.eqb old_version new_version))
          (log INFO (UpdatedFirmwareVersion old_version new_version) ;;
           _simulate_ota)))
    is_value_or_type_error
    (fun e => log ERROR (InvalidAttributeValue e)).

(** [_on_message] *)
Definition _on_message (topic : string) (body : inbound) : M sensor unit :=
  try_except
    (payload <- call (loads body) ;;
     log INFO (ReceivedMessage topic payload) ;;
     has_shared <- call (Py.contains "shared" payload) ;;
     if has_shared then
       shared <- call (Py.getitem payload "shared") ;;
       _update_attributes shared
     else
       has_response <- call (Py.contains "response" payload) ;;
       when has_response (_update_attributes payload))
    is_exception
    (fun e => if is_json_decode_error e
              then log ERROR (FailedToDecodeMessage e)
              else log ERROR (ErrorProcessingMessage e)).

(** ** The other threads

    The callbacks run on the transport's thread and [stop] on the main
    thread, while the telemetry loop runs on its own.  An [action] is one
    of their steps on the fields of [self]. *)
Inductive action : Type :=
| OnConnect (rc : Z) (answer : publish_result)
| OnDisconnect (rc : Z)
| OnMessage (topic : string) (body : inbound)
| StopSet.

(** [StopSet] is the [self.stop_event.set()] of [stop]; the other
    statements of [stop] read and write no field. *)
Definition act (a : action) : M sensor unit :=
  match a with
  | OnConnect rc answer => _on_connect rc answer
  | OnDisconnect rc => _on_disconnect rc
  | OnMessage topic body => _on_message topic body
  | StopSet => log INFO StoppingSensor ;; modify (set_stop_event true)
  end.

(** The callbacks delivered one after the other; each is a call of its
    own, so what one of them raises does not reach the next. *)
Fixpoint deliver (acts : list action) (s : sensor) : sensor * trace :=
  match acts with
  | [] => (s, [])
  | a :: acts' =>
      let '(_, s1, t1) := act a s in
      let '(s2, t2) := deliver acts' s1 in
      (s2, t1 ++ t2)
  end.

(** ** The telemetry thread and its surroundings

    The thread meets the rest of the world where it blocks on the stop
    event or calls the transport.  A [world] lists, in order, what it
    will meet: for each wait that starts with the event clear, the
    actions of the other threads until the wait returns; for each
    [client.reconnect()], the exception it raises, if any; the records
    of the telemetry source; the answers of [client.publish].  A run
    that needs an entry the world does not have is [Blocked] there. *)
Record world : Type := {
  waits : list (list action);
  reconnects : list (option exn);
  samples : list telemetry;
  publishes : list publish_result
}.

Record machine : Type := { self : sensor; env : world }.

Definition set_waits (ws : list (list action)) (w : world) : world :=
  {| waits := ws; reconnects := reconnects w; samples := samples w;
     publishes := publishes w |}.

Definition set_reconnects (rs : list (option exn)) (w : world) : world :=
  {| waits := waits w; reconnects := rs; samples := samples w;
     publishes := publishes w |}.

Definition set_samples (ds : list telemetry) (w : world) : world :=
  {| waits := waits w; reconnects := reconnects w; samples := ds;
     publishes := publishes w |}.

Definition set_publishes (ps : list publish_result) (w : world) : world :=
  {| waits := waits w; reconnects := reconnects w; samples := samples w;
     publishes := ps |}.

Definition lift {A} (m : M sensor A) : M machine A :=
  fun st =>
    let '(r, s', t) := m (self st) in (r, {| self := s'; env := env st |}, t).

(** Reading a field of [self]. *)
Definition field {A} (f : sensor -> A) : M machine A :=
  fun st => (Ok (f (self st)), st, []).

(** [self.stop_event.wait(timeout)]: at once when the event is set;
    otherwise a timeout too large for the platform raises, and any other
    wait lasts until the event is set or the time is over. *)
Definition wait (timeout : Z) : M machine bool :=
  fun st =>
    if stop_event (self st) then (Ok true, st, [Wait timeout true])
    else if TIMEOUT_MAX py <? timeout then (Raise OverflowError, st, [])
    else
      match waits (env st) with
      | [] => (Blocked, st, [])
      | acts :: rest =>
          let '(s', t) := deliver acts (self st) in
          (Ok (stop_event s'),
           {| self := s'; env := set_waits rest (env st) |},
           t ++ [Wait timeout (stop_event s')])
      end.

(** [self.client.reconnect()] *)
Definition client_reconnect : M machine unit :=
  fun st =>
    match reconnects (env st) with
    | [] => (Blocked, st, [])
    | r :: rest =>
        let st' := {| self := self st; env := set_reconnects rest (env st) |} in
        match r with
        | None => (Ok tt, st', [Reconnect])
        | Some e => (Raise e, st', [Reconnect])
        end
    end.

(** [_generate_sensor_data]: the next record of the source. *)
Definition _generate_sensor_data : M machine telemetry :=
  fun st =>
    match samples (env st) with
    | [] => (Blocked, st, [])
    | d :: rest => (Ok d, {| self := self st; env := set_samples rest (env st) |}, [])
    end.

Definition next_publish_answer : M machine publish_result :=
  fun st =>
    match publishes (env st) with
    | [] => (Blocked, st, [])
    | a :: rest => (Ok a, {| self := self st; env := set_publishes rest (env st) |}, [])
    end.

(** The value that [json.dumps(data)] writes out. *)
Definition dumps (data : telemetry) : json :=
  JDict [("temperature"%string, JFloat (temperature data));
         ("humidity"%string, JFloat (humidity data))].

(** [_publish_telemetry] *)
Definition _publish_telemetry : M machine unit :=
  is_connected <- field connected ;;
  if negb is_connected then log WARNING NotConnectedSkipping
  else
    is_enabled <- field enabled ;;
    if negb is_enabled then log DEBUG SensorDisabledSkipping
    else
      try_except
        (data <- _generate_sensor_data ;;
         answer <- next_publish_answer ;;
         rc <- client_publish TELEMETRY_TOPIC (dumps data) 1 answer ;;
         if rc =? MQTT_ERR_SUCCESS then log INFO (PublishedTelemetry data)
         else log WARNING (FailedToPublish rc data))
        is_exception
        (fun e => log ERROR (ErrorPublishingTelemetry e)).

(** How one turn of the [while] of [_reconnect_with_backoff] ends. *)
Inductive flow : Type := Continue | Break | Return.

(** [wait_time] of attempt number [attempt].  The counter has just been
    incremented there and is at least 1, so the exponent is not negative
    and the power is an integer. *)
Definition backoff (delay attempt : Z) : Z := delay * 2 ^ (attempt - 1).

(** [self.reconnect_attempts += 1] *)
Definition bump (s : sensor) : sensor :=
  set_reconnect_attempts (reconnect_attempts s + 1) s.

(** The body of the [while] of [_reconnect_with_backoff]. *)
Definition reconnect_body : M machine flow :=
  lift (modify bump) ;;
  attempt <- field reconnect_attempts ;;
  delay <- field reconnect_delay ;;
  limit <- field max_reconnect_attempts ;;
  let wait_time := backoff delay attempt in
  log INFO (ReconnectAttempt attempt limit wait_time) ;;
  fired <- wait wait_time ;;
  if fired then ret Break
  else
    try_except
      (client_reconnect ;;
       log INFO ReconnectionSuccessful ;;
       ret Return)
      is_exception
      (fun e => log WARNING (ReconnectionFailed e) ;; ret Continue).

(** The [while] itself; [Continue] is its exit by the condition. *)
Fixpoint reconnect_while (fuel : nat) : M machine flow :=
  match fuel with
  | O => blocked
  | S fuel' =>
      is_connected <- field connected ;;
      attempts <- field reconnect_attempts ;;
      limit <- field max_reconnect_attempts ;;
      if (negb is_connected && (attempts <? limit))%bool then
        f <- reconnect_body ;;
        match f with
        | Continue => reconnect_while fuel'
        | Break => ret Break
        | Return => ret Return
        end
      else ret Continue
  end.

(** [_reconnect_with_backoff].  Every turn of the [while] that goes on
    uses up one entry of [waits], so one more turn than there are
    entries is all a world can feed. *)
Definition _reconnect_with_backoff : M machine unit :=
  fun st =>
    (f <- reconnect_while (S (List.length (waits (env st)))) ;;
     match f with
     | Return => ret tt
     | Continue | Break =>
         attempts <- field reconnect_attempts ;;
         limit <- field max_reconnect_attempts ;;
         when (limit <=? attempts) (log ERROR MaxAttemptsReached)
     end) st.

(** The [while] of [_telemetry_loop]. *)
Fixpoint telemetry_while (fuel : nat) : M machine unit :=
  match fuel with
  | O => blocked
  | S fuel' =>
      stopped <- field stop_event ;;
      if stopped then ret tt
      else
        is_connected <- field connected ;;
        skip <-
          (if negb is_connected then
             _reconnect_with_backoff ;;
             still_connected <- field connected ;;
             if negb still_connected then
               delay <- field reconnect_delay ;;
               wait delay ;;
               ret true
             else ret false
           else ret false) ;;
        if (skip : bool) then telemetry_while fuel'
        else
          _publish_telemetry ;;
          seconds <- field interval ;;
          wait seconds ;;
          telemetry_while fuel'
  end.

(** [_telemetry_loop].  A turn of its [while] that is followed by
    another uses up one entry of [waits]. *)
Definition _telemetry_loop : M machine unit :=
  fun st =>
    (log INFO StartingTelemetryLoop ;;
     telemetry_while (S (S (List.length (waits (env st))))) ;;
     log INFO TelemetryLoopStopped) st.

(** ** Starting and stopping

    [start], [stop] and [main] run on the main thread.  Besides the
    effects of the class they connect, start and stop the loop of the
    transport, sleep, and start and join the telemetry thread. *)

(** The log records of [start], [stop] and [main]. *)
Inductive lifecycle_message : Type :=
| StartingSensor (name host : string) (port : Z)
| SensorStartedSuccessfully
| FailedToStartSensor (e : exn)
| SensorStoppedSuccessfully
| ErrorDuringShutdown (e : exn)
| KeyboardInterruptReceived
| ApplicationExited.

Inductive step : Type :=
| Effect (ev : event)
| Note (lvl : level) (msg : lifecycle_message)
| ClientConnect (host : string) (port keepalive : Z)
| LoopStart
| LoopStop
| ClientDisconnect
| Sleep (seconds : Z)
| ThreadStart
| ThreadJoin (timeout : Z).

(** The exception, if any, that each call of the transport and the start
    of the thread raise.  Sleeping, joining and logging return. *)
Record platform : Type := {
  connect_raises : option exn;
  loop_start_raises : option exn;
  thread_start_raises : option exn;
  loop_stop_raises : option exn;
  disconnect_raises : option exn
}.

(** A method of the main thread: a computation over the fields of [self]
    that lists its steps. *)
Definition L (A : Type) : Type := sensor -> outcome A * sensor * list step.

Definition and_then {A B} (m : L A) (k : A -> L B) : L B :=
  fun s =>
    match m s with
    | (Ok a, s1, t1) => let '(r, s2, t2) := k a s1 in (r, s2, t1 ++ t2)
    | (Raise e, s1, t1) => (Raise e, s1, t1)
    | (Blocked, s1, t1) => (Blocked, s1, t1)
    end.

Definition note (lvl : level) (msg : lifecycle_message) : L unit :=
  fun s => (Ok tt, s, [Note lvl msg]).

(** A call that the platform answers. *)
Definition perform (call : step) (raises : option exn) : L unit :=
  fun s =>
    match raises with
    | None => (Ok tt, s, [call])
    | Some e => (Raise e, s, [call])
    end.

Definition reraise {A} (e : exn) : L A := fun s => (Raise e, s, []).

(** A computation of the class, run on the main thread. *)
Definition of_sensor {A} (m : M sensor A) : L A :=
  fun s => let '(r, s1, t) := m s in (r, s1, map Effect t).

(** [try: body / except Exception as e: handler] *)
Definition guard {A} (body : L A) (handler : exn -> L A) : L A :=
  fun s =>
    match body s with
    | (Raise e, s1, t1) => let '(r, s2, t2) := handler e s1 in (r, s2, t1 ++ t2)
    | other => other
    end.

Declare Scope lifecycle_scope.
Delimit Scope lifecycle_scope with lifecycle.
Notation "m ;; k" := (and_then m (fun _ => k))
  (at level 61, right associativity) : lifecycle_scope.

(** [start]; the thread it returns is not part of the model. *)
Definition start (p : platform) : L unit :=
  guard
    (note INFO (StartingSensor DEVICE_NAME THINGSBOARD_HOST THINGSBOARD_PORT) ;;
     perform (ClientConnect THINGSBOARD_HOST THINGSBOARD_PORT 60) (connect_raises p) ;;
     perform LoopStart (loop_start_raises p) ;;
     perform (Sleep 2) None ;;
     perform ThreadStart (thread_start_raises p) ;;
     note INFO SensorStartedSuccessfully)%lifecycle
    (fun e => (note ERROR (FailedToStartSensor e) ;; reraise e)%lifecycle).

(** [stop]: its first two statements are the action [StopSet]. *)
Definition stop (p : platform) : L unit :=
  (of_sensor (act StopSet) ;;
   guard
     (perform (Sleep 1) None ;;
      perform LoopStop (loop_stop_raises p) ;;
      perform ClientDisconnect (disconnect_raises p) ;;
      note INFO SensorStoppedSuccessfully)
     (fun e => note ERROR (ErrorDuringShutdown e)))%lifecycle.

(** [main], for a run in which the keyboard interrupt arrives after
    [naps] sleeps of the main thread were begun.  [start] is outside the
    [try], so what it raises leaves [main] at once.  The fields are those
    that the main thread writes; its steps do not depend on what the
    other threads write meanwhile. *)
Definition main (p : platform) (naps : nat) : outcome unit * sensor * list step :=
  (start p ;;
   (fun s => (Ok tt, s, repeat (Sleep 1) naps)) ;;
   note INFO KeyboardInterruptReceived ;;
   stop p ;;
   perform (ThreadJoin 5) None ;;
   note INFO ApplicationExited)%lifecycle init.

(** Reading a run of the main thread. *)
Definition ending {A} (run : outcome A * sensor * list step) : outcome A :=
  fst (fst run).
Definition object {A} (run : outcome A * sensor * list step) : sensor :=
  snd (fst run).
Definition steps {A} (run : outcome A * sensor * list step) : list step := snd run.

(** ** Reading a run *)

Definition result {S A} (run : outcome A * S * trace) : outcome A := fst (fst run).
Definition final {S A} (run : outcome A * S * trace) : S := snd (fst run).
Definition effects {S A} (run : outcome A * S * trace) : trace := snd run.

(** The calls of [_simulate_ota] in a trace, each with the version it
    announces. *)
Fixpoint ota_calls (t : trace) : list string :=
  match t with
  | [] => []
  | Log _ (SimulatingOta version) :: t' => version :: ota_calls t'
  | _ :: t' => ota_calls t'
  end.

(** The timeouts of the waits on the stop event, in order. *)
Fixpoint wait_timeouts (t : trace) : list Z :=
  match t with
  | [] => []
  | Wait timeout _ :: t' => timeout :: wait_timeouts t'
  | _ :: t' => wait_timeouts t'
  end.

(** The calls of [client.reconnect()]. *)
Fixpoint reconnect_calls (t : trace) : nat :=
  match t with
  | [] => O
  | Reconnect :: t' => S (reconnect_calls t')
  | _ :: t' => reconnect_calls t'
  end.

(** The turns of the reconnect [while] that were started. *)
Fixpoint attempts_started (t : trace) : nat :=
  match t with
  | [] => O
  | Log _ (ReconnectAttempt _ _ _) :: t' => S (attempts_started t')
  | _ :: t' => attempts_started t'
  end.

(** The payloads handed to [client.publish] on the telemetry topic. *)
Fixpoint telemetry_publishes (t : trace) : list json :=
  match t with
  | [] => []
  | Publish topic payload _ :: t' =>
      if String.eqb topic TELEMETRY_TOPIC then payload :: telemetry_publishes t'
      else telemetry_publishes t'
  | _ :: t' => telemetry_publishes t'
  end.

(** The part of a trace that follows the first wait that found the stop
    event set. *)
Fixpoint after_stop_observed (t : trace) : option trace :=
  match t with
  | [] => None
  | Wait _ true :: t' => Some t'
  | _ :: t' => after_stop_observed t'
  end.

(** A successful [_on_connect] is the one action that writes the attempt
    counter. *)
Definition resets (a : action) : bool :=
  match a with
  | OnConnect rc _ => rc =? 0
  | _ => false
  end.

Definition quiet (w : world) : Prop :=
  Forall (fun acts => Forall (fun a => resets a = false) acts) (waits w).

(** Whether the [interval] entry of an update, if any, is accepted by [int]. *)
Definition interval_accepted (kvs : list (string * json)) : bool :=
  match Py.lookup "interval" kvs with
  | None => true
  | Some v =>
      match Py.int (int_max_str_digits py) v with Ok _ => true | _ => false end
  end.

(** ** Concrete runs *)

(** Eight waits that nothing interrupts and eight refused reconnects. *)
Definition refusing_world : world :=
  {| waits := [[]; []; []; []; []; []; []; []];
     reconnects := repeat (Some TransportError) 8;
     samples := [];
     publishes := [] |}.

Definition sample_record : telemetry :=
  {| temperature := S754_finite false 21 0; humidity := S754_finite false 50 0 |}.

(** During the first backoff wait the transport reports a connection and
    then [stop] is called. *)
Definition late_connect_world : world :=
  {| waits := [[OnConnect 0 (PublishRc 0); StopSet]];
     reconnects := [];
     samples := [sample_record];
     publishes := [PublishRc 0] |}.

(** A message asking for an interval of -3 arrives while the loop waits. *)
Definition message_world : world :=
  {| waits := [[OnMessage ATTRIBUTES_SUBSCRIBE_TOPIC
                  (Parsed (JDict [("shared"%string,
                                   JDict [("interval"%string, JInt (-3))])]))]];
     reconnects := [Some TransportError];
     samples := [];
     publishes := [] |}.

Definition connected_sensor : sensor := set_connected true init.

Definition publishing_world (answer : publish_result) : world :=
  {| waits := []; reconnects := []; samples := [sample_record];
     publishes := [answer] |}.

(** The three requested keys in a flat mapping. *)
Definition flat_response : json :=
  JDict [("interval"%string, JInt 10); ("enabled"%string, JBool false);
         ("firmware_version"%string, JStr "1.1")].

(** A connected sensor whose interval is beyond what a wait accepts. *)
Definition oversized_sensor : sensor := set_interval 10000000000 connected_sensor.

(** Nothing interrupts the waits and [client.reconnect()] returns, yet no
    connection is ever reported. *)
Definition returning_world : world :=
  {| waits := [[]; []; []];
     reconnects := [None; None];
     samples := [sample_record];
     publishes := [PublishRc 0] |}.

(** The link goes down during one wait and comes back during the next. *)
Definition flapping_world : world :=
  {| waits := [[OnDisconnect 1]; [OnConnect 0 (PublishRc 0)]; []];
     reconnects := [None];
     samples := [sample_record];
     publishes := [PublishRc 0] |}.

(** A message that sets the interval to 10 arrives during the first wait. *)
Definition retimed_world : world :=
  {| waits := [[OnMessage ATTRIBUTES_SUBSCRIBE_TOPIC
                  (Parsed (JDict [("shared"%string,
                                   JDict [("interval"%string, JInt 10)])]))];
               []];
     reconnects := [];
     samples := [sample_record; sample_record];
     publishes := [PublishRc 0; PublishRc 0] |}.

(** One uninterrupted wait, then a reconnect that returns. *)
Definition reconnecting_world : world :=
  {| waits := [[]]; reconnects := [None]; samples := []; publishes := [] |}.

(** An interpreter for the concrete runs at the end, with the limits of
    CPython 3.11 on a 64-bit clock.  The two texts are stand-ins, which no
    run calls, as none of their inputs holds a float or a string inside a
    list or mapping under [firmware_version]. *)
Definition sample_interpreter : interpreter :=
  {| float_repr := (fun _ => "nan"%string);
     str_repr := (fun s => s);
     int_max_str_digits := 4300;
     TIMEOUT_MAX := 9223372036 |}.

(** A condition on the attempts that a trace announces. *)
Definition event_ok (attempt_ok : Z -> Z -> Z -> Prop) (ev : event) : Prop :=
  match ev with
  | Log _ (ReconnectAttempt attempt limit wait_time) => attempt_ok attempt limit wait_time
  | _ => True
  end.

(** [m] keeps [Inv] on the fields of [self] and announces only attempts
    that meet [attempt_ok]. *)
Definition respects (Inv : sensor -> Prop) (attempt_ok : Z -> Z -> Z -> Prop)
    {A} (m : M machine A) : Prop :=
  forall st, Inv (self st) ->
    Inv (self (final (m st))) /\ Forall (event_ok attempt_ok) (effects (m st)).

(** What a callback or [stop] can do to the outside: log records other
    than the announcement of an attempt, the subscription, and the
    publish of the attribute request. *)
Definition callback_event (ev : event) : Prop :=
  match ev with
  | Log _ (ReconnectAttempt _ _ _) => False
  | Log _ _ => True
  | Subscribe _ => True
  | Publish topic _ _ => topic = ATTRIBUTES_REQUEST_TOPIC
  | Reconnect => False
  | Wait _ _ => False
  end.

(** A stretch of a trace with no call of [client.reconnect()], no turn of
    the reconnect [while] started, and at most one telemetry publish. *)
Definition calm (t : trace) : Prop :=
  reconnect_calls t = O /\ attempts_started t = O /\
  (List.length (telemetry_publishes t) <= 1)%nat.

(** The turns of the telemetry [while] that a world can feed from [st]. *)
Definition turns_left (st : machine) : nat :=
  if stop_event (self st) then 1%nat else S (S (List.length (waits (env st)))).

(** The characters of a decimal numeral. *)
Definition numeral (d : Decimal.uint) : list ascii :=
  list_ascii_of_string (NilEmpty.string_of_uint d).

(** The calls of the transport client in a trace, without the log
    records and the waits. *)
Definition transport_calls (t : trace) : trace :=
  filter (fun ev =>
            match ev with
            | Subscribe _ | Publish _ _ _ | Reconnect => true
            | Log _ _ | Wait _ _ => false
            end) t.

(** What the connection callbacks among [acts] leave in [connected],
    given what it held before them. *)
Definition link_after (acts : list action) (before : bool) : bool :=
  fold_left (fun link a =>
               match a with
               | OnConnect rc _ => rc =? 0
               | OnDisconnect _ => false
               | OnMessage _ _ | StopSet => link
               end) acts before.

(** An event other than a publish on the telemetry topic. *)
Definition telemetry_free (ev : event) : Prop :=
  match ev with
  | Publish topic _ _ => topic <> TELEMETRY_TOPIC
  | _ => True
  end.

Definition is_message (a : action) : bool :=
  match a with
  | OnMessage _ _ => true
  | _ => false
  end.

(** In a world whose waits deliver only [allowed] actions, [m] keeps
    [Inv] on the fields of [self], leaves only events that meet [ok], and
    raises nothing but [OverflowError]. *)
Definition guarded (Inv : sensor -> Prop) (allowed : action -> Prop)
    (ok : event -> Prop) {A} (m : M machine A) : Prop :=
  forall st,
    Inv (self st) ->
    Forall (Forall allowed) (waits (env st)) ->
    (Inv (self (final (m st))) /\
     Forall (Forall allowed) (waits (env (final (m st))))) /\
    Forall ok (effects (m st)) /\
    (forall e, result (m st) = Raise e -> e = OverflowError).

(** The sum of a list of timeouts. *)
Definition total (xs : list Z) : Z := fold_right Z.add 0 xs.

(** An event other than a wait that ran to its timeout. *)
Definition immediate (ev : event) : Prop :=
  match ev with
  | Wait _ false => False
  | _ => True
  end.

(** A world whose telemetry source or whose transport has no answer left
    for [_publish_telemetry]. *)
Definition source_dry (w : world) : Prop := samples w = [] \/ publishes w = [].

(** [run] has ended with the stop event set, by returning or for want of
    an answer to a publish, and [t] holds no wait that ran to its
    timeout. *)
Definition settled {A} (run : outcome A * machine * trace) (t : trace) : Prop :=
  stop_event (self (final run)) = true /\
  ((exists a, result run = Ok a) \/
   result run = Blocked /\ source_dry (env (final run))) /\
  Forall immediate t.

(** [m] hands the records it takes from the source to [client.publish]
    in the order it took them: those it took are [published ++ lost],
    and one is lost only by a run that is left without an answer of the
    transport. *)
Definition in_order {A} (m : M machine A) : Prop :=
  forall st, exists published lost,
    samples (env st) = published ++ lost ++ samples (env (final (m st))) /\
    telemetry_publishes (effects (m st)) = map dumps published /\
    (lost = [] \/ result (m st) = Blocked).

(** The states the object can be in: [__init__], then any callback or
    [stop] from the other threads, and whatever the telemetry loop has
    done by the time it returns or blocks. *)
Inductive reachable : sensor -> Prop :=
| reach_init : reachable init
| reach_act (s : sensor) (a : action) :
    reachable s -> reachable (final (act a s))
| reach_loop (s : sensor) (w : world) :
    reachable s -> reachable (self (final (_telemetry_loop {| self := s; env := w |}))).


(** * Properties *)

Ltac run_monad :=
  unfold _update_attributes, _simulate_ota, _on_message, _on_connect,
    _on_disconnect, _request_attributes, client_publish, try_except, bind, when,
    call, gets, modify, log, emit, ret, raise, result, final, effects in *.

(** Case analysis on the innermost test or call that blocks evaluation. *)
Ltac split_match :=
  match goal with
  | |- context [match ?x with _ => _ end] =>
      lazymatch x with
      | context [match _ with _ => _ end] => fail
      | String.eqb ?a ?b => destruct (String.eqb_spec a b)
      | negb (String.eqb ?a ?b) => destruct (String.eqb_spec a b)
      | _ => destruct x eqn:?
      end
  end.

Ltac by_cases := run_monad; cbn; repeat (split_match; cbn in *).

(** ** The built-ins on sample values *)

Example int_of_values :
  Py.int 4300 (JStr " 12 ") = Ok 12 /\
  Py.int 4300 (JStr "1_000") = Ok 1000 /\
  Py.int 4300 (JStr "-5") = Ok (-5) /\
  Py.int 4300 (JStr "+007") = Ok 7 /\
  Py.int 4300 (JStr "abc") = Raise ValueError /\
  Py.int 4300 (JStr "1.5") = Raise ValueError /\
  Py.int 4300 (JStr "1__2") = Raise ValueError /\
  Py.int 4300 (JStr "_1") = Raise ValueError /\
  Py.int 4300 (JStr "- 5") = Raise ValueError /\
  Py.int 4300 (JStr "") = Raise ValueError /\
  Py.int 3 (JStr "1_234") = Raise ValueError /\
  Py.int 0 (JStr "1_234") = Ok 1234 /\
  Py.int 4300 (JFloat (S754_finite true 15 (-2))) = Ok (-3) /\
  Py.int 4300 (JFloat (S754_infinity false)) = Raise OverflowError /\
  Py.int 4300 (JFloat S754_nan) = Raise ValueError /\
  Py.int 4300 JNull = Raise TypeError /\
  Py.int 4300 (JBool true) = Ok 1 /\
  Py.int 4300 (JList []) = Raise TypeError.
Proof. repeat split; reflexivity. Qed.

Example bool_of_values :
  Py.bool (JStr "false") = true /\ Py.bool (JStr "0") = true /\
  Py.bool (JStr "") = false /\ Py.bool (JInt 0) = false /\
  Py.bool (JInt 2) = true /\ Py.bool JNull = false /\
  Py.bool (JFloat (S754_zero true)) = false /\ Py.bool (JFloat S754_nan) = true /\
  Py.bool (JList []) = false /\ Py.bool (JList [JInt 0]) = true.
Proof. repeat split; reflexivity. Qed.

Example str_of_values :
  Py.str (float_repr py) (str_repr py) (JStr "1.1") = "1.1"%string /\
  Py.str (float_repr py) (str_repr py) (JInt (-5)) = "-5"%string /\
  Py.str (float_repr py) (str_repr py) (JBool true) = "True"%string /\
  Py.str (float_repr py) (str_repr py) JNull = "None"%string /\
  Py.str (float_repr py) (str_repr py) (JList [JInt 1; JNull]) = "[1, None]"%string.
Proof. repeat split; reflexivity. Qed.

Example membership_of_values :
  Py.contains "shared" (JDict [("shared"%string, JNull)]) = Ok true /\
  Py.contains "shared" (JDict [("interval"%string, JInt 1)]) = Ok false /\
  Py.contains "shared" (JStr "unshared") = Ok true /\
  Py.contains "shared" (JList [JStr "shared"]) = Ok true /\
  Py.contains "shared" (JInt 3) = Raise TypeError /\
  Py.getitem (JStr "unshared") "shared" = Raise TypeError /\
  Py.getitem (JList [JStr "shared"]) "shared" = Raise TypeError.
Proof. repeat split; reflexivity. Qed.

(** ** The attribute store *)

(** C1, as the code has it: an [interval] value that [int] rejects ends
    the whole update there.  No field is written, the [enabled] and
    [firmware_version] entries of the same update are not applied, and the
    failure is logged once (an [OverflowError] is not caught here and
    leaves the method). *)
Theorem update_aborts_on_rejected_interval
    (s : sensor) (kvs : list (string * json)) (v : json) (e : exn) :
  Py.lookup "interval" kvs = Some v ->
  Py.int (int_max_str_digits py) v = Raise e ->
  _update_attributes (JDict kvs) s =
    if is_value_or_type_error e
    then (Ok tt, s, [Log ERROR (InvalidAttributeValue e)])
    else (Raise e, s, []).
Proof.
  intros Hkey Hint. run_monad. cbn. rewrite Hkey. cbn. rewrite Hint.
  destruct (is_value_or_type_error e); reflexivity.
Qed.

Lemma update_keeps_interval_floor (s : sensor) (attributes : json) :
  1 <= interval s -> 1 <= interval (final (_update_attributes attributes s)).
Proof.
  intros Hs. by_cases; lia.
Qed.

Lemma update_clamps_interval
    (s : sensor) (kvs : list (string * json)) (v : json) (n : Z) :
  Py.lookup "interval" kvs = Some v ->
  Py.int (int_max_str_digits py) v = Ok n ->
  interval (final (_update_attributes (JDict kvs) s)) = Z.max 1 n.
Proof.
  intros Hkey Hint. run_monad. cbn. rewrite Hkey. cbn. rewrite Hint. cbn.
  repeat (split_match; cbn in *); reflexivity.
Qed.

Lemma update_keeps_connection (s : sensor) (attributes : json) :
  let s' := final (_update_attributes attributes s) in
  connected s' = connected s /\ stop_event s' = stop_event s /\
  reconnect_delay s' = reconnect_delay s /\
  max_reconnect_attempts s' = max_reconnect_attempts s /\
  reconnect_attempts s' = reconnect_attempts s.
Proof.
  by_cases; repeat split; reflexivity.
Qed.

(** C9: the hook [_simulate_ota] runs once, announcing the stored version,
    in an update that changes the stored firmware version, and not at all
    in an update that leaves it as it was; an update that reaches its
    [firmware_version] entry stores the text of the value, so re-applying
    the stored version runs no hook. *)
Theorem ota_hook_on_version_change (s : sensor) (attributes : json) :
  let run := _update_attributes attributes s in
  (firmware_version (final run) <> firmware_version s ->
     ota_calls (effects run) = [firmware_version (final run)])
  /\ (firmware_version (final run) = firmware_version s ->
      ota_calls (effects run) = [])
  /\ (forall kvs v,
        attributes = JDict kvs ->
        Py.lookup "firmware_version" kvs = Some v ->
        interval_accepted kvs = true ->
        firmware_version (final run) = Py.str (float_repr py) (str_repr py) v).
Proof.
  split; [|split].
  - by_cases; intros; try reflexivity; try congruence;
      try (symmetry in * |-; contradiction).
  - by_cases; intros; try reflexivity; try congruence;
      try (symmetry in * |-; contradiction).
  - intros kvs v -> Hkey Hacc. unfold interval_accepted in Hacc. run_monad. cbn.
    rewrite Hkey.
    destruct (Py.lookup "interval" kvs) as [vi|]; cbn;
      [destruct (Py.int (int_max_str_digits py) vi); try discriminate; cbn|];
      repeat (split_match; cbn in *); reflexivity.
Qed.

(** C10, as the code has it: in an update whose [interval] entry is absent
    or accepted by [int], the value under [enabled] is stored as its truth
    value.  A string is true unless it is empty, and the values that
    disable the sensor are exactly the false ones: [None], [False], zero,
    the empty string, the empty list and the empty mapping. *)
Theorem enabled_is_truthiness
    (s : sensor) (kvs : list (string * json)) (v : json) :
  Py.lookup "enabled" kvs = Some v ->
  interval_accepted kvs = true ->
  enabled (final (_update_attributes (JDict kvs) s)) = Py.bool v
  /\ (forall text, text <> EmptyString -> Py.bool (JStr text) = true)
  /\ (Py.bool v = false <->
      v = JNull \/ v = JBool false \/ v = JInt 0 \/
      (exists sign, v = JFloat (S754_zero sign)) \/
      v = JStr EmptyString \/ v = JList [] \/ v = JDict []).
Proof.
  intros Hkey Hacc. split; [|split].
  - unfold interval_accepted in Hacc. run_monad. cbn. rewrite Hkey.
    destruct (Py.lookup "interval" kvs) as [vi|]; cbn;
      [destruct (Py.int (int_max_str_digits py) vi); try discriminate; cbn|];
      repeat (split_match; cbn in *); reflexivity.
  - intros text Htext. cbn. destruct text; [contradiction | reflexivity].
  - split.
    + destruct v as [ | b | z | f | text | xs | kvs']; cbn; intros H.
      * auto.
      * subst b. auto.
      * apply Bool.negb_false_iff, Z.eqb_eq in H. subst z. auto 6.
      * destruct f; try discriminate. right; right; right; left. eauto.
      * destruct text; [auto 8 | discriminate].
      * destruct xs; [auto 10 | discriminate].
      * destruct kvs'; [auto 10 | discriminate].
    + intros [-> | [-> | [-> | [[sign ->] | [-> | [-> | ->]]]]]]; reflexivity.
Qed.

(** ** The attribute store on any input *)

Lemma int_outcomes (limit : N) (v : json) :
  (exists n, Py.int limit v = Ok n) \/ Py.int limit v = Raise ValueError \/
  Py.int limit v = Raise TypeError \/ Py.int limit v = Raise OverflowError.
Proof.
  destruct v as [ | b | z | f | text | xs | kvs]; cbn; eauto.
  - destruct f; cbn; eauto.
  - destruct (Py.int_of_str limit text); eauto.
Qed.

(** Anything but a mapping is either searched in vain for the three keys
    or fails at the first one found; no field is written. *)
Lemma update_of_non_mapping (s : sensor) (attributes : json) :
  (forall kvs, attributes <> JDict kvs) ->
  _update_attributes attributes s = (Ok tt, s, []) \/
  _update_attributes attributes s =
    (Ok tt, s, [Log ERROR (InvalidAttributeValue TypeError)]).
Proof.
  intros Hnot.
  destruct attributes as [ | b | z | f | text | xs | kvs];
    try (right; reflexivity).
  - by_cases; auto.
  - run_monad. cbn.
    repeat match goal with
           | |- context [existsb ?f xs] => destruct (existsb f xs); cbn
           end; auto.
  - exfalso. apply (Hnot kvs). reflexivity.
Qed.

(** The two ways an update with something else than a mapping ends. *)
Ltac non_mapping s :=
  match goal with
  | |- context [_update_attributes ?a s] =>
      lazymatch a with
      | JDict _ => fail
      | _ =>
          let E := fresh "E" in
          destruct (update_of_non_mapping s a) as [E | E];
            [intros ?; discriminate | |]
      end
  end.

(** Steps through a run, with the tests of a value against itself
    decided. *)
Ltac run_again :=
  repeat first
    [ progress rewrite ?Z.eqb_refl, ?Bool.eqb_reflx, ?String.eqb_refl
    | progress cbn in *
    | split_match ].

(** Membership of a record in a trace that is written out. *)
Ltac in_trace :=
  repeat match goal with
         | H : In _ _ |- _ => cbn in H
         | H : _ \/ _ |- _ => destruct H
         | H : False |- _ => destruct H
         | H : Log _ _ = Log _ _ |- _ => inversion H; clear H; subst
         | H : _ = _ |- _ => discriminate H
         end.

Lemma update_result (s : sensor) (attributes : json) :
  result (_update_attributes attributes s) = Ok tt \/
  result (_update_attributes attributes s) = Raise OverflowError.
Proof.
  destruct attributes as [ | b | z | f | text | xs | kvs];
    try (non_mapping s; rewrite E; auto; fail).
  run_monad. cbn.
  destruct (Py.lookup "interval" kvs) as [v|]; cbn.
  - destruct (int_outcomes (int_max_str_digits py) v) as [[n ->] | [-> | [-> | ->]]];
      cbn; auto.
    repeat (split_match; cbn in * ); auto.
  - repeat (split_match; cbn in * ); auto.
Qed.

(** X1: an update that fails writes nothing.  [_update_attributes] returns
    normally or raises [OverflowError] (an infinite [interval]); when it
    logs a rejected value or raises, every field is as it was before the
    call and the rejection is the only record it logged. *)
Theorem update_failure_writes_nothing (s : sensor) (attributes : json) :
  let run := _update_attributes attributes s in
  (result run = Ok tt \/ result run = Raise OverflowError /\ effects run = [])
  /\ (forall e, In (Log ERROR (InvalidAttributeValue e)) (effects run) ->
        final run = s /\ effects run = [Log ERROR (InvalidAttributeValue e)])
  /\ (result run <> Ok tt -> final run = s).
Proof.
  cbv zeta.
  destruct attributes as [ | b | z | f | text | xs | kvs];
    try (non_mapping s; rewrite E; cbn;
         (split; [auto | split; [intros err Herr; in_trace; auto | auto]]); fail).
  run_monad. cbn.
  destruct (Py.lookup "interval" kvs) as [v|]; cbn.
  - destruct (int_outcomes (int_max_str_digits py) v) as [[n ->] | [-> | [-> | ->]]];
      cbn.
    + repeat (split_match; cbn in * );
        (split; [auto | split; [intros err Herr; in_trace | congruence]]).
    + split; [auto | split; [intros err Herr; in_trace; auto | auto]].
    + split; [auto | split; [intros err Herr; in_trace; auto | auto]].
    + split; [auto | split; [intros err Herr; in_trace; auto | auto]].
  - repeat (split_match; cbn in * );
      (split; [auto | split; [intros err Herr; in_trace | congruence]]).
Qed.

(** X2: the update reads three keys and nothing else.  Two mappings that
    agree on [interval], [enabled] and [firmware_version] have the same
    effect, whatever other entries they hold; a mapping with none of the
    three does nothing at all. *)
Theorem update_reads_three_keys (s : sensor) (kvs kvs' : list (string * json)) :
  Py.lookup "interval" kvs = Py.lookup "interval" kvs' ->
  Py.lookup "enabled" kvs = Py.lookup "enabled" kvs' ->
  Py.lookup "firmware_version" kvs = Py.lookup "firmware_version" kvs' ->
  _update_attributes (JDict kvs) s = _update_attributes (JDict kvs') s
  /\ (Py.lookup "interval" kvs = None -> Py.lookup "enabled" kvs = None ->
      Py.lookup "firmware_version" kvs = None ->
      _update_attributes (JDict kvs) s = (Ok tt, s, [])).
Proof.
  intros Hi He Hv. split.
  - unfold _update_attributes. cbn [Py.contains Py.getitem].
    rewrite Hi, He, Hv. reflexivity.
  - intros Hi' He' Hv'. run_monad. cbn. rewrite Hi', He', Hv'. reflexivity.
Qed.

(** X3: a key that is absent leaves its field alone.  Whatever the other
    entries of the mapping do, the field of a missing key keeps its value,
    and without a [firmware_version] entry the OTA hook does not run. *)
Theorem update_missing_key_keeps_field (s : sensor) (kvs : list (string * json)) :
  let run := _update_attributes (JDict kvs) s in
  (Py.lookup "interval" kvs = None -> interval (final run) = interval s)
  /\ (Py.lookup "enabled" kvs = None -> enabled (final run) = enabled s)
  /\ (Py.lookup "firmware_version" kvs = None ->
      firmware_version (final run) = firmware_version s /\
      ota_calls (effects run) = []).
Proof.
  cbv zeta. split; [|split]; intros Hkey; [| |split];
    run_monad; cbn; rewrite Hkey; cbn;
    repeat (split_match; cbn in * ); reflexivity.
Qed.

(** X4: applying the same attributes a second time changes nothing.  The
    fields after the second call are those after the first, it ends the
    same way, and it logs no change and runs no OTA hook: either nothing,
    or the rejection that the first call logged too. *)
Theorem update_is_idempotent (s : sensor) (attributes : json) :
  let first := _update_attributes attributes s in
  let second := _update_attributes attributes (final first) in
  final second = final first /\ result second = result first /\
  (effects second = [] \/
   exists e, effects second = [Log ERROR (InvalidAttributeValue e)] /\
             effects first = effects second).
Proof.
  cbv zeta.
  destruct attributes as [ | b | z | f | text | xs | kvs];
    try (non_mapping s; rewrite E; cbn [final fst snd]; rewrite E; cbn;
         (split; [reflexivity | split; [reflexivity |]]);
         first [left; reflexivity | right; eexists; split; reflexivity]).
  run_monad. cbn.
  destruct (Py.lookup "interval" kvs) as [v|]; cbn.
  - destruct (int_outcomes (int_max_str_digits py) v) as [[n ->] | [-> | [-> | ->]]];
      cbn.
    + run_again; auto.
    + split; [reflexivity | split; [reflexivity |]]. right. eexists. split; reflexivity.
    + split; [reflexivity | split; [reflexivity |]]. right. eexists. split; reflexivity.
    + auto.
  - run_again; auto.
Qed.

(** X5: attributes that are not a mapping are never applied.  A string, a
    list, a number, a truth value or [null] in the place of the mapping
    leaves every field as it was and runs no OTA hook; at most a
    [TypeError] is logged. *)
Theorem update_needs_a_mapping (s : sensor) (attributes : json) :
  (forall kvs, attributes <> JDict kvs) ->
  let run := _update_attributes attributes s in
  result run = Ok tt /\ final run = s /\ ota_calls (effects run) = [] /\
  (effects run = [] \/ effects run = [Log ERROR (InvalidAttributeValue TypeError)]).
Proof.
  intros Hnot. cbv zeta.
  destruct (update_of_non_mapping s attributes Hnot) as [-> | ->]; cbn; auto.
Qed.

(** ** Decimal text *)

Lemma digits_of_numeral_acc (d : Decimal.uint) (acc : positive) :
  Py.digits (Z.pos acc) true (numeral d) = Some (Z.pos (Pos.of_uint_acc d acc)).
Proof.
  revert acc. unfold numeral.
  induction d as [ | d IH | d IH | d IH | d IH | d IH | d IH | d IH | d IH | d IH | d IH];
    intros acc; cbn [NilEmpty.string_of_uint list_ascii_of_string Py.digits Pos.of_uint_acc];
    try reflexivity;
    (replace (Py.is_digit _) with true by reflexivity);
    cbv [Py.digit_value N_of_ascii N_of_digits]; cbn [Z.of_N];
    rewrite <- IH; f_equal; lia.
Qed.

Lemma digits_of_numeral (d : Decimal.uint) :
  Py.digits 0 true (numeral d) = Some (Z.of_N (Pos.of_uint d)).
Proof.
  unfold numeral.
  induction d as [ | d IH | d IH | d IH | d IH | d IH | d IH | d IH | d IH | d IH | d IH];
    cbn [NilEmpty.string_of_uint list_ascii_of_string Py.digits Pos.of_uint];
    try reflexivity;
    (replace (Py.is_digit _) with true by reflexivity);
    cbv [Py.digit_value N_of_ascii N_of_digits]; cbn [Z.of_N Z.mul Z.add Z.sub Z.pos_sub Pos.pred_double Z.succ_double Z.pred_double Z.double Pos.succ Pos.add Pos.mul];
    try exact IH; apply (digits_of_numeral_acc d).
Qed.

Lemma digit_is_not_space (c : ascii) : Py.is_digit c = true -> Py.is_space c = false.
Proof.
  unfold Py.is_digit, Py.is_space. cbv zeta.
  generalize (N_of_ascii c). intros n H.
  apply andb_prop in H as [H1 H2]. apply N.leb_le in H1. apply N.leb_le in H2.
  repeat (apply Bool.orb_false_iff; split);
    try (apply Bool.andb_false_iff; right; apply N.leb_gt; lia);
    apply N.eqb_neq; lia.
Qed.

Lemma numeral_digits (d : Decimal.uint) :
  Forall (fun c => Py.is_digit c = true) (numeral d).
Proof.
  unfold numeral.
  induction d; cbn [NilEmpty.string_of_uint list_ascii_of_string];
    constructor; auto.
Qed.

Lemma lstrip_solid (cs : list ascii) :
  Forall (fun c => Py.is_space c = false) cs -> Py.lstrip cs = cs.
Proof.
  destruct 1 as [|c cs Hc _]; cbn; [reflexivity | rewrite Hc; reflexivity].
Qed.

Lemma strip_solid (cs : list ascii) :
  Forall (fun c => Py.is_space c = false) cs -> Py.strip cs = cs.
Proof.
  intros H. unfold Py.strip. rewrite (lstrip_solid cs H).
  rewrite lstrip_solid, rev_involutive; [reflexivity|].
  apply Forall_rev. exact H.
Qed.

Lemma length_list_ascii (s : string) :
  List.length (list_ascii_of_string s) = String.length s.
Proof. induction s; cbn; congruence. Qed.

Lemma short_text_passes (limit : N) (text : string) :
  (N.of_nat (String.length text) <= limit \/ limit = 0)%N ->
  Py.too_many_digits limit (list_ascii_of_string text) = false.
Proof.
  intros H. unfold Py.too_many_digits.
  destruct (N.eqb_spec limit 0) as [-> | Hne]; [reflexivity|]. cbn [negb andb].
  destruct H as [H | H]; [|contradiction].
  apply N.ltb_ge.
  pose proof (filter_length_le Py.is_digit (list_ascii_of_string text)) as Hle.
  rewrite length_list_ascii in Hle. lia.
Qed.

Lemma numeral_of_positive (p : positive) :
  Py.digits 0 false (numeral (Pos.to_uint p)) = Some (Z.pos p).
Proof.
  pose proof (digits_of_numeral (Pos.to_uint p)) as H.
  rewrite Unsigned.of_to in H. cbn [Z.of_N] in H.
  pose proof (Unsigned.to_uint_nonnil p) as Hnil.
  unfold numeral in *.
  destruct (Pos.to_uint p); [contradiction| ..];
    cbn [NilEmpty.string_of_uint list_ascii_of_string Py.digits] in *; exact H.
Qed.

Lemma int_of_decimal_text (limit : N) (z : Z) :
  (N.of_nat (String.length (Py.str_of_int z)) <= limit \/ limit = 0)%N ->
  Py.int limit (JStr (Py.str_of_int z)) = Ok z.
Proof.
  intros Hshort. cbn [Py.int]. unfold Py.int_of_str. cbv zeta.
  assert (Hsolid : Forall (fun c => Py.is_space c = false)
                     (list_ascii_of_string (Py.str_of_int z))).
  { unfold Py.str_of_int.
    destruct z as [|p|p]; cbn [Z.to_int NilZero.string_of_int].
    - repeat constructor.
    - pose proof (Unsigned.to_uint_nonnil p) as Hnil.
      pose proof (numeral_digits (Pos.to_uint p)) as Hd. unfold numeral in Hd.
      unfold NilZero.string_of_uint.
      destruct (Pos.to_uint p); [contradiction| ..];
        (eapply Forall_impl; [|exact Hd]); intros c; apply digit_is_not_space.
    - pose proof (Unsigned.to_uint_nonnil p) as Hnil.
      pose proof (numeral_digits (Pos.to_uint p)) as Hd. unfold numeral in Hd.
      unfold NilZero.string_of_uint. cbn [list_ascii_of_string].
      constructor; [reflexivity|].
      destruct (Pos.to_uint p); [contradiction| ..];
        (eapply Forall_impl; [|exact Hd]); intros c; apply digit_is_not_space. }
  rewrite (strip_solid _ Hsolid), (short_text_passes limit _ Hshort).
  unfold Py.str_of_int.
  destruct z as [|p|p]; cbn [Z.to_int NilZero.string_of_int].
  - reflexivity.
  - pose proof (numeral_of_positive p) as H. unfold numeral in H.
    pose proof (Unsigned.to_uint_nonnil p) as Hnil.
    pose proof (numeral_digits (Pos.to_uint p)) as Hd. unfold numeral in Hd.
    unfold NilZero.string_of_uint.
    destruct (Pos.to_uint p); [contradiction| ..];
      cbn [NilEmpty.string_of_uint list_ascii_of_string] in *;
      (replace (Ascii.eqb _ "-") with false by reflexivity);
      (replace (Ascii.eqb _ "+") with false by reflexivity);
      rewrite H; reflexivity.
  - pose proof (numeral_of_positive p) as H. unfold numeral in H.
    pose proof (Unsigned.to_uint_nonnil p) as Hnil.
    unfold NilZero.string_of_uint. cbn [list_ascii_of_string].
    (replace (Ascii.eqb "-" "-") with true by reflexivity).
    destruct (Pos.to_uint p); [contradiction| ..];
      cbn [NilEmpty.string_of_uint list_ascii_of_string] in *;
      rewrite H; reflexivity.
Qed.

Lemma digits_of_foreign (c : ascii) (cs : list ascii) (acc : Z) (prev : bool) :
  In c cs -> Py.is_digit c = false -> c <> "_"%char -> Py.digits acc prev cs = None.
Proof.
  intros Hin Hdigit Hunder. revert acc prev.
  induction cs as [|c' cs IH]; intros acc prev; [contradiction|].
  cbn [Py.digits]. destruct Hin as [-> | Hin].
  - rewrite Hdigit. destruct (Ascii.eqb_spec c "_"%char); [contradiction | reflexivity].
  - destruct (Py.is_digit c'); [apply IH, Hin|].
    destruct (Ascii.eqb c' "_" && prev)%bool; [apply IH, Hin | reflexivity].
Qed.

Lemma in_lstrip (c : ascii) (cs : list ascii) :
  In c cs -> Py.is_space c = false -> In c (Py.lstrip cs).
Proof.
  intros Hin Hc. induction cs as [|c' cs IH]; [contradiction|].
  cbn [Py.lstrip]. destruct (Py.is_space c') eqn:Hc'; [|exact Hin].
  destruct Hin as [-> | Hin]; [congruence | apply IH, Hin].
Qed.

Lemma in_strip (c : ascii) (cs : list ascii) :
  In c cs -> Py.is_space c = false -> In c (Py.strip cs).
Proof.
  intros Hin Hc. unfold Py.strip.
  apply in_rev. rewrite rev_involutive. apply in_lstrip; [|exact Hc].
  apply in_rev. rewrite rev_involutive. apply in_lstrip; assumption.
Qed.

Lemma int_of_foreign_text (limit : N) (text : string) (c : ascii) :
  In c (list_ascii_of_string text) ->
  Py.is_digit c = false -> Py.is_space c = false ->
  c <> "_"%char -> c <> "+"%char -> c <> "-"%char ->
  Py.int limit (JStr text) = Raise ValueError.
Proof.
  intros Hin Hdigit Hspace Hunder Hplus Hminus.
  cbn [Py.int]. unfold Py.int_of_str. cbv zeta.
  pose proof (in_strip c _ Hin Hspace) as Hin'.
  destruct (Py.too_many_digits limit _); [reflexivity|].
  destruct (Py.strip (list_ascii_of_string text)) as [|c0 cs]; [reflexivity|].
  assert (Htail : c0 = c \/ Py.digits 0 false cs = None).
  { destruct Hin' as [-> | Hin']; [auto|].
    right. apply (digits_of_foreign c); assumption. }
  destruct (Ascii.eqb_spec c0 "-"%char) as [-> | _].
  { destruct Htail as [<- | ->]; [contradiction | reflexivity]. }
  destruct (Ascii.eqb_spec c0 "+"%char) as [-> | _].
  { destruct Htail as [<- | ->]; [contradiction | reflexivity]. }
  rewrite (digits_of_foreign c (c0 :: cs)); auto.
Qed.

(** X19: an interval sent as decimal text is read as the number.  For
    every integer [n] whose decimal text is within the digit limit of
    [int], [int] reads that text back as [n], so an update whose
    [interval] is the text stores [max(1, n)], as it does for the number
    itself. *)
Theorem interval_from_decimal_text (s : sensor) (n : Z) :
  (N.of_nat (String.length (Py.str_of_int n)) <= int_max_str_digits py \/
   int_max_str_digits py = 0)%N ->
  Py.int (int_max_str_digits py) (JStr (Py.str_of_int n)) = Ok n
  /\ (forall kvs,
        Py.lookup "interval" kvs = Some (JStr (Py.str_of_int n)) ->
        interval (final (_update_attributes (JDict kvs) s)) = Z.max 1 n)
  /\ interval (final (_update_attributes
                        (JDict [("interval"%string, JInt n)]) s)) = Z.max 1 n.
Proof.
  intros Hshort.
  pose proof (int_of_decimal_text (int_max_str_digits py) n Hshort) as Hint.
  split; [exact Hint|]. split.
  - intros kvs Hkey. apply (update_clamps_interval s kvs _ n Hkey Hint).
  - apply (update_clamps_interval s _ (JInt n) n); reflexivity.
Qed.

(** X20: text that is not a whole number is rejected.  An [interval] given
    as a string with a character that is neither a digit, nor white space,
    nor a sign or an underscore (a decimal point, an exponent, a unit)
    raises [ValueError] in [int]: the update logs it and writes no field,
    whatever else the mapping holds. *)
Theorem interval_text_must_be_whole
    (s : sensor) (kvs : list (string * json)) (text : string) (c : ascii) :
  Py.lookup "interval" kvs = Some (JStr text) ->
  In c (list_ascii_of_string text) ->
  Py.is_digit c = false -> Py.is_space c = false ->
  c <> "_"%char -> c <> "+"%char -> c <> "-"%char ->
  _update_attributes (JDict kvs) s =
    (Ok tt, s, [Log ERROR (InvalidAttributeValue ValueError)]).
Proof.
  intros Hkey Hin Hdigit Hspace Hunder Hplus Hminus.
  pose proof (int_of_foreign_text (int_max_str_digits py) text c
                Hin Hdigit Hspace Hunder Hplus Hminus) as Hint.
  remember (JStr text) as v eqn:Hv in *. clear Hv.
  run_monad. cbn. rewrite Hkey. cbn. rewrite Hint. reflexivity.
Qed.

(** ** Inbound messages *)

Ltac run_message :=
  unfold _on_message, try_except, bind, when, call, gets, modify, log, emit, ret,
    raise, result, final, effects in *.

(** C4, as the code has it: a mapping with a [shared] entry has that entry
    handed to [_update_attributes]; a mapping without one is handed over
    whole when it has a [response] entry; a mapping with neither entry, a
    flat mapping of the requested keys among them, is logged and dropped. *)
Theorem message_forwarding
    (s : sensor) (topic : string) (kvs : list (string * json)) :
  let payload := JDict kvs in
  let run := _on_message topic (Parsed payload) s in
  let forwarded (attributes : json) :=
    let update := _update_attributes attributes s in
    final run = final update /\
    effects run =
      Log INFO (ReceivedMessage topic payload)
        :: effects update ++
           match result update with
           | Raise e =>
               [Log ERROR (if is_json_decode_error e then FailedToDecodeMessage e
                           else ErrorProcessingMessage e)]
           | _ => []
           end in
  match Py.lookup "shared" kvs, Py.lookup "response" kvs with
  | Some shared, _ => forwarded shared
  | None, Some _ => forwarded payload
  | None, None => run = (Ok tt, s, [Log INFO (ReceivedMessage topic payload)])
  end.
Proof.
  cbv zeta. run_message. cbn.
  destruct (Py.lookup "shared" kvs) as [shared|]; cbn.
  - destruct (_update_attributes shared s) as [[[ | e | ] s'] t]; cbn;
      rewrite ?app_nil_r; try (split; reflexivity).
    destruct (is_json_decode_error e); cbn; split; reflexivity.
  - destruct (Py.lookup "response" kvs) as [r|]; cbn; [|reflexivity].
    destruct (_update_attributes (JDict kvs) s) as [[[ | e | ] s'] t]; cbn;
      rewrite ?app_nil_r; try (split; reflexivity).
    destruct (is_json_decode_error e); cbn; split; reflexivity.
Qed.

Lemma contains_returns (key : string) (container : json) :
  Py.contains key container <> Blocked.
Proof. destruct container; cbn; discriminate. Qed.

Lemma getitem_returns (container : json) (key : string) :
  Py.getitem container key <> Blocked.
Proof.
  destruct container; cbn; try discriminate.
  destruct (Py.lookup key kvs); discriminate.
Qed.

(** X6: [_on_message] never raises.  Bytes that are not UTF-8 or not
    JSON are logged and dropped with no field touched; a decoded payload is
    logged first; and whatever goes wrong later, an [OverflowError] of the
    update included, ends in a log record and a normal return. *)
Theorem on_message_never_raises (topic : string) (body : inbound) (s : sensor) :
  let run := _on_message topic body s in
  result run = Ok tt
  /\ (body = NotJson ->
      run = (Ok tt, s, [Log ERROR (FailedToDecodeMessage JSONDecodeError)]))
  /\ (body = NotUtf8 ->
      run = (Ok tt, s, [Log ERROR (ErrorProcessingMessage UnicodeDecodeError)]))
  /\ (forall payload, body = Parsed payload ->
      exists rest, effects run = Log INFO (ReceivedMessage topic payload) :: rest).
Proof.
  cbv zeta. split; [|split; [|split]].
  - unfold result, _on_message, try_except, bind, when, call, log, emit, ret.
    destruct body as [ | | payload]; cbn; auto.
    pose proof (contains_returns "shared" payload) as Hshared.
    pose proof (contains_returns "response" payload) as Hresponse.
    pose proof (getitem_returns payload "shared") as Hitem.
    destruct (Py.contains "shared" payload) as [[|]|e|]; cbn; auto.
    + destruct (Py.getitem payload "shared") as [shared|e|]; cbn; auto.
      * destruct (update_result s shared) as [H | H];
          unfold result in H;
          destruct (_update_attributes shared s) as [[r s'] t]; cbn in *;
          subst r; reflexivity.
      * destruct (is_json_decode_error e); reflexivity.
      * contradiction.
    + destruct (Py.contains "response" payload) as [[|]|e|]; cbn; auto.
      * destruct (update_result s payload) as [H | H];
          unfold result in H;
          destruct (_update_attributes payload s) as [[r s'] t]; cbn in *;
          subst r; reflexivity.
      * destruct (is_json_decode_error e); reflexivity.
      * contradiction.
    + destruct (is_json_decode_error e); reflexivity.
    + contradiction.
  - intros ->. reflexivity.
  - intros ->. reflexivity.
  - intros payload ->.
    unfold effects, _on_message, try_except, bind, when, call, log, emit, ret. cbn.
    destruct (Py.contains "shared" payload) as [[|]|e|]; cbn.
    + destruct (Py.getitem payload "shared") as [shared|e|]; cbn.
      * destruct (_update_attributes shared s) as [[[ | e | ] s'] t]; cbn; eauto.
        destruct (is_json_decode_error e); cbn; eauto.
      * destruct (is_json_decode_error e); cbn; eauto.
      * eauto.
    + destruct (Py.contains "response" payload) as [[|]|e|]; cbn; eauto.
      * destruct (_update_attributes payload s) as [[[ | e | ] s'] t]; cbn; eauto.
        destruct (is_json_decode_error e); cbn; eauto.
      * destruct (is_json_decode_error e); cbn; eauto.
    + destruct (is_json_decode_error e); cbn; eauto.
    + eauto.
Qed.

(** X7: only a mapping can change the sensor.  A message whose payload is
    not a JSON object (undecodable bytes, a string, a list, a number) and a
    message whose [shared] entry is not an object leave every field as it
    was. *)
Theorem message_needs_a_mapping (topic : string) (body : inbound) (s : sensor) :
  (match body with Parsed (JDict _) => False | _ => True end ->
   final (_on_message topic body s) = s)
  /\ (forall kvs shared,
        body = Parsed (JDict kvs) ->
        Py.lookup "shared" kvs = Some shared ->
        (forall inner, shared <> JDict inner) ->
        final (_on_message topic body s) = s).
Proof.
  split.
  - unfold final, _on_message, try_except, bind, when, call, log, emit, ret.
    destruct body as [ | | payload]; cbn; auto.
    destruct payload as [ | b | z | f | text | xs | kvs]; cbn; auto.
    + intros _. destruct (Py.is_substring "shared" text); cbn; auto.
      destruct (Py.is_substring "response" text); cbn; auto.
      destruct (update_of_non_mapping s (JStr text)) as [-> | ->];
        [intros kvs; discriminate | reflexivity | reflexivity].
    + intros _.
      repeat match goal with
             | |- context [existsb ?f xs] => destruct (existsb f xs); cbn
             end; auto.
      destruct (update_of_non_mapping s (JList xs)) as [-> | ->];
        [intros kvs; discriminate | reflexivity | reflexivity].
    + contradiction.
  - intros kvs shared -> Hkey Hnot.
    unfold final, _on_message, try_except, bind, when, call, log, emit, ret. cbn.
    rewrite Hkey. cbn.
    destruct (update_of_non_mapping s shared Hnot) as [-> | ->]; reflexivity.
Qed.

(** X8: the topic of a message is logged and never examined.  The same
    body arriving on two topics writes the same fields, ends the same way
    and leaves the same trace but for the topic in the first log record. *)
Theorem message_topic_is_only_logged
    (topic topic' : string) (body : inbound) (s : sensor) :
  let run := _on_message topic body s in
  let run' := _on_message topic' body s in
  final run = final run' /\ result run = result run' /\
  effects run =
    match body with
    | Parsed payload => Log INFO (ReceivedMessage topic payload) :: tl (effects run')
    | _ => effects run'
    end.
Proof.
  cbv zeta.
  unfold final, result, effects, _on_message, try_except, bind, when, call, log,
    emit, ret.
  destruct body as [ | | payload]; cbn; auto.
  destruct (Py.contains "shared" payload) as [[|]|e|]; cbn; auto.
  - destruct (Py.getitem payload "shared") as [shared|e|]; cbn; auto.
    + destruct (_update_attributes shared s) as [[[ | e | ] s'] t]; cbn; auto.
      destruct (is_json_decode_error e); cbn; auto.
    + destruct (is_json_decode_error e); cbn; auto.
  - destruct (Py.contains "response" payload) as [[|]|e|]; cbn; auto.
    + destruct (_update_attributes payload s) as [[[ | e | ] s'] t]; cbn; auto.
      destruct (is_json_decode_error e); cbn; auto.
    + destruct (is_json_decode_error e); cbn; auto.
  - destruct (is_json_decode_error e); cbn; auto.
Qed.

(** ** The connection callbacks *)

(** X9: [_on_connect] never raises and a failed attribute request does not
    undo the connection.  With [rc] 0 the sensor ends connected with its
    attempt counter at 0, having subscribed once and then asked once for
    its attributes, whether or not that publish raised; with any other
    [rc] it ends disconnected, its counter untouched, without a call of
    the transport.  No other field is written. *)
Theorem on_connect_outcome (rc : Z) (answer : publish_result) (s : sensor) :
  let run := _on_connect rc answer s in
  result run = Ok tt
  /\ final run =
       (if rc =? 0 then set_reconnect_attempts 0 (set_connected true s)
        else set_connected false s)
  /\ transport_calls (effects run) =
       (if rc =? 0
        then [Subscribe ATTRIBUTES_SUBSCRIBE_TOPIC;
              Publish ATTRIBUTES_REQUEST_TOPIC
                (JDict [("clientKeys"%string,
                         JStr "interval,enabled,firmware_version")]) 1]
        else []).
Proof.
  cbv zeta. unfold _on_connect.
  destruct (rc =? 0); [destruct answer as [rc' | e] |]; repeat split; reflexivity.
Qed.

(** ** What the other threads can do *)

Lemma update_events (s : sensor) (attributes : json) :
  Forall callback_event (effects (_update_attributes attributes s)).
Proof.
  by_cases; repeat constructor.
Qed.

Lemma act_events (a : action) (s : sensor) :
  Forall callback_event (effects (act a s)).
Proof.
  destruct a as [rc answer | rc | topic body | ]; cbn [act].
  - by_cases; repeat constructor.
  - by_cases; repeat constructor.
  - pose proof (fun attributes s0 => update_events s0 attributes) as Hupdate.
    unfold effects in *.
    unfold _on_message, try_except, bind, when, call, log, emit, ret.
    destruct body as [ | | payload]; cbn; try (repeat constructor; fail).
    destruct (Py.contains "shared" payload) as [[|]|e|]; cbn.
    + destruct (Py.getitem payload "shared") as [shared|e|]; cbn.
      * specialize (Hupdate shared s).
        destruct (_update_attributes shared s) as [[[ | e | ] s'] t]; cbn in *.
        -- constructor; [exact I | exact Hupdate].
        -- destruct (is_json_decode_error e); cbn;
             (constructor; [exact I |]); apply Forall_app; split;
             try exact Hupdate; repeat constructor.
        -- constructor; [exact I | exact Hupdate].
      * destruct (is_json_decode_error e); cbn; repeat constructor.
      * repeat constructor.
    + destruct (Py.contains "response" payload) as [[|]|e|]; cbn.
      * specialize (Hupdate payload s).
        destruct (_update_attributes payload s) as [[[ | e | ] s'] t]; cbn in *.
        -- constructor; [exact I | exact Hupdate].
        -- destruct (is_json_decode_error e); cbn;
             (constructor; [exact I |]); apply Forall_app; split;
             try exact Hupdate; repeat constructor.
        -- constructor; [exact I | exact Hupdate].
      * repeat constructor.
      * destruct (is_json_decode_error e); cbn; repeat constructor.
      * repeat constructor.
    + destruct (is_json_decode_error e); cbn; repeat constructor.
    + repeat constructor.
  - by_cases; repeat constructor.
Qed.

Lemma on_message_final (topic : string) (body : inbound) (s : sensor) :
  final (_on_message topic body s) = s \/
  exists attributes,
    final (_on_message topic body s) = final (_update_attributes attributes s).
Proof.
  unfold final, _on_message, try_except, bind, when, call, log, emit, ret.
  destruct body as [ | | payload]; cbn; auto.
  destruct (Py.contains "shared" payload) as [[|]|e|]; cbn; auto.
  - destruct (Py.getitem payload "shared") as [shared|e|]; cbn; auto.
    + right. exists shared.
      destruct (_update_attributes shared s) as [[[ | e | ] s'] t]; cbn; auto.
      destruct (is_json_decode_error e); reflexivity.
    + destruct (is_json_decode_error e); auto.
  - destruct (Py.contains "response" payload) as [[|]|e|]; cbn; auto.
    + right. exists payload.
      destruct (_update_attributes payload s) as [[[ | e | ] s'] t]; cbn; auto.
      destruct (is_json_decode_error e); reflexivity.
    + destruct (is_json_decode_error e); auto.
  - destruct (is_json_decode_error e); auto.
Qed.

Lemma act_fields (a : action) (s : sensor) :
  let s' := final (act a s) in
  reconnect_delay s' = reconnect_delay s /\
  max_reconnect_attempts s' = max_reconnect_attempts s /\
  reconnect_attempts s' = (if resets a then 0 else reconnect_attempts s) /\
  (stop_event s = true -> stop_event s' = true) /\
  (1 <= interval s -> 1 <= interval s').
Proof.
  destruct a as [rc answer | rc | topic body | ]; cbn [act resets].
  - by_cases; auto.
  - by_cases; auto.
  - cbv zeta.
    destruct (on_message_final topic body s) as [-> | [attributes ->]]; auto.
    pose proof (update_keeps_connection s attributes) as (_ & Hstop & Hd & Hm & Ha).
    pose proof (update_keeps_interval_floor s attributes) as Hi.
    rewrite Hstop, Hd, Hm, Ha. auto.
  - by_cases; auto.
Qed.

Lemma deliver_cons (a : action) (acts : list action) (s : sensor) :
  deliver (a :: acts) s =
    (fst (deliver acts (final (act a s))),
     effects (act a s) ++ snd (deliver acts (final (act a s)))).
Proof.
  cbn [deliver]. unfold final, effects.
  destruct (act a s) as [[r s1] t1]; cbn.
  destruct (deliver acts s1); reflexivity.
Qed.

Lemma deliver_events (acts : list action) (s : sensor) :
  Forall callback_event (snd (deliver acts s)).
Proof.
  revert s. induction acts as [|a acts IH]; intros s.
  - constructor.
  - rewrite deliver_cons. cbn [snd]. apply Forall_app. split.
    + apply act_events.
    + apply IH.
Qed.

Lemma deliver_fields (acts : list action) (s : sensor) :
  let s' := fst (deliver acts s) in
  reconnect_delay s' = reconnect_delay s /\
  max_reconnect_attempts s' = max_reconnect_attempts s /\
  (reconnect_attempts s' = reconnect_attempts s \/ reconnect_attempts s' = 0) /\
  (Forall (fun a => resets a = false) acts ->
   reconnect_attempts s' = reconnect_attempts s) /\
  (stop_event s = true -> stop_event s' = true) /\
  (1 <= interval s -> 1 <= interval s').
Proof.
  revert s. induction acts as [|a acts IH]; intros s; cbv zeta.
  - cbn. repeat split; auto.
  - rewrite deliver_cons. cbn [fst].
    pose proof (act_fields a s) as (Hd & Hm & Ha & Hstop & Hi).
    specialize (IH (final (act a s))) as (Hd' & Hm' & Ha' & Hq' & Hstop' & Hi').
    rewrite Hd', Hm', Hd, Hm. repeat split; auto.
    + destruct Ha' as [Ha' | Ha']; [|auto]. rewrite Ha', Ha.
      destruct (resets a); auto.
    + intros Hq. inversion Hq as [|? ? Hr Hrest]; subst.
      rewrite (Hq' Hrest), Ha, Hr. reflexivity.
Qed.

Lemma act_connected (a : action) (s : sensor) :
  connected (final (act a s)) = link_after [a] (connected s).
Proof.
  destruct a as [rc answer | rc | topic body | ]; cbn [act link_after fold_left].
  - unfold _on_connect. destruct (rc =? 0); [destruct answer|]; reflexivity.
  - unfold _on_disconnect. destruct (rc =? 0); reflexivity.
  - destruct (on_message_final topic body s) as [-> | [attributes ->]]; auto.
    apply update_keeps_connection.
  - reflexivity.
Qed.

(** X10: [connected] follows the connection callbacks and nothing else.
    After any sequence of callbacks and calls of [stop], the flag is what
    the last [_on_connect] or [_on_disconnect] among them left (true
    exactly after an [_on_connect] with [rc] 0); messages and [stop] never
    change it. *)
Theorem connected_follows_callbacks (acts : list action) (s : sensor) :
  connected (fst (deliver acts s)) = link_after acts (connected s).
Proof.
  revert s. induction acts as [|a acts IH]; intros s; [reflexivity|].
  rewrite deliver_cons. cbn [fst]. rewrite IH, act_connected. reflexivity.
Qed.

Lemma callback_events_counts (t : trace) :
  Forall callback_event t ->
  wait_timeouts t = [] /\ reconnect_calls t = O /\ attempts_started t = O /\
  telemetry_publishes t = [] /\ after_stop_observed t = None /\
  forall attempt_ok, Forall (event_ok attempt_ok) t.
Proof.
  induction 1 as [|ev t Hev _ (Hw & Hr & Ha & Hp & Hs & Hok)].
  - repeat split; constructor.
  - destruct ev as [lvl msg | topic | topic payload qos | | timeout fired];
      cbn in Hev; try contradiction.
    + destruct msg; try contradiction; cbn;
        repeat split; auto; intros; constructor; cbn; auto.
    + cbn; repeat split; auto; intros; constructor; cbn; auto.
    + subst topic; cbn; repeat split; auto; intros; constructor; cbn; auto.
Qed.

(** ** The telemetry thread, step by step *)

Ltac run_machine :=
  unfold bind, lift, field, modify, gets, log, emit, ret, try_except, when,
    client_publish, result, final, effects in *.

(** C8: [_publish_telemetry] does nothing but log when the sensor is not
    connected or not enabled: no call of the transport, no field and no
    part of the world touched.  Connected and enabled, it takes one
    record from the source and hands it to [client.publish] once; whatever
    the transport answers, a non-zero [rc] or an exception, is logged and
    the method returns normally without a second publish. *)
Theorem publish_telemetry_once (st : machine) :
  (connected (self st) = false ->
     _publish_telemetry st = (Ok tt, st, [Log WARNING NotConnectedSkipping]))
  /\ (connected (self st) = true -> enabled (self st) = false ->
     _publish_telemetry st = (Ok tt, st, [Log DEBUG SensorDisabledSkipping]))
  /\ (forall data ds answer answers,
       connected (self st) = true -> enabled (self st) = true ->
       samples (env st) = data :: ds ->
       publishes (env st) = answer :: answers ->
       let run := _publish_telemetry st in
       result run = Ok tt /\
       final run =
         {| self := self st;
            env := set_publishes answers (set_samples ds (env st)) |} /\
       effects run =
         [Publish TELEMETRY_TOPIC (dumps data) 1;
          match answer with
          | PublishRc rc =>
              if rc =? MQTT_ERR_SUCCESS then Log INFO (PublishedTelemetry data)
              else Log WARNING (FailedToPublish rc data)
          | PublishRaises e => Log ERROR (ErrorPublishingTelemetry e)
          end] /\
       telemetry_publishes (effects run) = [dumps data]).
Proof.
  unfold _publish_telemetry, _generate_sensor_data, next_publish_answer.
  split; [|split].
  - intros Hc. run_machine. rewrite Hc. reflexivity.
  - intros Hc He. run_machine. rewrite Hc. cbn. rewrite He. reflexivity.
  - intros data ds answer answers Hc He Hs Hp. run_machine.
    rewrite Hc. cbn. rewrite He. cbn. rewrite Hs. cbn. rewrite Hp. cbn.
    destruct answer as [rc | e]; cbn; [destruct (rc =? MQTT_ERR_SUCCESS)|];
      repeat split; reflexivity.
Qed.

Lemma publish_telemetry_self (st : machine) :
  self (final (_publish_telemetry st)) = self st /\
  wait_timeouts (effects (_publish_telemetry st)) = [] /\
  reconnect_calls (effects (_publish_telemetry st)) = O /\
  attempts_started (effects (_publish_telemetry st)) = O /\
  after_stop_observed (effects (_publish_telemetry st)) = None /\
  result (_publish_telemetry st) <> Raise TransportError /\
  forall attempt_ok, Forall (event_ok attempt_ok) (effects (_publish_telemetry st)).
Proof.
  unfold _publish_telemetry, _generate_sensor_data, next_publish_answer.
  run_machine. cbn.
  repeat (split_match; cbn in *); repeat split; try reflexivity;
    try discriminate; intros; repeat constructor.
Qed.

Lemma wait_run (timeout : Z) (st : machine) :
  wait timeout st =
    if stop_event (self st) then (Ok true, st, [Wait timeout true])
    else if TIMEOUT_MAX py <? timeout then (Raise OverflowError, st, [])
    else
      match waits (env st) with
      | [] => (Blocked, st, [])
      | acts :: rest =>
          let s' := fst (deliver acts (self st)) in
          (Ok (stop_event s'),
           {| self := s'; env := set_waits rest (env st) |},
           snd (deliver acts (self st)) ++ [Wait timeout (stop_event s')])
      end.
Proof.
  unfold wait. destruct (stop_event (self st)); [reflexivity|].
  destruct (TIMEOUT_MAX py <? timeout); [reflexivity|].
  destruct (waits (env st)) as [|acts rest]; [reflexivity|].
  destruct (deliver acts (self st)); reflexivity.
Qed.

Lemma reconnect_body_run (st : machine) :
  let s1 := bump (self st) in
  let attempt := reconnect_attempts (self st) + 1 in
  let wait_time := backoff (reconnect_delay (self st)) attempt in
  let announce :=
    Log INFO (ReconnectAttempt attempt (max_reconnect_attempts (self st)) wait_time) in
  reconnect_body st =
    if stop_event (self st) then
      (Ok Break, {| self := s1; env := env st |}, [announce; Wait wait_time true])
    else if TIMEOUT_MAX py <? wait_time then
      (Raise OverflowError, {| self := s1; env := env st |}, [announce])
    else
      match waits (env st) with
      | [] => (Blocked, {| self := s1; env := env st |}, [announce])
      | acts :: rest =>
          let s2 := fst (deliver acts s1) in
          let heard := snd (deliver acts s1) in
          let w2 := set_waits rest (env st) in
          if stop_event s2 then
            (Ok Break, {| self := s2; env := w2 |},
             announce :: heard ++ [Wait wait_time true])
          else
            match reconnects (env st) with
            | [] =>
                (Blocked, {| self := s2; env := w2 |},
                 announce :: heard ++ [Wait wait_time false])
            | None :: rs =>
                (Ok Return, {| self := s2; env := set_reconnects rs w2 |},
                 announce :: heard ++
                   [Wait wait_time false; Reconnect; Log INFO ReconnectionSuccessful])
            | Some e :: rs =>
                (Ok Continue, {| self := s2; env := set_reconnects rs w2 |},
                 announce :: heard ++
                   [Wait wait_time false; Reconnect;
                    Log WARNING (ReconnectionFailed e)])
            end
      end.
Proof.
  cbv zeta. unfold reconnect_body. run_machine. cbn. rewrite wait_run. cbn.
  destruct (stop_event (self st)); [reflexivity|].
  destruct (TIMEOUT_MAX py <? _); [reflexivity|].
  destruct (waits (env st)) as [|acts rest]; [reflexivity|]. cbn.
  destruct (stop_event (fst (deliver acts (bump (self st))))) eqn:Hstop; cbn.
  - rewrite app_nil_r. reflexivity.
  - unfold client_reconnect. cbn.
    destruct (reconnects (env st)) as [|[e|] rs]; cbn;
      rewrite ?app_nil_r, <- ?app_assoc; reflexivity.
Qed.

Lemma reconnect_while_step (fuel : nat) (st : machine) :
  reconnect_while (S fuel) st =
    if (negb (connected (self st))
        && (reconnect_attempts (self st) <? max_reconnect_attempts (self st)))%bool
    then
      match reconnect_body st with
      | (Ok Continue, st1, t1) =>
          (result (reconnect_while fuel st1), final (reconnect_while fuel st1),
           t1 ++ effects (reconnect_while fuel st1))
      | other => other
      end
    else (Ok Continue, st, []).
Proof.
  cbn [reconnect_while].
  generalize (reconnect_while fuel) as loop. generalize reconnect_body as body.
  intros body loop. run_machine. cbn.
  destruct (negb (connected (self st))
            && (reconnect_attempts (self st) <? max_reconnect_attempts (self st)))%bool;
    [|reflexivity].
  destruct (body st) as [[[[ | | ] | e | ] st1] t1]; cbn;
    rewrite ?app_nil_r; try reflexivity.
  destruct (loop st1) as [[r st2] t2]; reflexivity.
Qed.

Lemma reconnect_cycle_run (st : machine) :
  let loop := reconnect_while (S (List.length (waits (env st)))) st in
  let st1 := final loop in
  _reconnect_with_backoff st =
    match result loop with
    | Ok Return => (Ok tt, st1, effects loop)
    | Ok _ =>
        (Ok tt, st1,
         effects loop ++
           if max_reconnect_attempts (self st1) <=? reconnect_attempts (self st1)
           then [Log ERROR MaxAttemptsReached] else [])
    | Raise e => (Raise e, st1, effects loop)
    | Blocked => (Blocked, st1, effects loop)
    end.
Proof.
  cbv zeta. unfold _reconnect_with_backoff.
  generalize (reconnect_while (S (List.length (waits (env st))))) as loop.
  intros loop. run_machine.
  destruct (loop st) as [[[[ | | ] | e | ] st1] t1]; cbn;
    rewrite ?app_nil_r; try reflexivity;
    destruct (max_reconnect_attempts (self st1) <=? reconnect_attempts (self st1));
    reflexivity.
Qed.

(** ** Invariants of the telemetry thread *)

Section Invariant.

Variable Inv : sensor -> Prop.
Variable attempt_ok : Z -> Z -> Z -> Prop.

Hypothesis act_keeps : forall a s, Inv s -> Inv (final (act a s)).

Hypothesis bump_keeps :
  forall s, Inv s ->
    connected s = false ->
    reconnect_attempts s < max_reconnect_attempts s ->
    Inv (bump s) /\
    attempt_ok (reconnect_attempts s + 1) (max_reconnect_attempts s)
      (backoff (reconnect_delay s) (reconnect_attempts s + 1)).

Lemma deliver_keeps (acts : list action) (s : sensor) :
  Inv s -> Inv (fst (deliver acts s)).
Proof.
  revert s. induction acts as [|a acts IH]; intros s Hs; [exact Hs|].
  rewrite deliver_cons. cbn [fst]. apply IH, act_keeps, Hs.
Qed.

Lemma heard_ok (acts : list action) (s : sensor) :
  Forall (event_ok attempt_ok) (snd (deliver acts s)).
Proof.
  apply (callback_events_counts _ (deliver_events acts s)).
Qed.

Lemma respects_ret {A} (a : A) : respects Inv attempt_ok (ret a).
Proof. intros st Hst. split; [exact Hst | constructor]. Qed.

Lemma respects_bind {A B} (m : M machine A) (k : A -> M machine B) :
  respects Inv attempt_ok m ->
  (forall a, respects Inv attempt_ok (k a)) ->
  respects Inv attempt_ok (bind m k).
Proof.
  intros Hm Hk st Hst. specialize (Hm st Hst). unfold bind, final, effects in *.
  destruct (m st) as [[[a | e | ] s1] t1]; cbn in *; try exact Hm.
  destruct Hm as [Hs1 Ht1]. specialize (Hk a s1 Hs1).
  destruct (k a s1) as [[r s2] t2]; cbn in *.
  destruct Hk as [Hs2 Ht2]. split; [exact Hs2 | apply Forall_app; auto].
Qed.

Lemma respects_field {A} (f : sensor -> A) : respects Inv attempt_ok (field f).
Proof. intros st Hst. split; [exact Hst | constructor]. Qed.

Lemma respects_emit (ev : event) :
  event_ok attempt_ok ev -> respects Inv attempt_ok (emit ev).
Proof. intros Hev st Hst. split; [exact Hst | repeat constructor; exact Hev]. Qed.

Lemma respects_wait (timeout : Z) : respects Inv attempt_ok (wait timeout).
Proof.
  intros st Hst. rewrite wait_run.
  destruct (stop_event (self st)); [split; [exact Hst | repeat constructor]|].
  destruct (TIMEOUT_MAX py <? timeout); [split; [exact Hst | constructor]|].
  destruct (waits (env st)) as [|acts rest]; [split; [exact Hst | constructor]|].
  cbn. split.
  - apply deliver_keeps, Hst.
  - apply Forall_app. split; [apply heard_ok | repeat constructor].
Qed.

Lemma respects_publish : respects Inv attempt_ok _publish_telemetry.
Proof.
  intros st Hst. pose proof (publish_telemetry_self st) as (Hself & _ & _ & _ & _ & _ & Hok).
  rewrite Hself. auto.
Qed.

Lemma reconnect_body_respects (st : machine) :
  Inv (self st) ->
  connected (self st) = false ->
  reconnect_attempts (self st) < max_reconnect_attempts (self st) ->
  Inv (self (final (reconnect_body st))) /\
  Forall (event_ok attempt_ok) (effects (reconnect_body st)).
Proof.
  intros Hst Hc Hlt. destruct (bump_keeps _ Hst Hc Hlt) as [Hbump Hok].
  rewrite reconnect_body_run. cbv zeta. unfold final, effects.
  pose proof (fun acts => deliver_keeps acts _ Hbump) as Hkeep.
  pose proof (fun acts => heard_ok acts (bump (self st))) as Hheard.
  destruct (stop_event (self st)); cbn; [split; [auto | repeat constructor; auto]|].
  destruct (TIMEOUT_MAX py <? _); cbn; [split; [auto | repeat constructor; auto]|].
  destruct (waits (env st)) as [|acts rest]; cbn;
    [split; [auto | repeat constructor; auto]|].
  destruct (stop_event (fst (deliver acts (bump (self st))))); cbn.
  - split; [auto|]. constructor; [exact Hok|].
    apply Forall_app. split; [auto | repeat constructor].
  - destruct (reconnects (env st)) as [|[e|] rs]; cbn;
      (split; [auto|]; constructor; [exact Hok|];
       apply Forall_app; split; [auto | repeat constructor]).
Qed.

Lemma reconnect_while_respects (fuel : nat) :
  respects Inv attempt_ok (reconnect_while fuel).
Proof.
  induction fuel as [|fuel IH]; intros st Hst.
  - split; [exact Hst | constructor].
  - rewrite reconnect_while_step.
    destruct (negb (connected (self st))
              && (reconnect_attempts (self st) <? max_reconnect_attempts (self st)))%bool
      eqn:Hguard; [|split; [exact Hst | constructor]].
    apply andb_prop in Hguard as [Hc Hlt].
    apply Bool.negb_true_iff in Hc. apply Z.ltb_lt in Hlt.
    pose proof (reconnect_body_respects st Hst Hc Hlt) as Hbody.
    unfold final, effects in *.
    destruct (reconnect_body st) as [[[[ | | ] | e | ] st1] t1]; cbn in *;
      try exact Hbody.
    destruct Hbody as [Hs1 Ht1]. specialize (IH st1 Hs1) as [Hs2 Ht2].
    split; [exact Hs2 | apply Forall_app; auto].
Qed.

Lemma reconnect_cycle_respects : respects Inv attempt_ok _reconnect_with_backoff.
Proof.
  intros st Hst. rewrite reconnect_cycle_run. cbv zeta.
  pose proof (reconnect_while_respects (S (List.length (waits (env st)))) st Hst)
    as Hloop.
  unfold final, effects in *.
  destruct (reconnect_while (S (List.length (waits (env st)))) st)
    as [[[[ | | ] | e | ] st1] t1]; cbn in *; try exact Hloop;
    destruct Hloop as [Hs1 Ht1]; (split; [exact Hs1|]);
    apply Forall_app; (split; [exact Ht1|]);
    destruct (max_reconnect_attempts (self st1) <=? reconnect_attempts (self st1));
    repeat constructor.
Qed.

Lemma telemetry_while_respects (fuel : nat) :
  respects Inv attempt_ok (telemetry_while fuel).
Proof.
  induction fuel as [|fuel IH]; [intros st Hst; split; [exact Hst | constructor]|].
  cbn [telemetry_while].
  apply respects_bind; [apply respects_field|]. intros [|]; [apply respects_ret|].
  apply respects_bind; [apply respects_field|]. intros is_connected.
  apply respects_bind.
  - destruct (negb is_connected); [|apply respects_ret].
    apply respects_bind; [apply reconnect_cycle_respects|]. intros _.
    apply respects_bind; [apply respects_field|]. intros still.
    destruct (negb still); [|apply respects_ret].
    apply respects_bind; [apply respects_field|]. intros delay.
    apply respects_bind; [apply respects_wait|]. intros _. apply respects_ret.
  - intros [|]; [exact IH|].
    apply respects_bind; [apply respects_publish|]. intros _.
    apply respects_bind; [apply respects_field|]. intros seconds.
    apply respects_bind; [apply respects_wait|]. intros _. exact IH.
Qed.

Lemma telemetry_loop_respects : respects Inv attempt_ok _telemetry_loop.
Proof.
  intros st Hst. unfold _telemetry_loop.
  apply (respects_bind (log INFO StartingTelemetryLoop)); [| |exact Hst].
  - apply respects_emit. exact I.
  - intros _. apply respects_bind; [apply telemetry_while_respects|].
    intros _. apply respects_emit. exact I.
Qed.

End Invariant.

(** ** Counting in traces *)

Lemma wait_timeouts_app (t1 t2 : trace) :
  wait_timeouts (t1 ++ t2) = wait_timeouts t1 ++ wait_timeouts t2.
Proof.
  induction t1 as [|[ | | | | ] t1 IH]; cbn; rewrite ?IH; reflexivity.
Qed.

Lemma reconnect_calls_app (t1 t2 : trace) :
  reconnect_calls (t1 ++ t2) = (reconnect_calls t1 + reconnect_calls t2)%nat.
Proof.
  induction t1 as [|[ | | | | ] t1 IH]; cbn; rewrite ?IH; reflexivity.
Qed.

Lemma attempts_started_app (t1 t2 : trace) :
  attempts_started (t1 ++ t2) = (attempts_started t1 + attempts_started t2)%nat.
Proof.
  induction t1 as [|[lvl [] | | | | ] t1 IH]; cbn; rewrite ?IH; reflexivity.
Qed.

Lemma heard_counts (acts : list action) (s : sensor) :
  wait_timeouts (snd (deliver acts s)) = [] /\
  reconnect_calls (snd (deliver acts s)) = O /\
  attempts_started (snd (deliver acts s)) = O /\
  telemetry_publishes (snd (deliver acts s)) = [] /\
  after_stop_observed (snd (deliver acts s)) = None.
Proof.
  pose proof (callback_events_counts _ (deliver_events acts s)) as H. tauto.
Qed.

(** ** The interval floor *)

Lemma reachable_invariant (s : sensor) :
  reachable s ->
  1 <= interval s /\ reconnect_delay s = 5 /\ max_reconnect_attempts s = 5 /\
  0 <= reconnect_attempts s <= 5.
Proof.
  set (Inv := fun s : sensor =>
         1 <= interval s /\ reconnect_delay s = 5 /\
         max_reconnect_attempts s = 5 /\ 0 <= reconnect_attempts s <= 5).
  assert (Hact : forall a s0, Inv s0 -> Inv (final (act a s0))).
  { intros a s0 (Hi & Hd & Hm & Ha).
    pose proof (act_fields a s0) as (Hd' & Hm' & Ha' & _ & Hi').
    unfold Inv. rewrite Hd', Hm', Ha'. repeat split; auto; destruct (resets a); lia. }
  assert (Hbump : forall s0, Inv s0 -> connected s0 = false ->
            reconnect_attempts s0 < max_reconnect_attempts s0 ->
            Inv (bump s0) /\ True).
  { intros s0 (Hi & Hd & Hm & Ha) _ Hlt. unfold Inv. cbn. repeat split; auto; lia. }
  induction 1 as [ | s a _ IH | s w _ IH].
  - cbn. lia.
  - apply Hact, IH.
  - apply (telemetry_loop_respects Inv (fun _ _ _ => True) Hact Hbump
             {| self := s; env := w |} IH).
Qed.

(** C3: an update never takes the stored interval below 1.  It keeps the
    floor on every state that has it, it stores exactly 1 when the value
    under [interval] is read by [int] as an integer below 1, and every
    state the object can reach, by callbacks, by [stop] and by the
    telemetry loop, has an interval of at least 1. *)
Theorem interval_never_below_one :
  (forall s attributes,
     1 <= interval s -> 1 <= interval (final (_update_attributes attributes s)))
  /\ (forall s kvs v n,
       Py.lookup "interval" kvs = Some v ->
       Py.int (int_max_str_digits py) v = Ok n ->
       n < 1 ->
       interval (final (_update_attributes (JDict kvs) s)) = 1)
  /\ (forall s, reachable s -> 1 <= interval s).
Proof.
  split; [|split].
  - intros s attributes. apply update_keeps_interval_floor.
  - intros s kvs v n Hkey Hint Hn.
    rewrite (update_clamps_interval s kvs v n Hkey Hint). lia.
  - intros s Hs. apply (reachable_invariant s Hs).
Qed.

(** ** The attempt counter *)

Lemma quiet_while_count (fuel : nat) (st : machine) :
  quiet (env st) ->
  let t := effects (reconnect_while fuel st) in
  (attempts_started t <=
     Z.to_nat (max_reconnect_attempts (self st) - reconnect_attempts (self st)))%nat /\
  (reconnect_calls t <= attempts_started t)%nat.
Proof.
  revert st. induction fuel as [|fuel IH]; intros st Hquiet; cbv zeta.
  - cbn. lia.
  - rewrite reconnect_while_step.
    destruct (negb (connected (self st))
              && (reconnect_attempts (self st) <? max_reconnect_attempts (self st)))%bool
      eqn:Hguard; [|cbn; lia].
    apply andb_prop in Hguard as [_ Hlt]. apply Z.ltb_lt in Hlt.
    rewrite reconnect_body_run. cbv zeta.
    destruct (stop_event (self st)); [cbn; lia|].
    destruct (TIMEOUT_MAX py <? _); [cbn; lia|].
    destruct (waits (env st)) as [|acts rest] eqn:Hwaits; [cbn; lia|].
    unfold quiet in Hquiet. rewrite Hwaits in Hquiet.
    inversion Hquiet as [|? ? Hacts Hrest]; subst.
    pose proof (heard_counts acts (bump (self st))) as (_ & Hr & Ha & _ & _).
    pose proof (deliver_fields acts (bump (self st))) as (_ & Hm & _ & Hsame & _ & _).
    specialize (Hsame Hacts). cbn in Hm, Hsame.
    destruct (stop_event (fst (deliver acts (bump (self st))))).
    + unfold effects; cbn. rewrite attempts_started_app, reconnect_calls_app, Hr, Ha.
      cbn. lia.
    + destruct (reconnects (env st)) as [|[e|] rs]; unfold effects; cbn;
        rewrite ?attempts_started_app, ?reconnect_calls_app, ?Hr, ?Ha; cbn; try lia.
      match goal with
      | |- context [reconnect_while fuel ?st1] =>
          specialize (IH st1 Hrest); cbv zeta in IH; cbn [self] in IH;
          unfold effects in IH; destruct IH as [IH1 IH2]
      end.
      rewrite Hm, Hsame in IH1. lia.
Qed.

(** C6: a turn of the reconnect [while] starts only when the counter is
    below [max_reconnect_attempts]: every attempt a cycle announces has a
    number within the limit, and a counter within the limit before the
    cycle is within it afterwards, whatever the other threads do.  When no
    connection succeeds in the meantime, a cycle entered at count [n]
    starts at most [max_reconnect_attempts - n] attempts, each with at most
    one call of [client.reconnect()]; from the initial count that is five
    and no sixth.  In every state the object can reach the limit is 5 and
    the counter lies between 0 and the limit. *)
Theorem reconnect_attempts_bounded (st : machine) :
  0 <= max_reconnect_attempts (self st) ->
  reconnect_attempts (self st) <= max_reconnect_attempts (self st) ->
  let run := _reconnect_with_backoff st in
  reconnect_attempts (self (final run)) <= max_reconnect_attempts (self (final run))
  /\ Forall (event_ok (fun attempt limit _ => attempt <= limit)) (effects run)
  /\ (quiet (env st) ->
      (attempts_started (effects run) <=
         Z.to_nat (max_reconnect_attempts (self st) - reconnect_attempts (self st)))%nat
      /\ (reconnect_calls (effects run) <= attempts_started (effects run))%nat)
  /\ (forall s, reachable s ->
        max_reconnect_attempts s = 5 /\
        0 <= reconnect_attempts s <= max_reconnect_attempts s).
Proof.
  intros Hmax Hle. cbv zeta.
  assert (Hreach : forall s, reachable s ->
            max_reconnect_attempts s = 5 /\
            0 <= reconnect_attempts s <= max_reconnect_attempts s).
  { intros s Hs. destruct (reachable_invariant s Hs) as (_ & _ & Hm & Ha).
    rewrite Hm. auto. }
  set (Inv := fun s : sensor =>
         0 <= max_reconnect_attempts s /\
         reconnect_attempts s <= max_reconnect_attempts s).
  assert (Hact : forall a s, Inv s -> Inv (final (act a s))).
  { intros a s [Hm Ha].
    pose proof (act_fields a s) as (_ & Hm' & Ha' & _).
    unfold Inv. rewrite Hm', Ha'. destruct (resets a); lia. }
  assert (Hbump : forall s, Inv s -> connected s = false ->
            reconnect_attempts s < max_reconnect_attempts s ->
            Inv (bump s) /\
            reconnect_attempts s + 1 <= max_reconnect_attempts s).
  { intros s [Hm Ha] _ Hlt. unfold Inv. cbn. lia. }
  pose proof (reconnect_cycle_respects Inv (fun attempt limit _ => attempt <= limit)
                Hact Hbump st (conj Hmax Hle)) as [[_ Hfinal] Hevents].
  split; [exact Hfinal | split; [exact Hevents | split; [|exact Hreach]]].
  intros Hquiet. rewrite reconnect_cycle_run. cbv zeta.
  pose proof (quiet_while_count (S (List.length (waits (env st)))) st Hquiet)
    as [Hstarted Hcalls].
  cbv zeta in Hstarted, Hcalls. unfold effects, final, result in *.
  destruct (reconnect_while (S (List.length (waits (env st)))) st)
    as [[[[ | | ] | e | ] st1] t1]; cbn in *; auto;
    rewrite attempts_started_app, reconnect_calls_app;
    destruct (max_reconnect_attempts (self st1) <=? reconnect_attempts (self st1));
    cbn; lia.
Qed.

(** ** The backoff schedule *)

Lemma backoff_increasing (delay n m : Z) :
  0 < delay -> 1 <= n -> n < m -> backoff delay n < backoff delay m.
Proof.
  intros Hd Hn Hnm. unfold backoff.
  apply Z.mul_lt_mono_pos_l; [exact Hd|].
  apply Z.pow_lt_mono_r; lia.
Qed.

Lemma backoff_unbounded (delay bound : Z) :
  0 < delay -> exists n, 1 <= n /\ bound < backoff delay n.
Proof.
  intros Hd. exists (Z.max 1 (bound + 1)). split; [lia|]. unfold backoff.
  assert (Hpow : Z.max 1 (bound + 1) - 1 < 2 ^ (Z.max 1 (bound + 1) - 1))
    by (apply Z.pow_gt_lin_r; lia).
  nia.
Qed.

Lemma reconnect_body_waits (st : machine) :
  let wait_time :=
    backoff (reconnect_delay (self st)) (reconnect_attempts (self st) + 1) in
  let run := reconnect_body st in
  (exists rest,
     effects run =
       Log INFO (ReconnectAttempt (reconnect_attempts (self st) + 1)
                   (max_reconnect_attempts (self st)) wait_time) :: rest) /\
  (wait_timeouts (effects run) = [wait_time] \/
   wait_timeouts (effects run) = [] /\
   (result run = Blocked \/
    result run = Raise OverflowError /\ TIMEOUT_MAX py < wait_time)).
Proof.
  cbv zeta. rewrite reconnect_body_run. cbv zeta. unfold effects, result.
  destruct (stop_event (self st)); [cbn; eauto|].
  destruct (TIMEOUT_MAX py <? _) eqn:Hlimit.
  { apply Z.ltb_lt in Hlimit.
    split; [eexists; reflexivity|].
    right. split; [reflexivity|]. right. split; [reflexivity | exact Hlimit]. }
  destruct (waits (env st)) as [|acts rest]; [cbn; eauto 8|].
  pose proof (heard_counts acts (bump (self st))) as (Hw & _).
  destruct (stop_event (fst (deliver acts (bump (self st))))).
  - cbn. rewrite wait_timeouts_app, Hw. cbn. eauto.
  - destruct (reconnects (env st)) as [|[e|] rs]; cbn;
      rewrite wait_timeouts_app, Hw; cbn; eauto.
Qed.

(** C7: attempt number [n] of a reconnect cycle waits
    [reconnect_delay * 2 ^ (n - 1)] seconds.  A turn of the [while]
    announces its number and that delay and waits on the stop event with
    exactly that timeout, whatever the world does (no wait is recorded
    only when the run ends blocked in it or the delay is more than the
    platform takes).  Every attempt of a cycle has a number of at least 1
    and the delay of the formula; the delay grows strictly with [n] and
    exceeds any bound.  In every state the object can reach,
    [reconnect_delay] is 5 and the counter is not negative. *)
Theorem backoff_schedule (st : machine) :
  0 < reconnect_delay (self st) ->
  0 <= reconnect_attempts (self st) ->
  let delay := reconnect_delay (self st) in
  let n := reconnect_attempts (self st) + 1 in
  (1 <= n /\
   (exists rest,
      effects (reconnect_body st) =
        Log INFO (ReconnectAttempt n (max_reconnect_attempts (self st))
                    (delay * 2 ^ (n - 1))) :: rest) /\
   (wait_timeouts (effects (reconnect_body st)) = [delay * 2 ^ (n - 1)] \/
    wait_timeouts (effects (reconnect_body st)) = [] /\
    (result (reconnect_body st) = Blocked \/
     result (reconnect_body st) = Raise OverflowError /\
     TIMEOUT_MAX py < delay * 2 ^ (n - 1))))
  /\ Forall (event_ok (fun attempt _ wait_time =>
                        1 <= attempt /\ wait_time = delay * 2 ^ (attempt - 1)))
       (effects (_reconnect_with_backoff st))
  /\ (forall a b, 1 <= a -> a < b -> delay * 2 ^ (a - 1) < delay * 2 ^ (b - 1))
  /\ (forall bound, exists a, 1 <= a /\ bound < delay * 2 ^ (a - 1))
  /\ (forall s, reachable s -> reconnect_delay s = 5 /\ 0 <= reconnect_attempts s).
Proof.
  intros Hd Ha. cbv zeta. split; [|split; [|split; [|split]]].
  - split; [lia|]. apply (reconnect_body_waits st).
  - set (d := reconnect_delay (self st)).
    set (Inv := fun s : sensor => reconnect_delay s = d /\ 0 <= reconnect_attempts s).
    assert (Hact : forall a s, Inv s -> Inv (final (act a s))).
    { intros a s [Hsd Hsa].
      pose proof (act_fields a s) as (Hd' & _ & Ha' & _).
      unfold Inv. rewrite Hd', Ha'. destruct (resets a); lia. }
    assert (Hbump : forall s, Inv s -> connected s = false ->
              reconnect_attempts s < max_reconnect_attempts s ->
              Inv (bump s) /\
              (1 <= reconnect_attempts s + 1 /\
               backoff (reconnect_delay s) (reconnect_attempts s + 1) =
                 d * 2 ^ (reconnect_attempts s + 1 - 1))).
    { intros s [Hsd Hsa] _ _. unfold Inv, backoff. cbn. rewrite Hsd.
      repeat split; lia. }
    apply (reconnect_cycle_respects Inv _ Hact Hbump st). split; [reflexivity | exact Ha].
  - intros a b H1 H2. apply (backoff_increasing _ a b Hd H1 H2).
  - intros bound. apply (backoff_unbounded _ bound Hd).
  - intros s Hs. destruct (reachable_invariant s Hs) as (_ & Hdelay & _ & Hcount).
    split; [exact Hdelay | lia].
Qed.

(** ** An exhausted counter *)

Lemma exhausted_cycle_is_idle (st : machine) :
  max_reconnect_attempts (self st) <= reconnect_attempts (self st) ->
  _reconnect_with_backoff st = (Ok tt, st, [Log ERROR MaxAttemptsReached]).
Proof.
  intros Hmax. rewrite reconnect_cycle_run. cbv zeta. rewrite reconnect_while_step.
  replace (reconnect_attempts (self st) <? max_reconnect_attempts (self st))
    with false by (symmetry; apply Z.ltb_ge; exact Hmax).
  rewrite Bool.andb_false_r. cbn.
  replace (max_reconnect_attempts (self st) <=? reconnect_attempts (self st))
    with true by (symmetry; apply Z.leb_le; exact Hmax).
  reflexivity.
Qed.

Lemma telemetry_while_step (fuel : nat) (st : machine) :
  telemetry_while (S fuel) st =
    if stop_event (self st) then (Ok tt, st, [])
    else
      let publish_then_wait :=
        (_publish_telemetry ;;
         seconds <- field interval ;;
         wait seconds ;;
         telemetry_while fuel)%monad in
      if connected (self st) then publish_then_wait st
      else
        (_reconnect_with_backoff ;;
         still_connected <- field connected ;;
         if negb still_connected then
           delay <- field reconnect_delay ;;
           wait delay ;;
           telemetry_while fuel
         else publish_then_wait)%monad st.
Proof.
  cbn [telemetry_while].
  generalize (telemetry_while fuel) as loop.
  generalize _publish_telemetry as publish.
  generalize _reconnect_with_backoff as cycle.
  generalize wait as wait_on.
  intros wait_on cycle publish loop.
  unfold bind, field, ret. cbn.
  destruct (stop_event (self st)); [reflexivity|].
  destruct (connected (self st)); cbn.
  - destruct (publish st) as [[[ [] | e | ] st1] t1]; cbn; try reflexivity.
    destruct (wait_on (interval (self st1)) st1) as [[[ b | e | ] st2] t2]; cbn;
      try reflexivity.
    destruct (loop st2) as [[r st3] t3]; reflexivity.
  - destruct (cycle st) as [[[ [] | e | ] st1] t1]; cbn; try reflexivity.
    destruct (connected (self st1)); cbn.
    + rewrite app_nil_r.
      destruct (publish st1) as [[[ [] | e | ] st2] t2]; cbn; try reflexivity.
      destruct (wait_on (interval (self st2)) st2) as [[[ b | e | ] st3] t3]; cbn;
        try reflexivity.
      destruct (loop st3) as [[r st4] t4]; cbn. rewrite <- ?app_assoc. reflexivity.
    + destruct (wait_on (reconnect_delay (self st1)) st1) as [[[ b | e | ] st2] t2];
        cbn; rewrite ?app_nil_r; try reflexivity.
      destruct (loop st2) as [[r st3] t3]; cbn. rewrite <- ?app_assoc. reflexivity.
Qed.

Lemma bind_run {S A B} (m : M S A) (k : A -> M S B) (s : S) :
  bind m k s =
    match m s with
    | (Ok a, s1, t1) => (result (k a s1), final (k a s1), t1 ++ effects (k a s1))
    | (Raise e, s1, t1) => (Raise e, s1, t1)
    | (Blocked, s1, t1) => (Blocked, s1, t1)
    end.
Proof.
  unfold bind, result, final, effects.
  destruct (m s) as [[[a | e | ] s1] t1]; try reflexivity.
  destruct (k a s1) as [[r s2] t2]; reflexivity.
Qed.

Lemma bind_field {A B} (f : sensor -> A) (k : A -> M machine B) (st : machine) :
  bind (field f) k st = k (f (self st)) st.
Proof.
  unfold bind, field. destruct (k (f (self st)) st) as [[r s2] t2]; reflexivity.
Qed.

Lemma telemetry_publishes_app (t1 t2 : trace) :
  telemetry_publishes (t1 ++ t2) = telemetry_publishes t1 ++ telemetry_publishes t2.
Proof.
  induction t1 as [|[ | | topic payload qos | | ] t1 IH]; cbn; rewrite ?IH;
    try reflexivity.
  destruct (String.eqb topic TELEMETRY_TOPIC); reflexivity.
Qed.

Lemma act_stays_disconnected (a : action) (s : sensor) :
  resets a = false -> connected s = false -> connected (final (act a s)) = false.
Proof.
  destruct a as [rc answer | rc | topic body | ]; cbn [act resets]; intros Hr Hc.
  - unfold _on_connect. rewrite Hr. reflexivity.
  - by_cases; reflexivity.
  - destruct (on_message_final topic body s) as [-> | [attributes ->]]; [exact Hc|].
    pose proof (update_keeps_connection s attributes) as (Hconn & _).
    rewrite Hconn. exact Hc.
  - exact Hc.
Qed.

Lemma deliver_stays_disconnected (acts : list action) (s : sensor) :
  Forall (fun a => resets a = false) acts ->
  connected s = false -> connected (fst (deliver acts s)) = false.
Proof.
  revert s. induction acts as [|a acts IH]; intros s Hq Hc; [exact Hc|].
  inversion Hq as [|? ? Hr Hrest]; subst.
  rewrite deliver_cons. cbn [fst]. apply IH; [exact Hrest|].
  apply act_stays_disconnected; assumption.
Qed.

(** A cycle that meets nothing but refusals: [k] waits that nothing
    interrupts and [k] calls of [client.reconnect()] that raise, [k] being
    what is left of the limit, and every delay one that the platform
    takes. *)
Lemma refused_turns (k fuel : nat) (st : machine) (errors : list exn)
    (ws : list (list action)) (rs : list (option exn)) :
  (k < fuel)%nat ->
  connected (self st) = false ->
  stop_event (self st) = false ->
  max_reconnect_attempts (self st) - reconnect_attempts (self st) = Z.of_nat k ->
  (forall n, reconnect_attempts (self st) < n <= max_reconnect_attempts (self st) ->
             backoff (reconnect_delay (self st)) n <= TIMEOUT_MAX py) ->
  waits (env st) = repeat [] k ++ ws ->
  List.length errors = k ->
  reconnects (env st) = map Some errors ++ rs ->
  let run := reconnect_while fuel st in
  result run = Ok Continue /\
  reconnect_attempts (self (final run)) = max_reconnect_attempts (self st) /\
  max_reconnect_attempts (self (final run)) = max_reconnect_attempts (self st) /\
  waits (env (final run)) = ws /\
  reconnects (env (final run)) = rs /\
  reconnect_calls (effects run) = k.
Proof.
  revert fuel st errors. induction k as [|k IH];
    intros fuel st errors Hfuel Hc Hstop Hleft Hfit Hwaits Hlen Hrs; cbv zeta;
    (destruct fuel as [|fuel]; [lia|]); rewrite reconnect_while_step, Hc; cbn [negb andb].
  - replace (reconnect_attempts (self st) <? max_reconnect_attempts (self st))
      with false by (symmetry; apply Z.ltb_ge; lia).
    destruct errors; [|discriminate]. cbn in *.
    repeat split; auto; lia.
  - replace (reconnect_attempts (self st) <? max_reconnect_attempts (self st))
      with true by (symmetry; apply Z.ltb_lt; lia).
    destruct errors as [|e errors]; [discriminate|].
    rewrite reconnect_body_run. cbv zeta. rewrite Hstop, Hwaits, Hrs.
    replace (TIMEOUT_MAX py <?
               backoff (reconnect_delay (self st)) (reconnect_attempts (self st) + 1))
      with false by (symmetry; apply Z.ltb_ge, Hfit; lia).
    cbn. rewrite Hstop.
    match goal with
    | |- context [reconnect_while fuel ?st1] =>
        specialize (IH fuel st1 errors); cbn in IH
    end.
    destruct IH as (Hres & Ha & Hm & Hw & Hr & Hcalls); auto; try lia.
    { intros n Hn. apply Hfit. lia. }
    unfold result, final, effects in *. cbn.
    repeat split; auto; congruence.
Qed.

(** X26: when every attempt up to the limit is refused and nothing
    interrupts, [_reconnect_with_backoff] calls [client.reconnect()] once
    per attempt left, ends with the counter at the limit, reports
    exhaustion as its last act and returns normally. *)
Lemma exhausted_cycle_reports (k : nat) (st : machine) (errors : list exn)
    (ws : list (list action)) (rs : list (option exn)) :
  connected (self st) = false ->
  stop_event (self st) = false ->
  max_reconnect_attempts (self st) - reconnect_attempts (self st) = Z.of_nat k ->
  (forall n, reconnect_attempts (self st) < n <= max_reconnect_attempts (self st) ->
             backoff (reconnect_delay (self st)) n <= TIMEOUT_MAX py) ->
  waits (env st) = repeat [] k ++ ws ->
  List.length errors = k ->
  reconnects (env st) = map Some errors ++ rs ->
  let run := _reconnect_with_backoff st in
  result run = Ok tt /\
  reconnect_attempts (self (final run)) = max_reconnect_attempts (self (final run)) /\
  reconnect_calls (effects run) = k /\
  exists t, effects run = t ++ [Log ERROR MaxAttemptsReached].
Proof.
  intros Hc Hstop Hleft Hfit Hwaits Hlen Hrs. cbv zeta. rewrite reconnect_cycle_run.
  cbv zeta.
  destruct (refused_turns k (S (List.length (waits (env st)))) st errors ws rs)
    as (Hres & Ha & Hm & _ & _ & Hcalls); auto.
  { rewrite Hwaits, length_app, repeat_length. lia. }
  unfold result, final, effects in *.
  destruct (reconnect_while (S (List.length (waits (env st)))) st) as [[r st1] t1].
  cbn in Hres, Ha, Hm, Hcalls. subst r. cbn.
  rewrite Ha, Hm, Z.leb_refl, reconnect_calls_app, Hcalls. cbn.
  repeat split; auto. eexists. reflexivity.
Qed.

(** X27: once the counter has reached the limit with the sensor
    disconnected, and as long as no connection succeeds, the telemetry
    loop neither starts an attempt, nor calls [client.reconnect()], nor
    publishes. *)
Lemma exhausted_loop_is_idle (fuel : nat) (st : machine) :
  connected (self st) = false ->
  max_reconnect_attempts (self st) <= reconnect_attempts (self st) ->
  quiet (env st) ->
  let t := effects (telemetry_while fuel st) in
  reconnect_calls t = O /\ attempts_started t = O /\ telemetry_publishes t = [].
Proof.
  revert st. induction fuel as [|fuel IH]; intros st Hc Hmax Hquiet; cbv zeta.
  - cbn. auto.
  - rewrite telemetry_while_step. cbv zeta.
    destruct (stop_event (self st)) eqn:Hstop; [cbn; auto|].
    rewrite Hc, bind_run, (exhausted_cycle_is_idle st Hmax), bind_field, Hc.
    cbn [negb]. rewrite bind_field, bind_run, wait_run, Hstop.
    destruct (TIMEOUT_MAX py <? _); [cbn; auto|].
    destruct (waits (env st)) as [|acts rest] eqn:Hwaits; [cbn; auto|].
    unfold quiet in Hquiet. rewrite Hwaits in Hquiet.
    inversion Hquiet as [|? ? Hacts Hrest]; subst.
    pose proof (heard_counts acts (self st)) as (_ & Hr & Ha & Hp & _).
    pose proof (deliver_fields acts (self st)) as (_ & Hm & _ & Hsame & _ & _).
    pose proof (deliver_stays_disconnected acts (self st) Hacts Hc) as Hc'.
    specialize (Hsame Hacts). cbv zeta. unfold effects, final, result. cbn.
    match goal with
    | |- context [telemetry_while fuel ?st1] =>
        specialize (IH st1); cbn [self env set_waits waits] in IH;
        rewrite Hm, Hsame in IH;
        specialize (IH Hc' Hmax Hrest) as (IH1 & IH2 & IH3)
    end.
    unfold effects in *.
    rewrite !reconnect_calls_app, !attempts_started_app, !telemetry_publishes_app.
    rewrite Hr, Ha, Hp, IH1, IH2, IH3. cbn. auto.
Qed.

(** ** After the stop event was seen *)

Lemma after_stop_observed_app (t1 t2 : trace) :
  after_stop_observed (t1 ++ t2) =
    match after_stop_observed t1 with
    | Some tail => Some (tail ++ t2)
    | None => after_stop_observed t2
    end.
Proof.
  induction t1 as [|[ | | | | timeout [|]] t1 IH]; cbn; rewrite ?IH; reflexivity.
Qed.

(** X25: a stop that fires during a backoff wait ends the cycle's turn at
    once: the pending [client.reconnect()] is not called. *)
Lemma stop_during_backoff_aborts
    (st : machine) (acts : list action) (rest : list (list action)) :
  stop_event (self st) = false ->
  backoff (reconnect_delay (self st)) (reconnect_attempts (self st) + 1)
    <= TIMEOUT_MAX py ->
  waits (env st) = acts :: rest ->
  stop_event (fst (deliver acts (bump (self st)))) = true ->
  result (reconnect_body st) = Ok Break /\
  reconnect_calls (effects (reconnect_body st)) = O /\
  reconnects (env (final (reconnect_body st))) = reconnects (env st).
Proof.
  intros Hstop Hfit Hwaits Hfired. rewrite reconnect_body_run. cbv zeta.
  rewrite Hstop, Hwaits, Hfired.
  replace (TIMEOUT_MAX py <? _) with false by (symmetry; apply Z.ltb_ge, Hfit).
  unfold result, effects, final. cbn.
  pose proof (heard_counts acts (bump (self st))) as (_ & Hr & _).
  rewrite reconnect_calls_app, Hr. auto.
Qed.

Lemma stopped_loop_is_silent (fuel : nat) (st : machine) :
  stop_event (self st) = true -> effects (telemetry_while fuel st) = [].
Proof.
  intros Hstop. destruct fuel as [|fuel]; [reflexivity|].
  rewrite telemetry_while_step, Hstop. reflexivity.
Qed.

Lemma wait_after_stop (timeout : Z) (st : machine) :
  let run := wait timeout st in
  reconnect_calls (effects run) = O /\ attempts_started (effects run) = O /\
  telemetry_publishes (effects run) = [] /\
  (stop_event (self st) = true -> stop_event (self (final run)) = true) /\
  (after_stop_observed (effects run) = None \/
   after_stop_observed (effects run) = Some [] /\
   stop_event (self (final run)) = true).
Proof.
  cbv zeta. rewrite wait_run. unfold effects, final.
  destruct (stop_event (self st)) eqn:Hstop; [cbn; auto 10|].
  destruct (TIMEOUT_MAX py <? timeout); [cbn; repeat split; auto; discriminate|].
  destruct (waits (env st)) as [|acts rest]; [cbn; repeat split; auto; discriminate|].
  cbv zeta. cbn [fst snd self].
  pose proof (heard_counts acts (self st)) as (_ & Hr & Ha & Hp & Hs).
  rewrite reconnect_calls_app, attempts_started_app, telemetry_publishes_app,
    after_stop_observed_app, Hr, Ha, Hp, Hs.
  cbn. repeat split; auto; try discriminate.
  destruct (stop_event (fst (deliver acts (self st)))); auto.
Qed.

Lemma reconnect_while_after_stop (fuel : nat) (st : machine) :
  let run := reconnect_while fuel st in
  (stop_event (self st) = true -> stop_event (self (final run)) = true) /\
  (after_stop_observed (effects run) = None \/
   after_stop_observed (effects run) = Some [] /\
   stop_event (self (final run)) = true).
Proof.
  revert st. induction fuel as [|fuel IH]; intros st; cbv zeta.
  - cbn. auto.
  - rewrite reconnect_while_step.
    destruct (negb (connected (self st))
              && (reconnect_attempts (self st) <? max_reconnect_attempts (self st)))%bool;
      [|cbn; auto].
    rewrite reconnect_body_run. cbv zeta.
    destruct (stop_event (self st)) eqn:Hstop; [cbn; auto|].
    destruct (TIMEOUT_MAX py <? _); [cbn; split; [discriminate | auto]|].
    destruct (waits (env st)) as [|acts rest]; [cbn; split; [discriminate | auto]|].
    pose proof (heard_counts acts (bump (self st))) as (_ & _ & _ & _ & Hs).
    destruct (stop_event (fst (deliver acts (bump (self st))))) eqn:Hfired.
    + unfold effects, final. cbn. rewrite after_stop_observed_app, Hs. cbn.
      split; [discriminate | auto].
    + destruct (reconnects (env st)) as [|[e|] rs]; unfold effects, final; cbn;
        rewrite ?after_stop_observed_app, ?Hs; cbn;
        try (split; [discriminate | auto]; fail).
      match goal with
      | |- context [reconnect_while fuel ?st1] =>
          destruct (IH st1) as [_ IH']; unfold effects, final in IH'
      end.
      split; [discriminate | exact IH'].
Qed.

Lemma reconnect_cycle_counts_after_stop (st : machine) :
  let run := _reconnect_with_backoff st in
  after_stop_observed (effects run) = None \/
  exists tail,
    after_stop_observed (effects run) = Some tail /\
    stop_event (self (final run)) = true /\
    reconnect_calls tail = O /\ attempts_started tail = O /\
    telemetry_publishes tail = [].
Proof.
  cbv zeta. rewrite reconnect_cycle_run. cbv zeta.
  destruct (reconnect_while_after_stop (S (List.length (waits (env st)))) st)
    as [_ Hloop].
  unfold effects, final, result in *.
  destruct (reconnect_while (S (List.length (waits (env st)))) st)
    as [[[[ | | ] | e | ] st1] t1]; cbn in *;
    rewrite ?after_stop_observed_app;
    (destruct Hloop as [-> | [-> Hstop]];
     [ left;
       try reflexivity;
       destruct (max_reconnect_attempts (self st1) <=? reconnect_attempts (self st1));
       reflexivity
     | right; eexists; split; [reflexivity|]; split; [exact Hstop|];
       try (destruct (max_reconnect_attempts (self st1) <=? reconnect_attempts (self st1)));
       cbn; auto ]).
Qed.

Lemma bind_effects {S A B} (m : M S A) (k : A -> M S B) (s : S) :
  effects (bind m k s) =
    effects (m s) ++
      match result (m s) with
      | Ok a => effects (k a (final (m s)))
      | _ => []
      end.
Proof.
  rewrite bind_run. unfold effects, result, final.
  destruct (m s) as [[[a | e | ] s1] t1]; cbn; rewrite ?app_nil_r; reflexivity.
Qed.

Lemma calm_app (t1 t2 : trace) :
  reconnect_calls t1 = O -> attempts_started t1 = O -> telemetry_publishes t1 = [] ->
  calm t2 -> calm (t1 ++ t2).
Proof.
  intros Hr Ha Hp (Hr2 & Ha2 & Hp2). unfold calm.
  rewrite reconnect_calls_app, attempts_started_app, telemetry_publishes_app,
    Hr, Ha, Hp, Hr2, Ha2.
  auto.
Qed.

Lemma calm_nil : calm [].
Proof. unfold calm. cbn. auto. Qed.

Lemma publish_at_most_once (st : machine) :
  (List.length (telemetry_publishes (effects (_publish_telemetry st))) <= 1)%nat.
Proof.
  unfold _publish_telemetry, _generate_sensor_data, next_publish_answer.
  run_machine. cbn.
  repeat (split_match; cbn in *); auto.
Qed.

Section AfterStop.

Variable fuel : nat.

Hypothesis loop_calm :
  forall st tail,
    after_stop_observed (effects (telemetry_while fuel st)) = Some tail -> calm tail.

(** Waiting and going round again. *)
Lemma wait_then_loop_calm (timeout : Z) (st : machine) :
  let run := bind (wait timeout) (fun _ => telemetry_while fuel) st in
  (forall tail, after_stop_observed (effects run) = Some tail -> calm tail) /\
  (stop_event (self st) = true ->
   reconnect_calls (effects run) = O /\ attempts_started (effects run) = O /\
   telemetry_publishes (effects run) = []).
Proof.
  cbv zeta. rewrite bind_effects.
  pose proof (wait_after_stop timeout st) as (Hr & Ha & Hp & Hkeep & Hseen).
  cbv zeta in Hr, Ha, Hp, Hkeep, Hseen. split.
  - intros tail. rewrite after_stop_observed_app.
    destruct Hseen as [-> | [-> Hstop]].
    + destruct (result (wait timeout st)); [apply loop_calm | discriminate | discriminate].
    + destruct (result (wait timeout st));
        rewrite ?(stopped_loop_is_silent fuel _ Hstop);
        intros [= <-]; apply calm_nil.
  - intros Hstop. specialize (Hkeep Hstop).
    rewrite reconnect_calls_app, attempts_started_app, telemetry_publishes_app,
      Hr, Ha, Hp.
    destruct (result (wait timeout st));
      rewrite ?(stopped_loop_is_silent fuel _ Hkeep); cbn; auto.
Qed.

Lemma fallback_calm (st : machine) :
  let run :=
    (delay <- field reconnect_delay ;; wait delay ;; telemetry_while fuel)%monad st in
  (forall tail, after_stop_observed (effects run) = Some tail -> calm tail) /\
  (stop_event (self st) = true -> calm (effects run)).
Proof.
  cbv zeta. rewrite bind_field.
  destruct (wait_then_loop_calm (reconnect_delay (self st)) st) as [Hseen Hset].
  split; [exact Hseen|].
  intros Hstop. destruct (Hset Hstop) as (Hr & Ha & Hp).
  unfold calm. rewrite Hr, Ha, Hp. cbn. auto.
Qed.

Lemma publish_then_wait_calm (st : machine) :
  let run :=
    (_publish_telemetry ;;
     seconds <- field interval ;;
     wait seconds ;;
     telemetry_while fuel)%monad st in
  (forall tail, after_stop_observed (effects run) = Some tail -> calm tail) /\
  (stop_event (self st) = true -> calm (effects run)).
Proof.
  cbv zeta. rewrite bind_effects.
  pose proof (publish_telemetry_self st) as (Hself & _ & Hr & Ha & Hs & _).
  pose proof (publish_at_most_once st) as Honce.
  destruct (result (_publish_telemetry st)) as [[] | e | ].
  - rewrite bind_field.
    destruct (wait_then_loop_calm (interval (self (final (_publish_telemetry st))))
                (final (_publish_telemetry st))) as [Hseen Hset].
    split.
    + intros tail. rewrite after_stop_observed_app, Hs. apply Hseen.
    + intros Hstop. rewrite <- Hself in Hstop.
      destruct (Hset Hstop) as (Hr2 & Ha2 & Hp2).
      unfold calm.
      rewrite reconnect_calls_app, attempts_started_app, telemetry_publishes_app,
        Hr, Ha, Hr2, Ha2, Hp2, app_nil_r.
      auto.
  - rewrite app_nil_r. split.
    + intros tail. rewrite Hs. discriminate.
    + intros _. unfold calm. rewrite Hr, Ha. auto.
  - rewrite app_nil_r. split.
    + intros tail. rewrite Hs. discriminate.
    + intros _. unfold calm. rewrite Hr, Ha. auto.
Qed.

Lemma telemetry_while_step_calm (st : machine) (tail : trace) :
  after_stop_observed (effects (telemetry_while (S fuel) st)) = Some tail -> calm tail.
Proof.
  rewrite telemetry_while_step. cbv zeta.
  destruct (stop_event (self st)); [discriminate|].
  destruct (connected (self st)); [apply (publish_then_wait_calm st)|].
  rewrite bind_effects.
  pose proof (reconnect_cycle_counts_after_stop st) as Hcycle. cbv zeta in Hcycle.
  rewrite after_stop_observed_app.
  destruct (result (_reconnect_with_backoff st)) as [[] | e | ].
  - rewrite bind_field.
    set (st1 := final (_reconnect_with_backoff st)) in *.
    assert (Hrest :
      forall rest_run,
        rest_run =
          (if negb (connected (self st1))
           then (delay <- field reconnect_delay ;; wait delay ;;
                 telemetry_while fuel)%monad
           else (_publish_telemetry ;;
                 seconds <- field interval ;;
                 wait seconds ;;
                 telemetry_while fuel)%monad) st1 ->
        (forall tl, after_stop_observed (effects rest_run) = Some tl -> calm tl) /\
        (stop_event (self st1) = true -> calm (effects rest_run))).
    { intros rest_run ->. destruct (negb (connected (self st1)));
        [apply fallback_calm | apply publish_then_wait_calm]. }
    specialize (Hrest _ eq_refl) as [Hseen Hset].
    destruct Hcycle as [-> | (tail_c & -> & Hstop & Hr & Ha & Hp)].
    + apply Hseen.
    + intros [= <-]. apply calm_app; auto.
  - destruct Hcycle as [-> | (tail_c & -> & Hstop & Hr & Ha & Hp)]; [discriminate|].
    intros [= <-]. rewrite app_nil_r. unfold calm. rewrite Hr, Ha, Hp. cbn. auto.
  - destruct Hcycle as [-> | (tail_c & -> & Hstop & Hr & Ha & Hp)]; [discriminate|].
    intros [= <-]. rewrite app_nil_r. unfold calm. rewrite Hr, Ha, Hp. cbn. auto.
Qed.

End AfterStop.

(** X24: once a wait of the telemetry thread has returned with the stop
    event set, the thread starts no reconnect attempt and calls
    [client.reconnect()] no more; it can still publish one record. *)
Lemma telemetry_loop_after_stop (st : machine) (tail : trace) :
  after_stop_observed (effects (_telemetry_loop st)) = Some tail -> calm tail.
Proof.
  assert (Hwhile : forall fuel st0 tl,
            after_stop_observed (effects (telemetry_while fuel st0)) = Some tl ->
            calm tl).
  { induction fuel as [|fuel IH]; [discriminate|].
    intros st0 tl. apply (telemetry_while_step_calm fuel IH). }
  unfold _telemetry_loop.
  assert (Hloop : forall st0 tl,
            after_stop_observed
              (effects (telemetry_while (S (S (List.length (waits (env st))))) st0))
              = Some tl -> calm tl) by (apply Hwhile).
  revert Hloop. generalize (telemetry_while (S (S (List.length (waits (env st)))))).
  intros loop Hloop. rewrite bind_effects. cbn. rewrite bind_effects.
  rewrite after_stop_observed_app.
  destruct (after_stop_observed (effects (loop st))) as [tl|] eqn:Hseen.
  - intros [= <-]. apply Hloop in Hseen. destruct Hseen as (Hr & Ha & Hp).
    unfold calm.
    rewrite reconnect_calls_app, attempts_started_app, telemetry_publishes_app, Hr, Ha.
    destruct (result (loop st)); cbn; rewrite ?app_nil_r; auto.
  - destruct (result (loop st)); cbn; discriminate.
Qed.

(** ** The bounds on the loops are no restriction

    The two [while] loops are unrolled as often as the world has waits to
    offer, plus one; unrolling them further changes nothing. *)

Lemma reconnect_while_fuel (fuel n : nat) (st : machine) :
  (List.length (waits (env st)) < fuel)%nat ->
  (List.length (waits (env st)) < n)%nat ->
  reconnect_while fuel st = reconnect_while n st.
Proof.
  revert n st. induction fuel as [|fuel IH]; intros n st Hfuel Hn; [lia|].
  destruct n as [|n]; [lia|]. rewrite !reconnect_while_step.
  destruct (negb (connected (self st))
            && (reconnect_attempts (self st) <? max_reconnect_attempts (self st)))%bool;
    [|reflexivity].
  rewrite reconnect_body_run. cbv zeta.
  destruct (stop_event (self st)); [reflexivity|].
  destruct (TIMEOUT_MAX py <? _); [reflexivity|].
  destruct (waits (env st)) as [|acts rest] eqn:Hwaits; [reflexivity|].
  destruct (stop_event (fst (deliver acts (bump (self st))))); [reflexivity|].
  destruct (reconnects (env st)) as [|[e|] rs]; try reflexivity.
  cbn in Hfuel, Hn. rewrite (IH n); [reflexivity | cbn; lia | cbn; lia].
Qed.

Lemma reconnect_while_waits (fuel : nat) (st : machine) :
  (List.length (waits (env (final (reconnect_while fuel st))))
     <= List.length (waits (env st)))%nat.
Proof.
  revert st. induction fuel as [|fuel IH]; intros st; [cbn; lia|].
  rewrite reconnect_while_step.
  destruct (negb (connected (self st))
            && (reconnect_attempts (self st) <? max_reconnect_attempts (self st)))%bool;
    [|cbn; lia].
  rewrite reconnect_body_run. cbv zeta.
  destruct (stop_event (self st)); [cbn; lia|].
  destruct (TIMEOUT_MAX py <? _); [cbn; lia|].
  destruct (waits (env st)) as [|acts rest] eqn:Hwaits; [cbn; rewrite Hwaits; cbn; lia|].
  destruct (stop_event (fst (deliver acts (bump (self st))))); [cbn; lia|].
  destruct (reconnects (env st)) as [|[e|] rs]; try (cbn; lia).
  cbn [final fst snd].
  match goal with
  | |- context [reconnect_while fuel ?st1] => specialize (IH st1)
  end.
  cbn in IH |- *. lia.
Qed.

Lemma reconnect_cycle_waits (st : machine) :
  (List.length (waits (env (final (_reconnect_with_backoff st))))
     <= List.length (waits (env st)))%nat.
Proof.
  rewrite reconnect_cycle_run. cbv zeta.
  pose proof (reconnect_while_waits (S (List.length (waits (env st)))) st) as H.
  destruct (result (reconnect_while (S (List.length (waits (env st)))) st))
    as [[ | | ] | e | ]; exact H.
Qed.

Lemma publish_telemetry_waits (st : machine) :
  waits (env (final (_publish_telemetry st))) = waits (env st).
Proof.
  unfold _publish_telemetry, _generate_sensor_data, next_publish_answer.
  run_machine. cbn.
  repeat (split_match; cbn in *); reflexivity.
Qed.

Lemma wait_turns_left (timeout : Z) (st st' : machine) (fired : bool) (t : trace) :
  wait timeout st = (Ok fired, st', t) ->
  (turns_left st' <= S (List.length (waits (env st))))%nat.
Proof.
  rewrite wait_run. unfold turns_left.
  destruct (stop_event (self st)) eqn:Hstop.
  - intros [= _ <- _]. rewrite Hstop. lia.
  - destruct (TIMEOUT_MAX py <? timeout); [discriminate|].
    destruct (waits (env st)) as [|acts rest]; [discriminate|].
    cbv zeta. intros [= _ <- _]. cbn.
    destruct (stop_event (fst (deliver acts (self st)))); lia.
Qed.

Lemma telemetry_while_fuel (fuel n : nat) (st : machine) :
  (turns_left st <= fuel)%nat -> (turns_left st <= n)%nat ->
  telemetry_while fuel st = telemetry_while n st.
Proof.
  revert n st. induction fuel as [|fuel IH]; intros n st Hfuel Hn;
    [unfold turns_left in Hfuel; destruct (stop_event (self st)); lia|].
  destruct n as [|n];
    [unfold turns_left in Hn; destruct (stop_event (self st)); lia|].
  rewrite !telemetry_while_step. cbv zeta.
  unfold turns_left in Hfuel, Hn.
  destruct (stop_event (self st)) eqn:Hstop; [reflexivity|].
  assert (Hpublish : forall st1,
            (List.length (waits (env st1)) <= List.length (waits (env st)))%nat ->
            (_publish_telemetry ;; seconds <- field interval ;; wait seconds ;;
             telemetry_while fuel)%monad st1 =
            (_publish_telemetry ;; seconds <- field interval ;; wait seconds ;;
             telemetry_while n)%monad st1).
  { intros st1 Hle. rewrite !bind_run.
    pose proof (publish_telemetry_waits st1) as Hw. unfold final in Hw.
    destruct (_publish_telemetry st1) as [[[[] | e | ] st2] t2]; try reflexivity.
    cbn in Hw. rewrite !bind_field, !bind_run.
    destruct (wait (interval (self st2)) st2) as [[[fired | e | ] st3] t3] eqn:Hwait;
      try reflexivity.
    apply wait_turns_left in Hwait. rewrite Hw in Hwait.
    rewrite (IH n st3); [reflexivity | lia | lia]. }
  assert (Hfallback : forall st1,
            (List.length (waits (env st1)) <= List.length (waits (env st)))%nat ->
            (delay <- field reconnect_delay ;; wait delay ;;
             telemetry_while fuel)%monad st1 =
            (delay <- field reconnect_delay ;; wait delay ;;
             telemetry_while n)%monad st1).
  { intros st1 Hle. rewrite !bind_field, !bind_run.
    destruct (wait (reconnect_delay (self st1)) st1) as [[[fired | e | ] st2] t2]
      eqn:Hwait; try reflexivity.
    apply wait_turns_left in Hwait. rewrite (IH n st2); [reflexivity | lia | lia]. }
  destruct (connected (self st)); [apply Hpublish; lia|].
  rewrite !bind_run.
  pose proof (reconnect_cycle_waits st) as Hw. unfold final in Hw.
  destruct (_reconnect_with_backoff st) as [[[[] | e | ] st1] t1]; try reflexivity.
  cbn in Hw. rewrite !bind_field.
  destruct (negb (connected (self st1)));
    [rewrite (Hfallback st1 Hw) | rewrite (Hpublish st1 Hw)]; reflexivity.
Qed.

(** ** What a restricted world allows *)

Lemma publish_returns (st : machine) :
  result (_publish_telemetry st) = Ok tt \/ result (_publish_telemetry st) = Blocked.
Proof.
  unfold _publish_telemetry, _generate_sensor_data, next_publish_answer.
  run_machine. cbn.
  repeat (split_match; cbn in * ); auto.
Qed.

Lemma telemetry_free_publishes (t : trace) :
  Forall telemetry_free t -> telemetry_publishes t = [].
Proof.
  induction 1 as [|ev t Hev _ IH]; [reflexivity|].
  destruct ev as [lvl msg | topic | topic payload qos | | timeout fired]; cbn; auto.
  cbn in Hev. destruct (String.eqb_spec topic TELEMETRY_TOPIC); [contradiction | exact IH].
Qed.

(** A step that leaves the machine as it is. *)
Ltac guarded_leaf :=
  cbn; split; [split; assumption|];
  split; [repeat constructor; auto | intros ? ?; congruence].

Section Guarded.

Variable Inv : sensor -> Prop.
Variable allowed : action -> Prop.
Variable ok : event -> Prop.

Hypothesis act_keeps : forall a s, allowed a -> Inv s -> Inv (final (act a s)).
Hypothesis bump_keeps : forall s, Inv s -> Inv (bump s).
Hypothesis callback_ok : forall ev, callback_event ev -> ok ev.
Hypothesis log_ok : forall lvl msg, ok (Log lvl msg).
Hypothesis wait_ok : forall timeout fired, ok (Wait timeout fired).
Hypothesis reconnect_ok : ok Reconnect.
Hypothesis publish_ok :
  forall st, Inv (self st) -> Forall ok (effects (_publish_telemetry st)).

Lemma deliver_guarded (acts : list action) (s : sensor) :
  Forall allowed acts -> Inv s -> Inv (fst (deliver acts s)).
Proof.
  revert s. induction acts as [|a acts IH]; intros s Hacts Hs; [exact Hs|].
  inversion Hacts as [|? ? Ha Hrest]; subst.
  rewrite deliver_cons. cbn [fst]. apply IH; [exact Hrest|]. apply act_keeps; auto.
Qed.

Lemma heard_guarded (acts : list action) (s : sensor) :
  Forall ok (snd (deliver acts s)).
Proof.
  eapply Forall_impl; [exact callback_ok | apply deliver_events].
Qed.

Lemma guarded_ret {A} (a : A) : guarded Inv allowed ok (ret a).
Proof. intros st Hinv Hw. guarded_leaf. Qed.

Lemma guarded_bind {A B} (m : M machine A) (k : A -> M machine B) :
  guarded Inv allowed ok m ->
  (forall a, guarded Inv allowed ok (k a)) ->
  guarded Inv allowed ok (bind m k).
Proof.
  intros Hm Hk st Hinv Hw. specialize (Hm st Hinv Hw).
  unfold bind, final, effects, result in *.
  destruct (m st) as [[[a | e | ] s1] t1]; cbn in *.
  - destruct Hm as ([Hi1 Hw1] & Ht1 & _). specialize (Hk a s1 Hi1 Hw1).
    destruct (k a s1) as [[r s2] t2]; cbn in *.
    destruct Hk as (HJ & Ht2 & Hr). split; [exact HJ|]. split; [|exact Hr].
    apply Forall_app; auto.
  - destruct Hm as (HJ & Ht1 & Hr). split; [exact HJ|]. split; [exact Ht1|].
    intros e0 He0. inversion He0; subst. apply Hr. reflexivity.
  - destruct Hm as (HJ & Ht1 & _). split; [exact HJ|]. split; [exact Ht1|].
    discriminate.
Qed.

Lemma guarded_field {A} (f : sensor -> A) : guarded Inv allowed ok (field f).
Proof. intros st Hinv Hw. guarded_leaf. Qed.

Lemma guarded_log (lvl : level) (msg : message) :
  guarded Inv allowed ok (log lvl msg).
Proof. intros st Hinv Hw. guarded_leaf. Qed.

Lemma guarded_wait (timeout : Z) : guarded Inv allowed ok (wait timeout).
Proof.
  intros st Hinv Hw. rewrite wait_run.
  destruct (stop_event (self st)); [guarded_leaf|].
  destruct (TIMEOUT_MAX py <? timeout); [guarded_leaf|].
  destruct (waits (env st)) as [|acts rest] eqn:Hwaits.
  { split; [split; [exact Hinv | cbn; rewrite Hwaits; constructor]|].
    split; [constructor | discriminate]. }
  inversion Hw as [|? ? Hacts Hrest]; subst. cbn.
  split; [split; [apply deliver_guarded; auto | exact Hrest]|].
  split; [|discriminate].
  apply Forall_app. split; [apply heard_guarded | auto].
Qed.

Lemma guarded_publish : guarded Inv allowed ok _publish_telemetry.
Proof.
  intros st Hinv Hw.
  pose proof (publish_telemetry_self st) as (Hself & _).
  rewrite Hself, publish_telemetry_waits. repeat split; auto.
  intros e He. destruct (publish_returns st) as [H | H]; congruence.
Qed.

Lemma guarded_body : guarded Inv allowed ok reconnect_body.
Proof.
  intros st Hinv Hw. pose proof (bump_keeps _ Hinv) as Hbump.
  rewrite reconnect_body_run. cbv zeta. unfold final, effects, result.
  pose proof (fun acts => heard_guarded acts (bump (self st))) as Hheard.
  destruct (stop_event (self st)); [guarded_leaf|].
  destruct (TIMEOUT_MAX py <? _); [guarded_leaf|].
  destruct (waits (env st)) as [|acts rest] eqn:Hwaits.
  { cbn. rewrite Hwaits. split; [split; auto|].
    split; [repeat constructor; auto | discriminate]. }
  inversion Hw as [|? ? Hacts Hrest]; subst.
  pose proof (deliver_guarded acts _ Hacts Hbump) as Hkeep.
  destruct (stop_event (fst (deliver acts (bump (self st))))).
  - cbn. split; [split; auto|]. split; [|discriminate].
    constructor; [auto|]. apply Forall_app. split; auto.
  - destruct (reconnects (env st)) as [|[e|] rs]; cbn;
      (split; [split; auto|]; split; [|discriminate];
       constructor; [auto|]; apply Forall_app; split; auto).
Qed.

Lemma guarded_reconnect_while (fuel : nat) :
  guarded Inv allowed ok (reconnect_while fuel).
Proof.
  induction fuel as [|fuel IH]; intros st Hinv Hw.
  - split; [split; assumption|]. split; [constructor | discriminate].
  - rewrite reconnect_while_step.
    destruct (negb (connected (self st))
              && (reconnect_attempts (self st) <? max_reconnect_attempts (self st)))%bool;
      [|guarded_leaf].
    pose proof (guarded_body st Hinv Hw) as Hbody.
    unfold final, effects, result in *.
    destruct (reconnect_body st) as [[[[ | | ] | e | ] st1] t1]; cbn in *;
      try exact Hbody.
    destruct Hbody as ([Hi1 Hw1] & Ht1 & _).
    specialize (IH st1 Hi1 Hw1) as (HJ & Ht2 & Hr).
    split; [exact HJ|]. split; [|exact Hr]. apply Forall_app; auto.
Qed.

Lemma guarded_cycle : guarded Inv allowed ok _reconnect_with_backoff.
Proof.
  intros st Hinv Hw. rewrite reconnect_cycle_run. cbv zeta.
  pose proof (guarded_reconnect_while (S (List.length (waits (env st)))) st Hinv Hw)
    as Hloop.
  unfold final, effects, result in *.
  destruct (reconnect_while (S (List.length (waits (env st)))) st)
    as [[[[ | | ] | e | ] st1] t1]; cbn in *;
    destruct Hloop as (HJ & Ht1 & Hr);
    (split; [exact HJ|]; split;
     [|first [discriminate | intros e0 He0; inversion He0; subst; apply Hr; reflexivity]]);
    try exact Ht1;
    apply Forall_app; (split; [exact Ht1|]);
    destruct (max_reconnect_attempts (self st1) <=? reconnect_attempts (self st1));
    repeat constructor; auto.
Qed.

Lemma guarded_telemetry_while (fuel : nat) :
  guarded Inv allowed ok (telemetry_while fuel).
Proof.
  induction fuel as [|fuel IH].
  { intros st Hinv Hw. split; [split; assumption|].
    split; [constructor | discriminate]. }
  cbn [telemetry_while].
  apply guarded_bind; [apply guarded_field|]. intros [|]; [apply guarded_ret|].
  apply guarded_bind; [apply guarded_field|]. intros is_connected.
  apply guarded_bind.
  - destruct (negb is_connected); [|apply guarded_ret].
    apply guarded_bind; [apply guarded_cycle|]. intros _.
    apply guarded_bind; [apply guarded_field|]. intros still.
    destruct (negb still); [|apply guarded_ret].
    apply guarded_bind; [apply guarded_field|]. intros delay.
    apply guarded_bind; [apply guarded_wait|]. intros _. apply guarded_ret.
  - intros [|]; [exact IH|].
    apply guarded_bind; [apply guarded_publish|]. intros _.
    apply guarded_bind; [apply guarded_field|]. intros seconds.
    apply guarded_bind; [apply guarded_wait|]. intros _. exact IH.
Qed.

Lemma guarded_loop : guarded Inv allowed ok _telemetry_loop.
Proof.
  intros st Hinv Hw. unfold _telemetry_loop.
  apply (guarded_bind (log INFO StartingTelemetryLoop)); [| |exact Hinv|exact Hw].
  - apply guarded_log.
  - intros _. apply guarded_bind; [apply guarded_telemetry_while|].
    intros _. apply guarded_log.
Qed.

End Guarded.

Lemma publish_skips (st : machine) :
  connected (self st) = false \/ enabled (self st) = false ->
  Forall telemetry_free (effects (_publish_telemetry st)).
Proof.
  unfold _publish_telemetry. run_machine. intros [H | H].
  - rewrite H. cbn. repeat constructor.
  - destruct (connected (self st)); cbn; [rewrite H; cbn|]; repeat constructor.
Qed.

Lemma callbacks_telemetry_free (ev : event) : callback_event ev -> telemetry_free ev.
Proof.
  destruct ev as [lvl msg | topic | topic payload qos | | timeout fired]; cbn; auto.
  intros ->. discriminate.
Qed.

(** X11: nothing is published while the sensor is disconnected.  From a
    disconnected sensor, and as long as no [_on_connect] with [rc] 0
    arrives, the telemetry loop hands no record to [client.publish],
    whatever [client.reconnect()] returns: a reconnect that returns
    normally does not bring publishing back by itself. *)
Theorem no_publish_while_disconnected (st : machine) :
  connected (self st) = false ->
  quiet (env st) ->
  let run := _telemetry_loop st in
  telemetry_publishes (effects run) = [] /\ connected (self (final run)) = false.
Proof.
  intros Hc Hq. cbv zeta.
  destruct (guarded_loop (fun s => connected s = false) (fun a => resets a = false)
              telemetry_free) with (st := st) as ([Hfinal _] & Hfree & _); auto.
  - intros a s Ha Hs. apply act_stays_disconnected; assumption.
  - exact callbacks_telemetry_free.
  - intros lvl msg. exact I.
  - intros timeout fired. exact I.
  - exact I.
  - intros st0 Hst0. apply publish_skips. auto.
  - split; [apply telemetry_free_publishes, Hfree | exact Hfinal].
Qed.

Lemma act_stays_disabled (a : action) (s : sensor) :
  is_message a = false -> enabled s = false -> enabled (final (act a s)) = false.
Proof.
  destruct a as [rc answer | rc | topic body | ]; cbn [act is_message];
    try discriminate; intros _ Hs.
  - unfold _on_connect. destruct (rc =? 0); [destruct answer|]; exact Hs.
  - unfold _on_disconnect. destruct (rc =? 0); exact Hs.
  - exact Hs.
Qed.

(** X12: nothing is published while the sensor is disabled.  From a
    sensor with [enabled] false, and as long as no message arrives, the
    telemetry loop hands no record to [client.publish], connected or not;
    connecting, disconnecting and reconnecting do not enable it. *)
Theorem no_publish_while_disabled (st : machine) :
  enabled (self st) = false ->
  Forall (Forall (fun a => is_message a = false)) (waits (env st)) ->
  let run := _telemetry_loop st in
  telemetry_publishes (effects run) = [] /\ enabled (self (final run)) = false.
Proof.
  intros He Hw. cbv zeta.
  destruct (guarded_loop (fun s => enabled s = false) (fun a => is_message a = false)
              telemetry_free) with (st := st) as ([Hfinal _] & Hfree & _); auto.
  - intros a s Ha Hs. apply act_stays_disabled; assumption.
  - exact callbacks_telemetry_free.
  - intros lvl msg. exact I.
  - intros timeout fired. exact I.
  - exact I.
  - intros st0 Hst0. apply publish_skips. auto.
  - split; [apply telemetry_free_publishes, Hfree | exact Hfinal].
Qed.

(** X13: no exception of the transport ends the telemetry thread.  What
    [client.reconnect()] and [client.publish] raise is logged and the loop
    goes on; the one exception that can leave [_telemetry_loop] is the
    [OverflowError] of a wait whose timeout the platform cannot take. *)
Theorem loop_raises_only_overflow (st : machine) (e : exn) :
  result (_telemetry_loop st) = Raise e -> e = OverflowError.
Proof.
  destruct (guarded_loop (fun _ => True) (fun _ => True) (fun _ => True))
    with (st := st) as (_ & _ & Hraise); auto.
  - intros st0 _. apply Forall_forall. auto.
  - apply Forall_forall. intros acts _. apply Forall_forall. auto.
Qed.

(** X14: an interval above [threading.TIMEOUT_MAX] ends the telemetry
    thread.  No update refuses a large interval, every integer from 1 up
    is stored as it is; and with such an interval stored, a connected loop
    makes its publish attempt and then dies of the [OverflowError] that
    the wait raises, before any wait and without the closing log record. *)
Theorem oversized_interval_ends_loop (st : machine) :
  stop_event (self st) = false ->
  connected (self st) = true ->
  TIMEOUT_MAX py < interval (self st) ->
  result (_publish_telemetry st) = Ok tt ->
  let run := _telemetry_loop st in
  result run = Raise OverflowError
  /\ effects run = Log INFO StartingTelemetryLoop :: effects (_publish_telemetry st)
  /\ wait_timeouts (effects run) = []
  /\ (forall s kvs v n,
        Py.lookup "interval" kvs = Some v ->
        Py.int (int_max_str_digits py) v = Ok n ->
        1 <= n ->
        interval (final (_update_attributes (JDict kvs) s)) = n).
Proof.
  intros Hstop Hc Hbig Hpub. cbv zeta.
  assert (Hrun : _telemetry_loop st =
                 (Raise OverflowError, final (_publish_telemetry st),
                  Log INFO StartingTelemetryLoop :: effects (_publish_telemetry st))).
  { unfold _telemetry_loop. rewrite bind_run. cbn [log emit].
    rewrite bind_run, telemetry_while_step, Hstop, Hc. cbv zeta.
    rewrite bind_run.
    pose proof (publish_telemetry_self st) as (Hself & _).
    unfold result, final, effects in *.
    destruct (_publish_telemetry st) as [[r st1] t1]. cbn in Hpub, Hself. subst r.
    rewrite bind_field, bind_run, wait_run. cbn [fst snd].
    rewrite Hself, Hstop.
    replace (TIMEOUT_MAX py <? interval (self st)) with true
      by (symmetry; apply Z.ltb_lt; exact Hbig).
    cbn. rewrite app_nil_r. reflexivity. }
  rewrite Hrun. cbn [result final effects fst snd].
  split; [reflexivity|]. split; [reflexivity|]. split.
  - cbn. apply (publish_telemetry_self st).
  - intros s kvs v n Hkey Hint Hn.
    rewrite (update_clamps_interval s kvs v n Hkey Hint). lia.
Qed.

(** ** The time a reconnect cycle takes *)

Lemma total_app (xs ys : list Z) : total (xs ++ ys) = total xs + total ys.
Proof.
  unfold total. induction xs as [|x xs IH]; cbn; [reflexivity | rewrite IH; lia].
Qed.

Lemma backoff_total (delay first : Z) (k : nat) :
  0 <= first ->
  total (map (fun i => backoff delay (first + Z.of_nat i)) (seq 1 k)) =
    delay * (2 ^ (first + Z.of_nat k) - 2 ^ first).
Proof.
  intros Hfirst. induction k as [|k IH].
  - cbn. rewrite Z.add_0_r. lia.
  - rewrite seq_S, map_app, total_app, IH. cbn [map total fold_right Nat.add].
    unfold backoff.
    replace (first + Z.of_nat (S k) - 1) with (first + Z.of_nat k) by lia.
    replace (first + Z.of_nat (S k)) with (Z.succ (first + Z.of_nat k)) by lia.
    rewrite Z.pow_succ_r by lia. lia.
Qed.

Lemma refused_turns_waits (k fuel : nat) (st : machine) (errors : list exn)
    (ws : list (list action)) (rs : list (option exn)) :
  (k < fuel)%nat ->
  connected (self st) = false ->
  stop_event (self st) = false ->
  max_reconnect_attempts (self st) - reconnect_attempts (self st) = Z.of_nat k ->
  (forall n, reconnect_attempts (self st) < n <= max_reconnect_attempts (self st) ->
             backoff (reconnect_delay (self st)) n <= TIMEOUT_MAX py) ->
  waits (env st) = repeat [] k ++ ws ->
  List.length errors = k ->
  reconnects (env st) = map Some errors ++ rs ->
  wait_timeouts (effects (reconnect_while fuel st)) =
    map (fun i => backoff (reconnect_delay (self st))
                    (reconnect_attempts (self st) + Z.of_nat i)) (seq 1 k).
Proof.
  revert fuel st errors. induction k as [|k IH];
    intros fuel st errors Hfuel Hc Hstop Hleft Hfit Hwaits Hlen Hrs;
    (destruct fuel as [|fuel]; [lia|]); rewrite reconnect_while_step, Hc; cbn [negb andb].
  - replace (reconnect_attempts (self st) <? max_reconnect_attempts (self st))
      with false by (symmetry; apply Z.ltb_ge; lia).
    reflexivity.
  - replace (reconnect_attempts (self st) <? max_reconnect_attempts (self st))
      with true by (symmetry; apply Z.ltb_lt; lia).
    destruct errors as [|e errors]; [discriminate|].
    rewrite reconnect_body_run. cbv zeta. rewrite Hstop, Hwaits, Hrs.
    replace (TIMEOUT_MAX py <?
               backoff (reconnect_delay (self st)) (reconnect_attempts (self st) + 1))
      with false by (symmetry; apply Z.ltb_ge, Hfit; lia).
    cbn. rewrite Hstop.
    match goal with
    | |- context [reconnect_while fuel ?st1] =>
        specialize (IH fuel st1 errors); cbn in IH
    end.
    unfold effects in *. cbn.
    rewrite IH; auto; try lia.
    + cbn [seq map]. f_equal.
      rewrite <- (seq_shift k 1), map_map. apply map_ext. intros i. f_equal. lia.
    + intros n Hn. apply Hfit. lia.
Qed.

(** X15: how long a refused cycle waits.  When every attempt up to the
    limit is refused and nothing interrupts, the waits of
    [_reconnect_with_backoff] are the delay doubled from one attempt to
    the next, and they add up to [delay * (2 ^ limit - 2 ^ attempts)],
    counted from the attempts already made: 5, 10, 20, 40 and 80 seconds,
    155 in all, for a sensor as [__init__] makes it. *)
Theorem refused_cycle_waits (k : nat) (st : machine) (errors : list exn)
    (ws : list (list action)) (rs : list (option exn)) :
  connected (self st) = false ->
  stop_event (self st) = false ->
  0 <= reconnect_attempts (self st) ->
  max_reconnect_attempts (self st) - reconnect_attempts (self st) = Z.of_nat k ->
  (forall n, reconnect_attempts (self st) < n <= max_reconnect_attempts (self st) ->
             backoff (reconnect_delay (self st)) n <= TIMEOUT_MAX py) ->
  waits (env st) = repeat [] k ++ ws ->
  List.length errors = k ->
  reconnects (env st) = map Some errors ++ rs ->
  let run := _reconnect_with_backoff st in
  wait_timeouts (effects run) =
    map (fun i => backoff (reconnect_delay (self st))
                    (reconnect_attempts (self st) + Z.of_nat i)) (seq 1 k)
  /\ total (wait_timeouts (effects run)) =
       reconnect_delay (self st) *
         (2 ^ max_reconnect_attempts (self st) - 2 ^ reconnect_attempts (self st)).
Proof.
  intros Hc Hstop Hpos Hleft Hfit Hwaits Hlen Hrs. cbv zeta.
  assert (Hlist : wait_timeouts (effects (_reconnect_with_backoff st)) =
                  map (fun i => backoff (reconnect_delay (self st))
                                  (reconnect_attempts (self st) + Z.of_nat i))
                    (seq 1 k)).
  { rewrite reconnect_cycle_run. cbv zeta.
    pose proof (refused_turns_waits k (S (List.length (waits (env st)))) st errors ws rs)
      as Hw.
    destruct (refused_turns k (S (List.length (waits (env st)))) st errors ws rs)
      as (Hres & _); auto.
    { rewrite Hwaits, length_app, repeat_length. lia. }
    rewrite <- Hw; auto.
    2: { rewrite Hwaits, length_app, repeat_length. lia. }
    unfold result, final, effects in *.
    destruct (reconnect_while (S (List.length (waits (env st)))) st) as [[r st1] t1].
    cbn in Hres. subst r. cbn. rewrite wait_timeouts_app.
    destruct (max_reconnect_attempts (self st1) <=? reconnect_attempts (self st1));
      cbn; apply app_nil_r. }
  split; [exact Hlist|].
  rewrite Hlist, backoff_total by exact Hpos.
  replace (reconnect_attempts (self st) + Z.of_nat k)
    with (max_reconnect_attempts (self st)) by lia.
  reflexivity.
Qed.

(** X16: a [client.reconnect()] that returns ends the cycle and resets
    nothing.  After an uninterrupted backoff wait and a reconnect that
    does not raise, [_reconnect_with_backoff] returns at once: one call of
    the transport, the attempt counter left at its incremented value,
    [connected] still false (only [_on_connect] sets it), and no record
    of exhaustion even when this was the last attempt allowed. *)
Theorem reconnect_success_resets_nothing (st : machine)
    (ws : list (list action)) (rs : list (option exn)) :
  connected (self st) = false ->
  stop_event (self st) = false ->
  reconnect_attempts (self st) < max_reconnect_attempts (self st) ->
  backoff (reconnect_delay (self st)) (reconnect_attempts (self st) + 1)
    <= TIMEOUT_MAX py ->
  waits (env st) = [] :: ws ->
  reconnects (env st) = None :: rs ->
  let run := _reconnect_with_backoff st in
  let attempt := reconnect_attempts (self st) + 1 in
  let wait_time := backoff (reconnect_delay (self st)) attempt in
  result run = Ok tt
  /\ effects run =
       [Log INFO (ReconnectAttempt attempt (max_reconnect_attempts (self st)) wait_time);
        Wait wait_time false; Reconnect; Log INFO ReconnectionSuccessful]
  /\ self (final run) = bump (self st)
  /\ connected (self (final run)) = false
  /\ reconnect_attempts (self (final run)) = attempt.
Proof.
  intros Hc Hstop Hlt Hfit Hwaits Hrs. cbv zeta.
  rewrite reconnect_cycle_run. cbv zeta.
  rewrite reconnect_while_step, Hc. cbn [negb andb].
  replace (reconnect_attempts (self st) <? max_reconnect_attempts (self st))
    with true by (symmetry; apply Z.ltb_lt; exact Hlt).
  rewrite reconnect_body_run. cbv zeta. rewrite Hstop, Hwaits, Hrs.
  replace (TIMEOUT_MAX py <?
             backoff (reconnect_delay (self st)) (reconnect_attempts (self st) + 1))
    with false by (symmetry; apply Z.ltb_ge; exact Hfit).
  cbn. rewrite Hstop. cbn. rewrite Hc. repeat split; reflexivity.
Qed.

(** ** A change of interval while the loop runs *)

Lemma loop_wait_timeouts (st : machine) :
  wait_timeouts (effects (_telemetry_loop st)) =
    wait_timeouts
      (effects (telemetry_while (S (S (List.length (waits (env st))))) st)).
Proof.
  unfold _telemetry_loop. rewrite bind_effects. cbn [log emit result final effects fst snd].
  rewrite bind_effects.
  destruct (result (telemetry_while _ st)); cbn;
    rewrite ?wait_timeouts_app; cbn; rewrite ?app_nil_r; reflexivity.
Qed.

(** One pass of a connected loop: it waits for the stored interval and
    goes on from what the wait delivered, unless it stops short of the
    wait. *)
Lemma connected_pass (fuel : nat) (st : machine) :
  stop_event (self st) = false ->
  connected (self st) = true ->
  wait_timeouts (effects (telemetry_while (S fuel) st)) = [] \/
  exists acts rest st1,
    waits (env st) = acts :: rest /\
    self st1 = fst (deliver acts (self st)) /\
    waits (env st1) = rest /\
    wait_timeouts (effects (telemetry_while (S fuel) st)) =
      interval (self st) :: wait_timeouts (effects (telemetry_while fuel st1)).
Proof.
  intros Hstop Hc. rewrite telemetry_while_step, Hstop, Hc. cbv zeta.
  rewrite bind_effects.
  pose proof (publish_telemetry_self st) as (Hself & Hwt & _).
  pose proof (publish_telemetry_waits st) as Hwaits.
  rewrite wait_timeouts_app, Hwt. cbn [app].
  destruct (publish_returns st) as [Hr | Hr]; rewrite Hr; [|left; reflexivity].
  rewrite bind_field, bind_effects, wait_run, Hself, Hstop, Hwaits.
  destruct (TIMEOUT_MAX py <? interval (self st)); [left; reflexivity|].
  destruct (waits (env st)) as [|acts rest]; [left; reflexivity|].
  right. cbv zeta. cbn [result final effects fst snd].
  eexists acts, rest, _. split; [reflexivity|].
  split; [|split]; [| |rewrite !wait_timeouts_app; cbn [wait_timeouts app];
                       rewrite (proj1 (heard_counts acts (self st))); reflexivity];
    reflexivity.
Qed.

Lemma on_message_keeps_link (topic : string) (body : inbound) (s : sensor) :
  connected (final (_on_message topic body s)) = connected s /\
  stop_event (final (_on_message topic body s)) = stop_event s.
Proof.
  destruct (on_message_final topic body s) as [-> | [attributes ->]]; auto.
  pose proof (update_keeps_connection s attributes) as (Hc & Hs & _). auto.
Qed.

(** X17: a new interval times the next wait.  When a message with an
    accepted [interval] under [shared] arrives during a wait of a
    connected loop, that wait still has the old timeout and the wait after
    it has the new one, the value clamped at 1. *)
Theorem new_interval_times_next_wait
    (st : machine) (topic : string) (kvs : list (string * json)) (v : json) (n : Z)
    (rest : list (list action)) (first second : Z) (later : list Z) :
  stop_event (self st) = false ->
  connected (self st) = true ->
  waits (env st) =
    [OnMessage topic (Parsed (JDict [("shared"%string, JDict kvs)]))] :: rest ->
  Py.lookup "interval" kvs = Some v ->
  Py.int (int_max_str_digits py) v = Ok n ->
  wait_timeouts (effects (_telemetry_loop st)) = first :: second :: later ->
  first = interval (self st) /\ second = Z.max 1 n.
Proof.
  intros Hstop Hc Hwaits Hkey Hint. rewrite loop_wait_timeouts, Hwaits. cbn [List.length].
  destruct (connected_pass (S (S (List.length rest))) st Hstop Hc)
    as [-> | (acts & rest' & st1 & Hw & Hself & Hrest & ->)]; [discriminate|].
  rewrite Hwaits in Hw. injection Hw as <- <-.
  assert (Hs1 : self st1 =
                final (_on_message topic
                         (Parsed (JDict [("shared"%string, JDict kvs)])) (self st))).
  { rewrite Hself, deliver_cons. reflexivity. }
  pose proof (on_message_keeps_link topic
                (Parsed (JDict [("shared"%string, JDict kvs)])) (self st))
    as [Hc1 Hstop1].
  rewrite <- Hs1 in Hc1, Hstop1. rewrite Hc in Hc1. rewrite Hstop in Hstop1.
  assert (Hi1 : interval (self st1) = Z.max 1 n).
  { rewrite Hs1, <- (update_clamps_interval (self st) kvs v n Hkey Hint).
    unfold final, _on_message, try_except, bind, when, call, log, emit, ret. cbn.
    destruct (_update_attributes (JDict kvs) (self st)) as [[[ | e | ] s'] t];
      cbn; try reflexivity.
    destruct (is_json_decode_error e); reflexivity. }
  destruct (connected_pass (S (List.length rest)) st1 Hstop1 Hc1)
    as [-> | (acts2 & rest2 & st2 & _ & _ & _ & ->)]; [discriminate|].
  rewrite Hi1. intros H. injection H as <- <- _. auto.
Qed.

(** ** The loop returns once it has seen the stop event *)

Lemma stopped_loop_returns (fuel : nat) (st : machine) :
  stop_event (self st) = true -> telemetry_while (S fuel) st = (Ok tt, st, []).
Proof.
  intros Hstop. rewrite telemetry_while_step, Hstop. reflexivity.
Qed.

Lemma heard_immediate (acts : list action) (s : sensor) :
  Forall immediate (snd (deliver acts s)).
Proof.
  eapply Forall_impl; [|apply deliver_events].
  intros [lvl msg | topic | topic payload qos | | timeout fired]; cbn; auto.
  contradiction.
Qed.

Lemma publish_settles (st : machine) :
  (result (_publish_telemetry st) = Blocked ->
   source_dry (env (final (_publish_telemetry st)))) /\
  Forall immediate (effects (_publish_telemetry st)).
Proof.
  unfold _publish_telemetry, _generate_sensor_data, next_publish_answer, source_dry.
  run_machine. cbn.
  repeat (split_match; cbn in * ); split; try discriminate; auto;
    repeat constructor.
Qed.

Lemma reconnect_while_settles (fuel : nat) (st : machine) :
  let run := reconnect_while fuel st in
  after_stop_observed (effects run) = None \/
  after_stop_observed (effects run) = Some [] /\
  stop_event (self (final run)) = true /\ result run = Ok Break.
Proof.
  revert st. induction fuel as [|fuel IH]; intros st; cbv zeta.
  - cbn. auto.
  - rewrite reconnect_while_step.
    destruct (negb (connected (self st))
              && (reconnect_attempts (self st) <? max_reconnect_attempts (self st)))%bool;
      [|cbn; auto].
    rewrite reconnect_body_run. cbv zeta.
    destruct (stop_event (self st)) eqn:Hstop; [cbn; auto|].
    destruct (TIMEOUT_MAX py <? _); [cbn; auto|].
    destruct (waits (env st)) as [|acts rest]; [cbn; auto|].
    pose proof (heard_counts acts (bump (self st))) as (_ & _ & _ & _ & Hs).
    destruct (stop_event (fst (deliver acts (bump (self st))))) eqn:Hfired.
    + unfold effects, final, result. cbn. rewrite after_stop_observed_app, Hs. cbn.
      auto.
    + destruct (reconnects (env st)) as [|[e|] rs]; unfold effects, final, result; cbn;
        rewrite ?after_stop_observed_app, ?Hs; cbn; auto.
      match goal with
      | |- context [reconnect_while fuel ?st1] =>
          specialize (IH st1); unfold effects, final, result in IH
      end.
      exact IH.
Qed.

Lemma reconnect_cycle_settles (st : machine) :
  let run := _reconnect_with_backoff st in
  after_stop_observed (effects run) = None \/
  exists tail,
    after_stop_observed (effects run) = Some tail /\
    stop_event (self (final run)) = true /\ result run = Ok tt /\
    Forall immediate tail.
Proof.
  cbv zeta. rewrite reconnect_cycle_run. cbv zeta.
  pose proof (reconnect_while_settles (S (List.length (waits (env st)))) st) as Hloop.
  cbv zeta in Hloop. unfold effects, final, result in *.
  destruct (reconnect_while (S (List.length (waits (env st)))) st)
    as [[r st1] t1]; cbn in *.
  destruct Hloop as [Hnone | (Hsome & Hstop & ->)].
  - left. destruct r as [[ | | ] | e | ]; cbn; rewrite ?after_stop_observed_app, Hnone;
      try reflexivity;
      destruct (max_reconnect_attempts (self st1) <=? reconnect_attempts (self st1));
      reflexivity.
  - right. cbn. rewrite after_stop_observed_app, Hsome.
    eexists. split; [reflexivity|]. split; [exact Hstop|]. split; [reflexivity|].
    destruct (max_reconnect_attempts (self st1) <=? reconnect_attempts (self st1));
      repeat constructor.
Qed.

Section Settling.

Variable fuel : nat.

Hypothesis loop_settles :
  forall st tail,
    (turns_left st <= S fuel)%nat ->
    after_stop_observed (effects (telemetry_while (S fuel) st)) = Some tail ->
    settled (telemetry_while (S fuel) st) tail.

(** Waiting and going round again. *)
Lemma wait_then_loop_settles (timeout : Z) (st : machine) :
  (List.length (waits (env st)) <= fuel)%nat ->
  let run := bind (wait timeout) (fun _ => telemetry_while (S fuel)) st in
  (forall tail, after_stop_observed (effects run) = Some tail -> settled run tail) /\
  (stop_event (self st) = true -> settled run (effects run)).
Proof.
  intros Hlen. cbv zeta. rewrite bind_run, wait_run.
  destruct (stop_event (self st)) eqn:Hstop.
  - rewrite (stopped_loop_returns fuel st Hstop).
    unfold settled, result, final, effects. cbn.
    split; [intros tail [= <-] | intros _];
      (split; [exact Hstop|]; split; [left; eauto | repeat constructor]).
  - destruct (TIMEOUT_MAX py <? timeout); [cbn; split; discriminate|].
    destruct (waits (env st)) as [|acts rest] eqn:Hw; [cbn; split; discriminate|].
    cbv zeta. split; [|discriminate].
    pose proof (heard_counts acts (self st)) as (_ & _ & _ & _ & Hs).
    intros tail. unfold effects at 1. cbn [snd].
    rewrite !after_stop_observed_app, Hs. cbn [after_stop_observed].
    destruct (stop_event (fst (deliver acts (self st)))) eqn:Hfired.
    + rewrite stopped_loop_returns by exact Hfired.
      unfold settled, result, final, effects. cbn. intros [= <-].
      split; [exact Hfired|]. split; [left; eauto | constructor].
    + cbn [app]. intros Hseen. apply loop_settles in Hseen.
      * unfold settled, result, final, effects in *. cbn [fst snd]. exact Hseen.
      * unfold turns_left. cbn [self env waits set_waits]. rewrite Hfired.
        cbn [List.length] in Hlen. lia.
Qed.

Lemma publish_then_wait_settles (st : machine) :
  (List.length (waits (env st)) <= fuel)%nat ->
  let run :=
    (_publish_telemetry ;;
     seconds <- field interval ;;
     wait seconds ;;
     telemetry_while (S fuel))%monad st in
  (forall tail, after_stop_observed (effects run) = Some tail -> settled run tail) /\
  (stop_event (self st) = true -> settled run (effects run)).
Proof.
  intros Hlen. cbv zeta. rewrite bind_run.
  pose proof (publish_telemetry_self st) as (Hself & _ & _ & _ & Hs & _).
  pose proof (publish_telemetry_waits st) as Hwaits.
  pose proof (publish_settles st) as [Hdry Himm].
  destruct (publish_returns st) as [Hr | Hr];
    unfold result, final, effects in Hself, Hs, Hwaits, Hdry, Himm, Hr;
    destruct (_publish_telemetry st) as [[r st1] t1];
    cbn [fst snd] in *; subst r.
  - rewrite bind_field. rewrite <- Hwaits in Hlen.
    destruct (wait_then_loop_settles (interval (self st1)) st1 Hlen) as [Hseen Hset].
    cbv zeta in Hseen, Hset. unfold settled, result, final, effects in *.
    cbn [fst snd]. split.
    + intros tail. rewrite after_stop_observed_app, Hs. apply Hseen.
    + intros Hstop. rewrite <- Hself in Hstop.
      destruct (Hset Hstop) as (H1 & H2 & H3).
      split; [exact H1|]. split; [exact H2|]. apply Forall_app. auto.
  - unfold settled, result, final, effects. cbn [fst snd]. split.
    + intros tail. rewrite Hs. discriminate.
    + intros Hstop. rewrite Hself. split; [exact Hstop|]. split; auto.
Qed.

Lemma fallback_settles (st : machine) :
  (List.length (waits (env st)) <= fuel)%nat ->
  let run :=
    (delay <- field reconnect_delay ;; wait delay ;; telemetry_while (S fuel))%monad st in
  (forall tail, after_stop_observed (effects run) = Some tail -> settled run tail) /\
  (stop_event (self st) = true -> settled run (effects run)).
Proof.
  intros Hlen. cbv zeta. rewrite bind_field.
  apply (wait_then_loop_settles (reconnect_delay (self st)) st Hlen).
Qed.

Lemma telemetry_while_step_settles (st : machine) (tail : trace) :
  (turns_left st <= S (S fuel))%nat ->
  after_stop_observed (effects (telemetry_while (S (S fuel)) st)) = Some tail ->
  settled (telemetry_while (S (S fuel)) st) tail.
Proof.
  unfold turns_left. rewrite telemetry_while_step. cbv zeta.
  destruct (stop_event (self st)); [discriminate|]. intros Hturns.
  assert (Hlen : (List.length (waits (env st)) <= fuel)%nat) by lia.
  destruct (connected (self st)); [apply (publish_then_wait_settles st Hlen)|].
  rewrite bind_run.
  pose proof (reconnect_cycle_settles st) as Hcycle. cbv zeta in Hcycle.
  pose proof (reconnect_cycle_waits st) as Hshrink.
  unfold result, final, effects in Hcycle, Hshrink.
  destruct (_reconnect_with_backoff st) as [[r st1] t1]; cbn in Hcycle, Hshrink.
  assert (Hlen1 : (List.length (waits (env st1)) <= fuel)%nat) by lia.
  assert (Hrest :
    forall rest_run,
      rest_run =
        (still_connected <- field connected ;;
         if negb still_connected
         then (delay <- field reconnect_delay ;; wait delay ;;
               telemetry_while (S fuel))
         else (_publish_telemetry ;;
               seconds <- field interval ;;
               wait seconds ;;
               telemetry_while (S fuel)))%monad st1 ->
      (forall tl, after_stop_observed (effects rest_run) = Some tl ->
                  settled rest_run tl) /\
      (stop_event (self st1) = true -> settled rest_run (effects rest_run))).
  { intros rest_run ->. rewrite bind_field. destruct (negb (connected (self st1)));
      [apply fallback_settles | apply publish_then_wait_settles]; exact Hlen1. }
  destruct Hcycle as [Hnone | (tail_c & Hsome & Hstop & -> & Himm)].
  - destruct r as [[] | e | ]; unfold effects at 1; cbn [snd];
      rewrite ?after_stop_observed_app, Hnone; try discriminate.
    specialize (Hrest _ eq_refl) as [Hseen _]. intros Htail.
    apply Hseen in Htail. unfold settled, result, final, effects in *. exact Htail.
  - specialize (Hrest _ eq_refl) as [_ Hset]. specialize (Hset Hstop).
    unfold effects at 1. cbn [snd]. rewrite after_stop_observed_app, Hsome.
    intros [= <-]. unfold settled, result, final, effects in *. cbn in *.
    destruct Hset as (H1 & H2 & H3).
    split; [exact H1|]. split; [exact H2|]. apply Forall_app. auto.
Qed.

End Settling.

Lemma telemetry_while_settles (fuel : nat) (st : machine) (tail : trace) :
  (turns_left st <= fuel)%nat ->
  after_stop_observed (effects (telemetry_while fuel st)) = Some tail ->
  settled (telemetry_while fuel st) tail.
Proof.
  revert st tail.
  destruct fuel as [|fuel]; [discriminate|].
  induction fuel as [|fuel IH]; intros st tail Hturns.
  - unfold turns_left in Hturns.
    destruct (stop_event (self st)) eqn:Hstop; [|lia].
    rewrite (stopped_loop_returns 0 st Hstop). discriminate.
  - apply (telemetry_while_step_settles fuel IH); exact Hturns.
Qed.

(** X18: the loop returns once it has seen the stop event.  After a wait
    of the telemetry thread has found the event set, no later wait runs
    to its timeout and nothing is raised: [_telemetry_loop] returns with
    its closing log record, or is left waiting for an answer to the one
    publish it may still make. *)
Theorem loop_returns_after_stop (st : machine) (tail : trace) :
  after_stop_observed (effects (_telemetry_loop st)) = Some tail ->
  let run := _telemetry_loop st in
  stop_event (self (final run)) = true
  /\ (result run = Ok tt /\
      (exists t, effects run = t ++ [Log INFO TelemetryLoopStopped])
      \/ result run = Blocked /\ source_dry (env (final run)))
  /\ Forall immediate tail.
Proof.
  cbv zeta. unfold _telemetry_loop. rewrite bind_run. cbn [log emit].
  rewrite bind_run.
  pose proof (telemetry_while_settles (S (S (List.length (waits (env st))))) st)
    as Hloop.
  assert (Hturns : (turns_left st <= S (S (List.length (waits (env st)))))%nat).
  { unfold turns_left. destruct (stop_event (self st)); lia. }
  unfold settled, result, final, effects in *.
  destruct (telemetry_while (S (S (List.length (waits (env st))))) st)
    as [[r st1] t1]; cbn in *.
  destruct r as [[] | e | ]; cbn; rewrite ?after_stop_observed_app.
  - destruct (after_stop_observed t1) as [tl|] eqn:Hseen; [|discriminate].
    intros [= <-]. destruct (Hloop tl Hturns eq_refl) as (H1 & _ & H3).
    split; [exact H1|]. split.
    + left. split; [reflexivity|]. exists (Log INFO StartingTelemetryLoop :: t1).
      reflexivity.
    + apply Forall_app. split; [exact H3 | repeat constructor].
  - intros Hseen. destruct (Hloop tail Hturns Hseen) as (_ & [[a Ha] | [Ha _]] & _);
      discriminate.
  - intros Hseen. destruct (Hloop tail Hturns Hseen) as (H1 & [[a Ha] | [_ Hdry]] & H3);
      [discriminate|].
    split; [exact H1|]. split; [right; auto | exact H3].
Qed.

(** ** The counter and the records along the loop *)

(** X28: the loop never takes its attempt counter back.  As long as no
    [_on_connect] with [rc] 0 arrives, the counter at the end of
    [_telemetry_loop] is at least what it was at the start: it is not
    reset after a cycle gave up, nor after a [client.reconnect()] that
    returned. *)
Theorem loop_never_resets_counter (st : machine) :
  quiet (env st) ->
  reconnect_attempts (self st)
    <= reconnect_attempts (self (final (_telemetry_loop st))).
Proof.
  intros Hq.
  destruct (guarded_loop (fun s => reconnect_attempts (self st) <= reconnect_attempts s)
              (fun a => resets a = false) (fun _ => True))
    with (st := st) as ([Hfinal _] & _); auto.
  - intros a s Ha Hs. pose proof (act_fields a s) as (_ & _ & Hsame & _).
    cbv zeta in Hsame. rewrite Hsame, Ha. exact Hs.
  - intros s Hs. cbn. lia.
  - intros st0 _. apply Forall_forall. auto.
  - lia.
Qed.

Lemma in_order_silent {A} (m : M machine A) :
  (forall st, samples (env (final (m st))) = samples (env st) /\
              telemetry_publishes (effects (m st)) = []) ->
  in_order m.
Proof.
  intros H st. destruct (H st) as [Hs Ht]. exists [], []. cbn.
  rewrite Hs, Ht. auto.
Qed.

Lemma in_order_bind {A B} (m : M machine A) (k : A -> M machine B) :
  in_order m -> (forall a, in_order (k a)) -> in_order (bind m k).
Proof.
  intros Hm Hk st. destruct (Hm st) as (pub1 & lost1 & Hs1 & Ht1 & Hl1).
  unfold bind, final, effects, result in *.
  destruct (m st) as [[[a | e | ] st1] t1]; cbn [fst snd] in *.
  - destruct Hl1 as [-> | Hblocked]; [|discriminate].
    destruct (Hk a st1) as (pub2 & lost2 & Hs2 & Ht2 & Hl2).
    unfold final, effects, result in *.
    destruct (k a st1) as [[r st2] t2]; cbn [fst snd] in *.
    exists (pub1 ++ pub2), lost2. split; [|split].
    + rewrite Hs1, Hs2. cbn [app]. rewrite <- app_assoc. reflexivity.
    + rewrite telemetry_publishes_app, Ht1, Ht2, map_app. reflexivity.
    + exact Hl2.
  - exists pub1, lost1. destruct Hl1 as [-> | Hblocked]; [auto | discriminate].
  - exists pub1, lost1. auto.
Qed.

Lemma in_order_wait (timeout : Z) : in_order (wait timeout).
Proof.
  apply in_order_silent. intros st. rewrite wait_run.
  destruct (stop_event (self st)); [auto|].
  destruct (TIMEOUT_MAX py <? timeout); [auto|].
  destruct (waits (env st)) as [|acts rest]; [auto|].
  cbn. split; [reflexivity|].
  rewrite telemetry_publishes_app. cbn.
  rewrite (proj1 (proj2 (proj2 (proj2 (heard_counts acts (self st)))))).
  reflexivity.
Qed.

Lemma in_order_publish : in_order _publish_telemetry.
Proof.
  intros st. unfold _publish_telemetry, _generate_sensor_data, next_publish_answer.
  run_machine. cbn.
  destruct (connected (self st)); cbn; [|exists [], []; auto].
  destruct (enabled (self st)); cbn; [|exists [], []; auto].
  destruct (samples (env st)) as [|d ds] eqn:Hs; cbn; [exists [], []; rewrite Hs; auto|].
  destruct (publishes (env st)) as [|answer answers]; cbn;
    [exists [], [d]; auto|].
  exists [d], []. destruct answer as [rc | e]; cbn;
    [destruct (rc =? MQTT_ERR_SUCCESS); cbn|]; auto.
Qed.

Lemma reconnect_while_silent (fuel : nat) (st : machine) :
  samples (env (final (reconnect_while fuel st))) = samples (env st) /\
  telemetry_publishes (effects (reconnect_while fuel st)) = [].
Proof.
  revert st. induction fuel as [|fuel IH]; intros st; [auto|].
  rewrite reconnect_while_step.
  destruct (negb (connected (self st))
            && (reconnect_attempts (self st) <? max_reconnect_attempts (self st)))%bool;
    [|auto].
  rewrite reconnect_body_run. cbv zeta.
  destruct (stop_event (self st)); [auto|].
  destruct (TIMEOUT_MAX py <? _); [auto|].
  destruct (waits (env st)) as [|acts rest]; [auto|].
  pose proof (heard_counts acts (bump (self st))) as (_ & _ & _ & Hp & _).
  destruct (stop_event (fst (deliver acts (bump (self st))))).
  - unfold final, effects. cbn. rewrite telemetry_publishes_app, Hp. auto.
  - destruct (reconnects (env st)) as [|[e|] rs]; unfold final, effects; cbn;
      rewrite ?telemetry_publishes_app, ?Hp; auto.
    match goal with
    | |- context [reconnect_while fuel ?st1] =>
        destruct (IH st1) as [Hs Ht]; unfold final, effects in Hs, Ht
    end.
    rewrite Hs, Ht. auto.
Qed.

Lemma in_order_cycle : in_order _reconnect_with_backoff.
Proof.
  apply in_order_silent. intros st. rewrite reconnect_cycle_run. cbv zeta.
  destruct (reconnect_while_silent (S (List.length (waits (env st)))) st) as [Hs Ht].
  unfold final, effects, result in *.
  destruct (reconnect_while (S (List.length (waits (env st)))) st)
    as [[[[ | | ] | e | ] st1] t1]; cbn [fst snd] in *; try (split; assumption);
    (split; [assumption|]); rewrite telemetry_publishes_app, Ht;
    destruct (max_reconnect_attempts (self st1) <=? reconnect_attempts (self st1));
    reflexivity.
Qed.

Lemma in_order_telemetry_while (fuel : nat) : in_order (telemetry_while fuel).
Proof.
  assert (Hret : forall A (a : A), in_order (ret (S := machine) a)).
  { intros A a. apply in_order_silent. auto. }
  assert (Hfield : forall A (f : sensor -> A), in_order (field f)).
  { intros A f. apply in_order_silent. auto. }
  induction fuel as [|fuel IH]; [apply in_order_silent; auto|].
  cbn [telemetry_while].
  apply in_order_bind; [apply Hfield|]. intros [|]; [apply Hret|].
  apply in_order_bind; [apply Hfield|]. intros is_connected.
  apply in_order_bind.
  - destruct (negb is_connected); [|apply Hret].
    apply in_order_bind; [apply in_order_cycle|]. intros _.
    apply in_order_bind; [apply Hfield|]. intros still.
    destruct (negb still); [|apply Hret].
    apply in_order_bind; [apply Hfield|]. intros delay.
    apply in_order_bind; [apply in_order_wait|]. intros _. apply Hret.
  - intros [|]; [exact IH|].
    apply in_order_bind; [apply in_order_publish|]. intros _.
    apply in_order_bind; [apply Hfield|]. intros seconds.
    apply in_order_bind; [apply in_order_wait|]. intros _. exact IH.
Qed.

(** X29: records are published in the order they were generated, each at
    most once.  The payloads that a run of [_telemetry_loop] hands to
    [client.publish] on the telemetry topic are the JSON of the first
    records that [_generate_sensor_data] returned, one publish per record
    and in that order: none is sent twice, after a failed publish
    included, and none is made up. *)
Theorem telemetry_published_in_order (st : machine) :
  exists published rest,
    samples (env st) = published ++ rest /\
    telemetry_publishes (effects (_telemetry_loop st)) = map dumps published.
Proof.
  assert (Hloop : in_order _telemetry_loop).
  { unfold _telemetry_loop. intros st0.
    apply (in_order_bind (log INFO StartingTelemetryLoop)).
    - apply in_order_silent. auto.
    - intros _. apply in_order_bind; [apply in_order_telemetry_while|].
      intros _. apply in_order_silent. auto. }
  destruct (Hloop st) as (published & lost & Hs & Ht & _).
  exists published, (lost ++ samples (env (final (_telemetry_loop st)))). auto.
Qed.

(** ** Starting and stopping *)

Lemma start_runs (p : platform) (s : sensor) :
  object (start p s) = s /\
  (ending (start p s) = Ok tt \/ exists e, ending (start p s) = Raise e).
Proof.
  unfold start, guard, and_then, perform, note, reraise, ending, object.
  destruct (connect_raises p); cbn; [eauto|].
  destruct (loop_start_raises p); cbn; [eauto|].
  destruct (thread_start_raises p); cbn; eauto.
Qed.

Lemma stop_runs (p : platform) (s : sensor) :
  ending (stop p s) = Ok tt /\ object (stop p s) = set_stop_event true s.
Proof.
  unfold stop, guard, and_then, perform, note, of_sensor, ending, object. cbn.
  destruct (loop_stop_raises p); cbn; [auto|].
  destruct (disconnect_raises p); cbn; auto.
Qed.

(** X21: [stop] never raises and sets the stop event first.  Whatever
    the transport raises while it is shut down is logged and swallowed;
    the stop event is set before the first call of the transport and is
    the only field written; and when [loop_stop] raises, [disconnect] is
    not called. *)
Theorem stop_never_raises (p : platform) (s : sensor) :
  let run := stop p s in
  ending run = Ok tt
  /\ object run = set_stop_event true s
  /\ steps run =
       Effect (Log INFO StoppingSensor) :: Sleep 1 :: LoopStop ::
       match loop_stop_raises p with
       | Some e => [Note ERROR (ErrorDuringShutdown e)]
       | None =>
           ClientDisconnect ::
           match disconnect_raises p with
           | Some e => [Note ERROR (ErrorDuringShutdown e)]
           | None => [Note INFO SensorStoppedSuccessfully]
           end
       end.
Proof.
  cbv zeta. unfold stop, guard, and_then, perform, note, of_sensor, ending, object, steps.
  cbn. destruct (loop_stop_raises p) as [e|]; cbn; [auto|].
  destruct (disconnect_raises p) as [e|]; cbn; auto.
Qed.

(** X22: [start] raises what failed and starts nothing after it.  It
    returns only when the connection, the loop of the transport and the
    thread all started; otherwise it logs the failure as its last step
    and raises the same exception again, and a connection that fails
    leaves the loop of the transport and the telemetry thread unstarted.
    No field is written. *)
Theorem start_raises_what_failed (p : platform) (s : sensor) :
  let run := start p s in
  object run = s
  /\ (ending run = Ok tt <->
      connect_raises p = None /\ loop_start_raises p = None /\
      thread_start_raises p = None)
  /\ (forall e, ending run = Raise e ->
        (connect_raises p = Some e \/ loop_start_raises p = Some e \/
         thread_start_raises p = Some e) /\
        exists t, steps run = t ++ [Note ERROR (FailedToStartSensor e)])
  /\ (connect_raises p <> None ->
      ~ In LoopStart (steps run) /\ ~ In ThreadStart (steps run)).
Proof.
  cbv zeta. unfold start, guard, and_then, perform, note, reraise, ending, object, steps.
  destruct (connect_raises p) as [e1|]; cbn.
  { split; [reflexivity|]. split; [split; [discriminate | intros (H & _); discriminate]|].
    split.
    - intros e [= <-]. split; [auto|]. eexists [_; _]. reflexivity.
    - intros _. split; intros H; cbn in H; intuition discriminate. }
  destruct (loop_start_raises p) as [e2|]; cbn.
  { split; [reflexivity|].
    split; [split; [discriminate | intros (_ & H & _); discriminate]|].
    split.
    - intros e [= <-]. split; [auto|]. eexists [_; _; _]. reflexivity.
    - intros H. contradiction H. reflexivity. }
  destruct (thread_start_raises p) as [e3|]; cbn.
  { split; [reflexivity|].
    split; [split; [discriminate | intros (_ & _ & H); discriminate]|].
    split.
    - intros e [= <-]. split; [auto|]. eexists [_; _; _; _; _]. reflexivity.
    - intros H. contradiction H. reflexivity. }
  split; [reflexivity|]. split; [split; auto|]. split.
  - discriminate.
  - intros H. contradiction H. reflexivity.
Qed.

(** X23: [main] stops what it started, and only that.  When [start]
    returns, a keyboard interrupt is followed by [stop], the join of the
    telemetry thread with a timeout of 5 and the closing log record, in
    that order, and [main] returns with the stop event set.  When [start]
    raises, the exception leaves [main] as it is: no [stop], no join, no
    closing record. *)
Theorem main_stops_what_it_started (p : platform) (naps : nat) :
  (ending (start p init) = Ok tt ->
   ending (main p naps) = Ok tt /\
   stop_event (object (main p naps)) = true /\
   steps (main p naps) =
     steps (start p init) ++ repeat (Sleep 1) naps ++
     Note INFO KeyboardInterruptReceived :: steps (stop p init) ++
     [ThreadJoin 5; Note INFO ApplicationExited])
  /\ (forall e, ending (start p init) = Raise e -> main p naps = start p init).
Proof.
  pose proof (start_runs p init) as (Hobj & _).
  pose proof (stop_runs p init) as (Hs1 & Hs2).
  remember (main p naps) as run eqn:Hrun.
  unfold main, and_then, note, perform in Hrun.
  unfold ending, object, steps in *.
  destruct (start p init) as [[r s1] t1]; cbn [fst snd] in *. subst s1.
  destruct (stop p init) as [[r2 s2] t2]; cbn [fst snd] in *. subst r2 s2.
  split.
  - intros ->. subst run. cbn. repeat split; reflexivity.
  - intros e ->. subst run. reflexivity.
Qed.

End Sensor.

(** * Concrete runs *)

(** ** The attribute store *)

(** C1 fails as stated: with [{"interval": "abc", "enabled": false,
    "firmware_version": "1.1"}] on the initial state, [int] rejects the
    interval and neither of the two other entries is applied. *)
Lemma rejected_interval_blocks_other_keys :
  let update :=
    JDict [("interval"%string, JStr "abc"); ("enabled"%string, JBool false);
           ("firmware_version"%string, JStr "1.1")] in
  let s' := final (_update_attributes sample_interpreter update init) in
  Py.int 4300 (JStr "abc") = Raise ValueError /\
  ~ (interval s' = interval init /\
     enabled s' = Py.bool (JBool false) /\
     firmware_version s' = "1.1"%string).
Proof.
  cbv zeta. split; [reflexivity|]. vm_compute. intros (_ & H & _). discriminate H.
Qed.

Lemma update_aborts_on_rejected_interval_witness :
  _update_attributes sample_interpreter
    (JDict [("interval"%string, JStr "abc"); ("enabled"%string, JBool false);
            ("firmware_version"%string, JStr "1.1")]) init
  = (Ok tt, init, [Log ERROR (InvalidAttributeValue ValueError)]).
Proof.
  exact (update_aborts_on_rejected_interval sample_interpreter init
           [("interval"%string, JStr "abc"); ("enabled"%string, JBool false);
            ("firmware_version"%string, JStr "1.1")]
           (JStr "abc") ValueError eq_refl eq_refl).
Defined.

Lemma interval_never_below_one_witness :
  1 <= interval
         (final (_update_attributes sample_interpreter
                   (JDict [("enabled"%string, JInt 0)]) init))
  /\ interval
       (final (_update_attributes sample_interpreter
                 (JDict [("interval"%string, JInt 0)]) init)) = 1
  /\ 1 <= interval
            (self (final (_telemetry_loop sample_interpreter
                            {| self := init; env := message_world |}))).
Proof.
  destruct (interval_never_below_one sample_interpreter) as (H1 & H2 & H3).
  split; [|split].
  - apply H1. cbn. lia.
  - apply (H2 init [("interval"%string, JInt 0)] (JInt 0) 0);
      [reflexivity | reflexivity | lia].
  - apply H3. apply reach_loop. apply reach_init.
Defined.

Lemma ota_hook_on_version_change_witness :
  let update := JDict [("firmware_version"%string, JStr "1.1")] in
  let first := _update_attributes sample_interpreter update init in
  let again := _update_attributes sample_interpreter update (final first) in
  firmware_version (final first) = "1.1"%string /\
  ota_calls (effects first) = ["1.1"%string] /\
  ota_calls (effects again) = [].
Proof.
  cbv zeta.
  destruct (ota_hook_on_version_change sample_interpreter init
              (JDict [("firmware_version"%string, JStr "1.1")]))
    as (Hchanged & _ & Hstored).
  destruct (ota_hook_on_version_change sample_interpreter
              (final (_update_attributes sample_interpreter
                        (JDict [("firmware_version"%string, JStr "1.1")]) init))
              (JDict [("firmware_version"%string, JStr "1.1")]))
    as (_ & Hsame & _).
  split; [|split].
  - apply (Hstored [("firmware_version"%string, JStr "1.1")] (JStr "1.1"));
      reflexivity.
  - apply Hchanged. vm_compute. discriminate.
  - apply Hsame. reflexivity.
Defined.

(** C10 fails as stated: with [{"interval": null, "enabled": 0}] on the
    initial state the update ends at the interval and the flag keeps its
    value, which is not the truth value of [0]. *)
Lemma enabled_not_stored_after_rejected_interval :
  let update := JDict [("interval"%string, JNull); ("enabled"%string, JInt 0)] in
  enabled (final (_update_attributes sample_interpreter update init))
    <> Py.bool (JInt 0).
Proof.
  vm_compute. discriminate.
Qed.

Lemma enabled_is_truthiness_witness :
  enabled (final (_update_attributes sample_interpreter
                    (JDict [("interval"%string, JStr "30");
                            ("enabled"%string, JStr "false")])
                    (set_enabled false init))) = true.
Proof.
  destruct (enabled_is_truthiness sample_interpreter
              (set_enabled false init)
              [("interval"%string, JStr "30"); ("enabled"%string, JStr "false")]
              (JStr "false") eq_refl eq_refl) as (Hstored & _ & _).
  exact Hstored.
Defined.

(** ** Inbound messages *)

(** C4 fails as stated: a flat mapping of the three requested keys has
    neither a [shared] nor a [response] entry, so the message is logged
    and nothing reaches [_update_attributes]. *)
Lemma flat_response_is_dropped :
  let run :=
    _on_message sample_interpreter ATTRIBUTES_RESPONSE_TOPIC (Parsed flat_response)
      init in
  run = (Ok tt, init,
         [Log INFO (ReceivedMessage ATTRIBUTES_RESPONSE_TOPIC flat_response)])
  /\ final run <> final (_update_attributes sample_interpreter flat_response init).
Proof.
  cbv zeta. split; [reflexivity|]. vm_compute. discriminate.
Qed.

Example shared_entry_is_forwarded :
  final (_on_message sample_interpreter ATTRIBUTES_SUBSCRIBE_TOPIC
           (Parsed (JDict [("shared"%string, flat_response)])) init)
  = set_firmware_version "1.1" (set_enabled false (set_interval 10 init)).
Proof. reflexivity. Qed.

Example response_entry_forwards_payload :
  final (_on_message sample_interpreter ATTRIBUTES_RESPONSE_TOPIC
           (Parsed (JDict [("response"%string, JNull); ("interval"%string, JInt 10)]))
           init)
  = set_interval 10 init.
Proof. reflexivity. Qed.

(** ** The telemetry thread *)

Lemma publish_telemetry_once_witness :
  let st := {| self := connected_sensor; env := publishing_world (PublishRc 4) |} in
  let run := _publish_telemetry st in
  effects run =
    [Publish TELEMETRY_TOPIC (dumps sample_record) 1;
     Log WARNING (FailedToPublish 4 sample_record)]
  /\ result run = Ok tt
  /\ _publish_telemetry {| self := init; env := publishing_world (PublishRc 0) |}
      = (Ok tt, {| self := init; env := publishing_world (PublishRc 0) |},
         [Log WARNING NotConnectedSkipping]).
Proof.
  cbv zeta.
  destruct (publish_telemetry_once
              {| self := connected_sensor; env := publishing_world (PublishRc 4) |})
    as (_ & _ & Hpub).
  destruct (publish_telemetry_once
              {| self := init; env := publishing_world (PublishRc 0) |})
    as (Hoff & _ & _).
  specialize
    (Hpub sample_record [] (PublishRc 4) [] eq_refl eq_refl eq_refl eq_refl).
  cbv zeta in Hpub. destruct Hpub as (Hres & _ & Heff & _).
  split; [exact Heff | split; [exact Hres | exact (Hoff eq_refl)]].
Defined.

(** C2 fails on the code: starting disconnected, with every reconnect
    refused and nothing else happening, the loop makes its five attempts
    and then goes round three more times, waiting [reconnect_delay] each
    time, without one more call of [client.reconnect()]: the counter stays
    at the limit, three refusals that the world still holds are never
    asked for, and the run ends blocked in the next wait. *)
Theorem exhausted_loop_stops_reconnecting :
  let run :=
    _telemetry_loop sample_interpreter {| self := init; env := refusing_world |} in
  result run = Blocked /\
  wait_timeouts (effects run) = [5; 10; 20; 40; 80; 5; 5; 5] /\
  reconnect_calls (effects run) = 5%nat /\
  attempts_started (effects run) = 5%nat /\
  connected (self (final run)) = false /\
  reconnect_attempts (self (final run)) = 5 /\
  reconnects (env (final run)) = repeat (Some TransportError) 3.
Proof.
  vm_compute. repeat split; reflexivity.
Qed.

(** C5 fails on the code: the connection is reported and [stop] is called
    during the first backoff wait.  The wait returns with the event set,
    the cycle leaves without calling [client.reconnect()], and the loop,
    finding the sensor connected, publishes a telemetry record after the
    stop was observed. *)
Theorem publish_after_stop_observed :
  let run :=
    _telemetry_loop sample_interpreter
      {| self := init; env := late_connect_world |} in
  result run = Ok tt /\
  reconnect_calls (effects run) = O /\
  after_stop_observed (effects run) =
    Some [Publish TELEMETRY_TOPIC (dumps sample_record) 1;
          Log INFO (PublishedTelemetry sample_record);
          Wait 5 true;
          Log INFO TelemetryLoopStopped].
Proof.
  vm_compute. repeat split; reflexivity.
Qed.

Lemma reconnect_attempts_bounded_witness :
  let run :=
    _reconnect_with_backoff sample_interpreter
      {| self := init; env := refusing_world |} in
  reconnect_attempts (self (final run)) <= max_reconnect_attempts (self (final run)) /\
  (attempts_started (effects run) <= 5)%nat /\
  (reconnect_calls (effects run) <= attempts_started (effects run))%nat.
Proof.
  cbv zeta.
  destruct (reconnect_attempts_bounded sample_interpreter
              {| self := init; env := refusing_world |}) as (Hcount & _ & Hquiet & _).
  - cbn. lia.
  - cbn. lia.
  - cbv zeta in Hquiet. destruct Hquiet as [Hstarted Hcalls].
    + unfold quiet. cbn. repeat constructor.
    + split; [exact Hcount | split; [exact Hstarted | exact Hcalls]].
Defined.

Lemma backoff_schedule_witness :
  wait_timeouts
    (effects (reconnect_body sample_interpreter
                {| self := init; env := refusing_world |})) = [5]
  /\ wait_timeouts
       (effects (_reconnect_with_backoff sample_interpreter
                   {| self := init; env := refusing_world |}))
     = [5; 10; 20; 40; 80]
  /\ 5 * 2 ^ (4 - 1) < 5 * 2 ^ (5 - 1).
Proof.
  destruct (backoff_schedule sample_interpreter
              {| self := init; env := refusing_world |})
    as ((_ & _ & Hturn) & _ & Hmono & _ & _).
  - cbn. lia.
  - cbn. lia.
  - split; [|split].
    + destruct Hturn as [Hturn | [_ [Hblocked | [Hraised _]]]];
        [exact Hturn | discriminate Hblocked | discriminate Hraised].
    + reflexivity.
    + apply (Hmono 4 5); lia.
Defined.

(** * Further concrete runs *)

(** ** The attribute store *)

Lemma update_reads_three_keys_witness :
  _update_attributes sample_interpreter
    (JDict [("colour"%string, JStr "red"); ("interval"%string, JInt 10)]) init
  = _update_attributes sample_interpreter
      (JDict [("interval"%string, JInt 10)]) init.
Proof.
  exact (proj1 (update_reads_three_keys sample_interpreter init
                  [("colour"%string, JStr "red"); ("interval"%string, JInt 10)]
                  [("interval"%string, JInt 10)] eq_refl eq_refl eq_refl)).
Defined.

Lemma update_needs_a_mapping_witness :
  let run := _update_attributes sample_interpreter (JStr "interval=30") init in
  result run = Ok tt /\ final run = init /\ ota_calls (effects run) = [] /\
  (effects run = [] \/
   effects run = [Log ERROR (InvalidAttributeValue TypeError)]).
Proof.
  apply (update_needs_a_mapping sample_interpreter init (JStr "interval=30")).
  intros kvs. discriminate.
Defined.

Lemma interval_from_decimal_text_witness :
  Py.str_of_int (-42) = "-42"%string /\
  Py.int 4300 (JStr "-42") = Ok (-42) /\
  interval (final (_update_attributes sample_interpreter
                     (JDict [("interval"%string, JStr "-42")]) init)) = 1.
Proof.
  destruct (interval_from_decimal_text sample_interpreter init (-42))
    as (Hint & Hstored & _).
  - left. vm_compute. discriminate.
  - split; [reflexivity|]. split; [exact Hint|].
    apply (Hstored [("interval"%string, JStr "-42")]). reflexivity.
Defined.

Lemma interval_text_must_be_whole_witness :
  _update_attributes sample_interpreter
    (JDict [("interval"%string, JStr "1.5"); ("enabled"%string, JBool false)]) init
  = (Ok tt, init, [Log ERROR (InvalidAttributeValue ValueError)]).
Proof.
  apply (interval_text_must_be_whole sample_interpreter init
           [("interval"%string, JStr "1.5"); ("enabled"%string, JBool false)]
           "1.5" "."%char);
    try reflexivity; try discriminate.
  cbn. auto.
Defined.

(** ** The telemetry thread *)

Lemma default_backoffs_fit (n : Z) :
  0 < n <= 5 -> backoff 5 n <= TIMEOUT_MAX sample_interpreter.
Proof.
  intros Hn. unfold backoff. cbn [TIMEOUT_MAX sample_interpreter].
  assert (2 ^ (n - 1) <= 2 ^ 4) by (apply Z.pow_le_mono_r; lia). lia.
Qed.

Lemma no_publish_while_disconnected_witness :
  let run :=
    _telemetry_loop sample_interpreter {| self := init; env := returning_world |} in
  reconnect_calls (effects run) = 2%nat /\
  telemetry_publishes (effects run) = [] /\ connected (self (final run)) = false.
Proof.
  cbv zeta. split; [reflexivity|].
  apply (no_publish_while_disconnected sample_interpreter
           {| self := init; env := returning_world |}).
  - reflexivity.
  - unfold quiet. cbn. repeat constructor.
Defined.

Lemma no_publish_while_disabled_witness :
  let run :=
    _telemetry_loop sample_interpreter
      {| self := set_enabled false connected_sensor; env := flapping_world |} in
  wait_timeouts (effects run) = [5; 5; 5] /\
  telemetry_publishes (effects run) = [] /\ enabled (self (final run)) = false.
Proof.
  cbv zeta. split; [reflexivity|].
  apply (no_publish_while_disabled sample_interpreter
           {| self := set_enabled false connected_sensor; env := flapping_world |}).
  - reflexivity.
  - cbn. repeat constructor.
Defined.

Lemma loop_raises_only_overflow_witness :
  result (_telemetry_loop sample_interpreter
            {| self := oversized_sensor; env := publishing_world (PublishRc 0) |})
    = Raise OverflowError
  /\ OverflowError = OverflowError.
Proof.
  split; [reflexivity|].
  apply (loop_raises_only_overflow sample_interpreter
           {| self := oversized_sensor; env := publishing_world (PublishRc 0) |}
           OverflowError).
  reflexivity.
Defined.

Lemma oversized_interval_ends_loop_witness :
  let run :=
    _telemetry_loop sample_interpreter
      {| self := oversized_sensor; env := publishing_world (PublishRc 0) |} in
  result run = Raise OverflowError /\
  effects run =
    [Log INFO StartingTelemetryLoop;
     Publish TELEMETRY_TOPIC (dumps sample_record) 1;
     Log INFO (PublishedTelemetry sample_record)] /\
  interval (final (_update_attributes sample_interpreter
                     (JDict [("interval"%string, JInt 10000000000)]) init))
    = 10000000000.
Proof.
  cbv zeta.
  destruct (oversized_interval_ends_loop sample_interpreter
              {| self := oversized_sensor; env := publishing_world (PublishRc 0) |})
    as (Hres & Heff & _ & Hstored).
  - reflexivity.
  - reflexivity.
  - cbn. lia.
  - reflexivity.
  - split; [exact Hres|]. split; [exact Heff|].
    apply (Hstored init [("interval"%string, JInt 10000000000)] (JInt 10000000000));
      [reflexivity | reflexivity | lia].
Defined.

Lemma refused_cycle_waits_witness :
  let run :=
    _reconnect_with_backoff sample_interpreter
      {| self := init; env := refusing_world |} in
  wait_timeouts (effects run) = [5; 10; 20; 40; 80] /\
  total (wait_timeouts (effects run)) = 155.
Proof.
  apply (refused_cycle_waits sample_interpreter 5
           {| self := init; env := refusing_world |}
           (repeat TransportError 5) (repeat [] 3) (repeat (Some TransportError) 3));
    try reflexivity; try (cbn; lia).
  intros n Hn. apply default_backoffs_fit. cbn in Hn. lia.
Defined.

Lemma reconnect_success_resets_nothing_witness :
  let run :=
    _reconnect_with_backoff sample_interpreter
      {| self := set_reconnect_attempts 4 init; env := reconnecting_world |} in
  result run = Ok tt /\
  effects run =
    [Log INFO (ReconnectAttempt 5 5 80); Wait 80 false; Reconnect;
     Log INFO ReconnectionSuccessful] /\
  connected (self (final run)) = false /\
  reconnect_attempts (self (final run)) = 5.
Proof.
  cbv zeta.
  destruct (reconnect_success_resets_nothing sample_interpreter
              {| self := set_reconnect_attempts 4 init; env := reconnecting_world |}
              [] [])
    as (Hres & Heff & _ & Hc & Ha);
    try reflexivity; try (vm_compute; discriminate).
  split; [exact Hres|]. split; [exact Heff|]. split; [exact Hc | exact Ha].
Defined.

Lemma new_interval_times_next_wait_witness :
  wait_timeouts
    (effects (_telemetry_loop sample_interpreter
                {| self := connected_sensor; env := retimed_world |})) = [5; 10]
  /\ 5 = interval connected_sensor /\ 10 = Z.max 1 10.
Proof.
  split; [reflexivity|].
  apply (new_interval_times_next_wait sample_interpreter
           {| self := connected_sensor; env := retimed_world |}
           ATTRIBUTES_SUBSCRIBE_TOPIC [("interval"%string, JInt 10)] (JInt 10) 10
           [[]] 5 10 []);
    reflexivity.
Defined.

Lemma loop_returns_after_stop_witness :
  let run :=
    _telemetry_loop sample_interpreter
      {| self := init; env := late_connect_world |} in
  stop_event (self (final run)) = true
  /\ (result run = Ok tt /\
      (exists t, effects run = t ++ [Log INFO TelemetryLoopStopped])
      \/ result run = Blocked /\ source_dry (env (final run)))
  /\ Forall immediate
       [Publish TELEMETRY_TOPIC (dumps sample_record) 1;
        Log INFO (PublishedTelemetry sample_record);
        Wait 5 true;
        Log INFO TelemetryLoopStopped].
Proof.
  apply (loop_returns_after_stop sample_interpreter
           {| self := init; env := late_connect_world |}).
  reflexivity.
Defined.

Lemma telemetry_loop_after_stop_witness :
  calm [Publish TELEMETRY_TOPIC (dumps sample_record) 1;
        Log INFO (PublishedTelemetry sample_record);
        Wait 5 true;
        Log INFO TelemetryLoopStopped].
Proof.
  apply (telemetry_loop_after_stop sample_interpreter
           {| self := init; env := late_connect_world |}).
  reflexivity.
Defined.

Lemma stop_during_backoff_aborts_witness :
  let run :=
    reconnect_body sample_interpreter {| self := init; env := late_connect_world |} in
  result run = Ok Break /\
  reconnect_calls (effects run) = O /\
  reconnects (env (final run)) = reconnects late_connect_world.
Proof.
  apply (stop_during_backoff_aborts sample_interpreter
           {| self := init; env := late_connect_world |}
           [OnConnect 0 (PublishRc 0); StopSet] []);
    try reflexivity.
  vm_compute. discriminate.
Defined.

Lemma exhausted_cycle_reports_witness :
  let run :=
    _reconnect_with_backoff sample_interpreter
      {| self := init; env := refusing_world |} in
  result run = Ok tt /\
  reconnect_attempts (self (final run)) = max_reconnect_attempts (self (final run)) /\
  reconnect_calls (effects run) = 5%nat /\
  exists t, effects run = t ++ [Log ERROR MaxAttemptsReached].
Proof.
  apply (exhausted_cycle_reports sample_interpreter 5
           {| self := init; env := refusing_world |}
           (repeat TransportError 5) (repeat [] 3) (repeat (Some TransportError) 3));
    try reflexivity.
  intros n Hn. apply default_backoffs_fit. cbn in Hn. lia.
Defined.

Lemma exhausted_loop_is_idle_witness :
  let t :=
    effects (telemetry_while sample_interpreter 10
               {| self := set_reconnect_attempts 5 init; env := refusing_world |}) in
  reconnect_calls t = O /\ attempts_started t = O /\ telemetry_publishes t = [].
Proof.
  apply (exhausted_loop_is_idle sample_interpreter 10
           {| self := set_reconnect_attempts 5 init; env := refusing_world |}).
  - reflexivity.
  - cbn. lia.
  - unfold quiet. cbn. repeat constructor.
Defined.

Lemma loop_never_resets_counter_witness :
  let run :=
    _telemetry_loop sample_interpreter {| self := init; env := refusing_world |} in
  reconnect_attempts (self (final run)) = 5 /\
  reconnect_attempts init <= reconnect_attempts (self (final run)).
Proof.
  cbv zeta. split; [reflexivity|].
  apply (loop_never_resets_counter sample_interpreter
           {| self := init; env := refusing_world |}).
  unfold quiet. cbn. repeat constructor.
Defined.
